(** * substrate-client: variant codec, record decoding and storage lookups

    A shallow embedding of the Go package [substrate] (entity.go, farm.go,
    the node file and the contract file) together with the properties of
    its tagged-variant codec, its version-dispatched record decoders and
    its derived-index lookups.

    Conventions.
    - A Go [byte], [uint32], [uint64] is a [Z] in the range of its width.
    - A Go function returning [(T, error)] is a computation returning
      [error + T]; a Go function returning [error] returns [error + unit].
    - A method with a pointer receiver ([func (p *T) Decode(...)]) takes the
      current value of the receiver and returns the updated one.
    - Stateful code (the byte stream of a decoder, the buffer of an encoder,
      the remote chain) is a state-and-error monad [M].
    - The client keeps, next to the state of the chain, the trace of its
      storage reads, decoding steps and submissions, so that what an
      operation did not do can be stated. *)

From Stdlib Require Import ZArith List String Ascii Bool Lia.
Import ListNotations.
Open Scope string_scope.
Open Scope list_scope.
Open Scope Z_scope.

Set Implicit Arguments.

(** ** Errors *)

(** Go [error] values that the package produces or passes on. *)
Inductive error : Type :=
| EOF                                         (* io.EOF *)
| ErrNotFound                                 (* package sentinel *)
| ErrUnknownVersion                           (* package sentinel *)
| Errorf (format : string) (args : list Z)    (* fmt.Errorf *)
| errors_New (msg : string)                   (* errors.New *)
| Wrap (cause : error) (message : string).    (* errors.Wrap *)

(** [errors.Cause]: the innermost error of a chain of [Wrap]s. *)
Fixpoint Cause (e : error) : error :=
  match e with
  | Wrap c _ => Cause c
  | _ => e
  end.

(** ** The state-and-error monad *)

Definition M (S A : Type) : Type := S -> (error + A) * S.

Definition ret {S A : Type} (a : A) : M S A := fun s => (inr a, s).

Definition fail {S A : Type} (e : error) : M S A := fun s => (inl e, s).

Definition bind {S A B : Type} (c : M S A) (k : A -> M S B) : M S B :=
  fun s =>
    match c s with
    | (inl e, s') => (inl e, s')
    | (inr a, s') => k a s'
    end.

(** [if err != nil { return errors.Wrap(err, msg) }] around a call. *)
Definition wrapErr {S A : Type} (c : M S A) (msg : string) : M S A :=
  fun s =>
    match c s with
    | (inl e, s') => (inl (Wrap e msg), s')
    | (inr a, s') => (inr a, s')
    end.

Declare Scope go_scope.
Delimit Scope go_scope with go.
Notation "x <- c ;; k" := (bind c (fun x => k))
  (at level 100, c at next level, right associativity) : go_scope.
Notation "c ;;; k" := (bind c (fun _ => k))
  (at level 100, right associativity) : go_scope.
Open Scope go_scope.

(** ** scale.Decoder and scale.Encoder *)

(** A decoder reads from a byte stream: its state is the input left. *)
Definition Decoder : Type := list Z.

(** An encoder appends to a buffer: its state is the output so far. *)
Definition Encoder : Type := list Z.

(** [decoder.ReadOneByte()] *)
Definition ReadOneByte : M Decoder Z :=
  fun d =>
    match d with
    | [] => (inl EOF, [])
    | b :: d' => (inr b, d')
    end.

(** [encoder.PushByte(b)] on an in-memory buffer. *)
Definition PushByte (b : Z) : M Encoder unit :=
  fun e => (inr tt, e ++ [b]).

(** ** The SCALE primitives of the codec library

    The package delegates integers, strings and sequences to the codec
    library ([encoder.Encode], [decoder.Decode]).  This module models the
    wire format of the kinds the package's types use: fixed-width
    little-endian integers, compact lengths, and length-prefixed byte
    strings and sequences.  A read past the end of the input is [EOF]. *)

Module Scale.

Definition MaxUint32 : Z := 4294967295.

(** [n] bytes of [v], least significant first. *)
Fixpoint le_bytes (n : nat) (v : Z) : list Z :=
  match n with
  | O => []
  | S k => v mod 256 :: le_bytes k (v / 256)
  end.

(** The value of a little-endian byte string. *)
Fixpoint le_value (bs : list Z) : Z :=
  match bs with
  | [] => 0
  | b :: r => b + 256 * le_value r
  end.

(** Reads exactly [n] bytes. *)
Definition Read (n : nat) : M Decoder (list Z) :=
  fun d =>
    if (List.length d <? n)%nat then (inl EOF, [])
    else (inr (firstn n d), skipn n d).

(** [encoder.Write(bs)] *)
Definition Write (bs : list Z) : M Encoder unit :=
  fun e => (inr tt, e ++ bs).

(** [types.U32]: four bytes, little-endian. *)
Definition EncodeU32 (v : Z) : M Encoder unit := Write (le_bytes 4 v).
Definition DecodeU32 : M Decoder Z := buf <- Read 4 ;; ret (le_value buf).

(** [types.U64]: eight bytes, little-endian. *)
Definition EncodeU64 (v : Z) : M Encoder unit := Write (le_bytes 8 v).
Definition DecodeU64 : M Decoder Z := buf <- Read 8 ;; ret (le_value buf).

(** The number of bytes of the shortest big-endian form of [v > 0]. *)
Definition numBytes (v : Z) : Z := Z.log2 v / 8 + 1.

(** [encoder.EncodeUintCompact(v)] *)
Definition EncodeUintCompact (v : Z) : M Encoder unit :=
  if v <? 0 then
    fail (errors_New "Assertion error: EncodeUintCompact cannot process negative numbers")
  else if v <? 2 ^ 6 then PushByte (Z.shiftl v 2)
  else if v <? 2 ^ 14 then Write (le_bytes 2 (Z.shiftl v 2 + 1))
  else if v <? 2 ^ 30 then Write (le_bytes 4 (Z.shiftl v 2 + 2))
  else if 63 <? numBytes v - 4 then
    fail (errors_New "Assertion error: n<=63 needed to compact-encode substrate unsigned big integer")
  else
    PushByte (Z.shiftl (numBytes v - 4) 2 + 3) ;;;
    Write (le_bytes (Z.to_nat (numBytes v)) v).

(** [decoder.DecodeUintCompact()] *)
Definition DecodeUintCompact : M Decoder Z :=
  b <- ReadOneByte ;;
  match Z.land b 3 with
  | 0 => ret (Z.shiftr b 2)
  | 1 => bb <- ReadOneByte ;; ret (Z.shiftl bb 6 + Z.shiftr b 2)
  | 2 => buf <- Read 3 ;; ret (Z.shiftr (le_value (b :: buf)) 2)
  | _ => buf <- Read (Z.to_nat (Z.shiftr b 2 + 4)) ;; ret (le_value buf)
  end.

(** Encodes the elements of a sequence one after the other. *)
Fixpoint encodeElems {T : Type} (enc : T -> M Encoder unit) (l : list T)
  : M Encoder unit :=
  match l with
  | [] => ret tt
  | x :: r => enc x ;;; encodeElems enc r
  end.

(** Decodes [n] elements, each into a fresh zero value. *)
Fixpoint decodeElems {T : Type} (zero : T) (dec : T -> M Decoder T) (n : nat)
  : M Decoder (list T) :=
  match n with
  | O => ret []
  | S k => x <- dec zero ;; r <- decodeElems zero dec k ;; ret (x :: r)
  end.

(** A slice [[]T]: the compact length, then the elements. *)
Definition EncodeSlice {T : Type} (enc : T -> M Encoder unit) (l : list T)
  : M Encoder unit :=
  EncodeUintCompact (Z.of_nat (List.length l)) ;;; encodeElems enc l.

Definition DecodeSlice {T : Type} (zero : T) (dec : T -> M Decoder T)
  : M Decoder (list T) :=
  n <- DecodeUintCompact ;;
  if MaxUint32 <? n then
    fail (errors_New "Encoded array length is higher than allowed by the protocol (32-bit unsigned integer)")
  else decodeElems zero dec (Z.to_nat n).

(** [[]byte]: a slice of single bytes. *)
Definition EncodeBytes (bs : list Z) : M Encoder unit := EncodeSlice PushByte bs.
Definition DecodeBytes : M Decoder (list Z) :=
  DecodeSlice 0 (fun _ => ReadOneByte).

(** A Go [string] is its bytes. *)
Definition bytesOfString (s : string) : list Z :=
  map (fun a => Z.of_N (N_of_ascii a)) (list_ascii_of_string s).
Definition stringOfBytes (bs : list Z) : string :=
  string_of_list_ascii (map (fun b => ascii_of_N (Z.to_N b)) bs).

Definition EncodeString (s : string) : M Encoder unit :=
  EncodeBytes (bytesOfString s).
Definition DecodeString : M Decoder string :=
  bs <- DecodeBytes ;; ret (stringOfBytes bs).

(** [types.EncodeToBytes(v)]: runs an encoder on an empty buffer. *)
Definition EncodeToBytes (enc : M Encoder unit) : error + list Z :=
  match enc [] with
  | (inl e, _) => inl e
  | (inr _, out) => inr out
  end.

(** [types.DecodeFromBytes(raw, &v)]: runs a decoder on [raw]; bytes left
    over are ignored. *)
Definition DecodeFromBytes {T : Type} (raw : list Z) (dec : M Decoder T)
  : error + T :=
  match dec raw with
  | (inl e, _) => inl e
  | (inr v, _) => inr v
  end.

End Scale.

(** ** farm.go: NodeCertification *)

Module NodeCertification.
Record t : Type := mk { IsDiy : bool; IsCertified : bool }.

(** [var p NodeCertification] *)
Definition zero : t := mk false false.

Definition Decode (p : t) : M Decoder t :=
  b <- ReadOneByte ;;
  match b with
  | 0 => ret (mk true (IsCertified p))
  | 1 => ret (mk (IsDiy p) true)
  | _ => fail (Errorf "unknown NodeCertification value %d" [b])
  end.

Definition Encode (p : t) : M Encoder unit :=
  if IsDiy p then PushByte 0
  else if IsCertified p then PushByte 1
  else ret tt.
End NodeCertification.

(** ** farm.go: FarmCertification *)

Module FarmCertification.
Record t : Type := mk { isNotCertified : bool; isGold : bool }.

Definition zero : t := mk false false.

Definition Decode (p : t) : M Decoder t :=
  b <- ReadOneByte ;;
  match b with
  | 0 => ret (mk true (isGold p))
  | 1 => ret (mk (isNotCertified p) true)
  | _ => fail (Errorf "unknown FarmCertification value" [])
  end.

Definition Encode (p : t) : M Encoder unit :=
  if isNotCertified p then PushByte 0
  else if isGold p then PushByte 1
  else ret tt.
End FarmCertification.

(** ** node file: Role *)

Module Role.
Record t : Type := mk { IsNode : bool; IsGateway : bool }.

Definition zero : t := mk false false.

Definition Decode (r : t) : M Decoder t :=
  b <- ReadOneByte ;;
  match b with
  | 0 => ret (mk true (IsGateway r))
  | 1 => ret (mk (IsNode r) true)
  | _ => fail (Errorf "unknown CertificateType value" [])
  end.

Definition Encode (r : t) : M Encoder unit :=
  if IsNode r then PushByte 0
  else if IsGateway r then PushByte 1
  else ret tt.
End Role.

(** ** contract file: DeletedState *)

Module DeletedState.
Record t : Type := mk { IsCanceledByUser : bool; IsOutOfFunds : bool }.

Definition zero : t := mk false false.

(** [case 2:] has an empty body: the byte is accepted and no field is
    set. *)
Definition Decode (r : t) : M Decoder t :=
  b <- ReadOneByte ;;
  match b with
  | 0 => ret (mk true (IsOutOfFunds r))
  | 1 => ret (mk (IsCanceledByUser r) true)
  | 2 => ret r
  | _ => fail (Errorf "unknown deleted state value" [])
  end.

Definition Encode (r : t) : M Encoder unit :=
  if IsCanceledByUser r then PushByte 0
  else if IsOutOfFunds r then PushByte 1
  else ret tt.
End DeletedState.

(** ** contract file: ContractState *)

Module ContractState.
Record t : Type := mk {
  IsCreated : bool;
  IsDeleted : bool;
  AsDeleted : DeletedState.t;
  IsGracePeriod : bool;
  AsGracePeriodBlockNumber : Z
}.

Definition zero : t := mk false false DeletedState.zero false 0.

Definition Decode (r : t) : M Decoder t :=
  b <- ReadOneByte ;;
  match b with
  | 0 =>
      ret (mk true (IsDeleted r) (AsDeleted r) (IsGracePeriod r)
              (AsGracePeriodBlockNumber r))
  | 1 =>
      d <- wrapErr (DeletedState.Decode (AsDeleted r))
                   "failed to get deleted state" ;;
      ret (mk (IsCreated r) true d (IsGracePeriod r)
              (AsGracePeriodBlockNumber r))
  | 2 =>
      n <- wrapErr Scale.DecodeU64 "failed to get grace period" ;;
      ret (mk (IsCreated r) (IsDeleted r) (AsDeleted r) true n)
  | _ => fail (Errorf "unknown ContractState value" [])
  end.

Definition Encode (r : t) : M Encoder unit :=
  if IsCreated r then PushByte 0
  else if IsDeleted r then
    PushByte 1 ;;; DeletedState.Encode (AsDeleted r)
  else if IsGracePeriod r then
    PushByte 2 ;;; Scale.EncodeU64 (AsGracePeriodBlockNumber r)
  else ret tt.
End ContractState.

(** ** farm.go: PublicIP *)

Module PublicIP.
Record t : Type := mk { IP : string; Gateway : string; ContractID : Z }.

Definition zero : t := mk "" "" 0.

(** The codec library encodes a struct field by field, in order. *)
Definition Encode (p : t) : M Encoder unit :=
  Scale.EncodeString (IP p) ;;;
  Scale.EncodeString (Gateway p) ;;;
  Scale.EncodeU64 (ContractID p).

Definition Decode (_ : t) : M Decoder t :=
  ip <- Scale.DecodeString ;;
  gw <- Scale.DecodeString ;;
  id <- Scale.DecodeU64 ;;
  ret (mk ip gw id).
End PublicIP.

(** ** contract file: the payloads of ContractType *)

Module NodeContract.
Record t : Type := mk {
  Node : Z;
  DeploymentData : list Z;
  DeploymentHash : string;
  PublicIPsCount : Z;
  PublicIPs : list PublicIP.t
}.

Definition zero : t := mk 0 [] "" 0 [].

Definition Encode (c : t) : M Encoder unit :=
  Scale.EncodeU32 (Node c) ;;;
  Scale.EncodeBytes (DeploymentData c) ;;;
  Scale.EncodeString (DeploymentHash c) ;;;
  Scale.EncodeU32 (PublicIPsCount c) ;;;
  Scale.EncodeSlice PublicIP.Encode (PublicIPs c).

Definition Decode (_ : t) : M Decoder t :=
  node <- Scale.DecodeU32 ;;
  data <- Scale.DecodeBytes ;;
  hash <- Scale.DecodeString ;;
  count <- Scale.DecodeU32 ;;
  ips <- Scale.DecodeSlice PublicIP.zero PublicIP.Decode ;;
  ret (mk node data hash count ips).
End NodeContract.

Module NameContract.
Record t : Type := mk { Name : string }.

Definition zero : t := mk "".

Definition Encode (c : t) : M Encoder unit := Scale.EncodeString (Name c).

Definition Decode (_ : t) : M Decoder t :=
  name <- Scale.DecodeString ;; ret (mk name).
End NameContract.

Module RentContract.
Record t : Type := mk { Node : Z }.

Definition zero : t := mk 0.

Definition Encode (c : t) : M Encoder unit := Scale.EncodeU32 (Node c).

Definition Decode (_ : t) : M Decoder t :=
  node <- Scale.DecodeU32 ;; ret (mk node).
End RentContract.

(** ** contract file: ContractType *)

Module ContractType.
Record t : Type := mk {
  IsNodeContract : bool;
  NodeContract : NodeContract.t;
  IsNameContract : bool;
  NameContract : NameContract.t;
  IsRentContract : bool;
  RentContract : RentContract.t
}.

Definition zero : t :=
  mk false NodeContract.zero false NameContract.zero false RentContract.zero.

Definition Decode (r : t) : M Decoder t :=
  b <- ReadOneByte ;;
  match b with
  | 0 =>
      c <- NodeContract.Decode (NodeContract r) ;;
      ret (mk true c (IsNameContract r) (NameContract r)
              (IsRentContract r) (RentContract r))
  | 1 =>
      c <- NameContract.Decode (NameContract r) ;;
      ret (mk (IsNodeContract r) (NodeContract r) true c
              (IsRentContract r) (RentContract r))
  | 2 =>
      c <- RentContract.Decode (RentContract r) ;;
      ret (mk (IsNodeContract r) (NodeContract r) (IsNameContract r)
              (NameContract r) true c)
  | _ => fail (Errorf "unknown contract type value" [])
  end.

Definition Encode (r : t) : M Encoder unit :=
  if IsNodeContract r then
    PushByte 0 ;;; NodeContract.Encode (NodeContract r)
  else if IsNameContract r then
    PushByte 1 ;;; NameContract.Encode (NameContract r)
  else if IsRentContract r then
    PushByte 2 ;;; RentContract.Encode (RentContract r)
  else ret tt.
End ContractType.

(** ** Versioned *)

Module Versioned.
(** Modelled from the spec: the declaration of [Versioned] is not in these
    files.  A persisted record is "always prefixed on the wire by a
    single-byte schema version", and "the in-memory representation stores
    the parsed version alongside the typed fields". *)
Record t : Type := mk { Version : Z }.

Definition zero : t := mk 0.

Definition Encode (v : t) : M Encoder unit := PushByte (Version v).

Definition Decode (_ : t) : M Decoder t :=
  b <- ReadOneByte ;; ret (mk b).
End Versioned.

(** ** contract file: Contract *)

Module Contract.
Record t : Type := mk {
  Versioned : Versioned.t;
  State : ContractState.t;
  ContractID : Z;
  TwinID : Z;
  ContractType : ContractType.t
}.

Definition zero : t :=
  mk Versioned.zero ContractState.zero 0 0 ContractType.zero.

Definition Encode (c : t) : M Encoder unit :=
  Versioned.Encode (Versioned c) ;;;
  ContractState.Encode (State c) ;;;
  Scale.EncodeU64 (ContractID c) ;;;
  Scale.EncodeU32 (TwinID c) ;;;
  ContractType.Encode (ContractType c).

Definition Decode (c : t) : M Decoder t :=
  v <- Versioned.Decode (Versioned c) ;;
  st <- ContractState.Decode (State c) ;;
  id <- Scale.DecodeU64 ;;
  twin <- Scale.DecodeU32 ;;
  ty <- ContractType.Decode (ContractType c) ;;
  ret (mk v st id twin ty).
End Contract.

(** ** node file: the data of a node *)

Module Resources.
Record t : Type := mk { HRU : Z; SRU : Z; CRU : Z; MRU : Z }.
End Resources.

Module Location.
Record t : Type := mk { Longitude : string; Latitude : string }.
End Location.

Module PublicConfig.
Record t : Type := mk {
  IPv4 : string; IPv6 : string; GWv4 : string; GWv6 : string; Domain : string
}.
End PublicConfig.

Module OptionPublicConfig.
Record t : Type := mk { HasValue : bool; AsValue : PublicConfig.t }.
End OptionPublicConfig.

Module Interface.
Record t : Type := mk { Name : string; Mac : string; IPs : list string }.
End Interface.

Module Node.
(** The type of [CertificationType] is declared outside these files. *)
Record t (CertT : Type) : Type := mk {
  Versioned : Versioned.t;
  ID : Z;
  FarmID : Z;
  TwinID : Z;
  Resources : Resources.t;
  Location : Location.t;
  Country : string;
  City : string;
  PublicConfig : OptionPublicConfig.t;
  Created : Z;
  FarmingPolicy : Z;
  Interfaces : list Interface.t;
  CertificationType : CertT
}.
End Node.

(** ** entity.go: Entity *)

Module Entity.
(** [AccountID] is declared outside these files. *)
Record t (AccountID : Type) : Type := mk {
  Versioned : Versioned.t;
  ID : Z;
  Name : string;
  Account : AccountID;
  Country : string;
  City : string
}.
End Entity.

(** ** farm.go: Farm *)

Module FarmingPolicyLimit.
Record t : Type := mk {
  FarmingPolicyID : Z;
  Cu : option Z;
  Su : option Z;
  End_ : option Z;
  NodeCount : option Z;
  NodeCertification : bool
}.
End FarmingPolicyLimit.

Module OptionFarmingPolicyLimit.
Record t : Type := mk { HasValue : bool; AsValue : FarmingPolicyLimit.t }.
End OptionFarmingPolicyLimit.

Module Farm.
Record t : Type := mk {
  Versioned : Versioned.t;
  ID : Z;
  Name : string;
  TwinID : Z;
  PricingPolicyID : Z;
  CertificationType : FarmCertification.t;
  PublicIPs : list PublicIP.t;
  DedicatedFarm : bool;
  FarmingPoliciesLimit : OptionFarmingPolicyLimit.t
}.
End Farm.

(** ** The chain connection *)

(** An argument of [types.NewCall]. *)
Inductive Arg : Type :=
| ArgU32 (v : Z)
| ArgString (s : string)
| ArgResources (r : Resources.t)
| ArgLocation (l : Location.t)
| ArgInterfaces (l : list Interface.t).

(** The record kinds kept in storage. *)
Inductive RecordKind : Type := KEntity | KNode | KFarm | KContract.

(** What the package takes from outside these files: the connection pool,
    the RPC client, the metadata, the key construction, the reflective
    decoding of the records whose fields depend on declarations outside
    these files, and the submission of extrinsics.  [Chain] is the state of
    the remote chain; a submission may change it. *)
Class Backend : Type := {
  Chain : Type;
  Conn : Type;
  Meta : Type;
  StorageKey : Type;
  Call_ : Type;
  Hash : Type;
  Identity : Type;
  AccountID : Type;
  CertificationType : Type;
  (* s.pool.Get() and s.getClient() *)
  pool_Get_ : Chain -> error + (Conn * Meta);
  getClient_ : Chain -> error + (Conn * Meta);
  (* types.CreateStorageKey(meta, module, item, args...) *)
  CreateStorageKey : Meta -> string -> string -> list (list Z) ->
                     error + StorageKey;
  (* cl.RPC.State.GetStorageRawLatest(key) *)
  GetStorageRawLatest_ : Conn -> StorageKey -> Chain -> error + list Z;
  (* types.DecodeFromBytes(raw, &entity), (raw, &node), (raw, &farm) *)
  DecodeEntity : list Z -> error + Entity.t AccountID;
  DecodeNode : list Z -> error + Node.t CertificationType;
  DecodeFarm : list Z -> error + Farm.t;
  (* types.NewCall(meta, name, args...) *)
  NewCall : Meta -> string -> list Arg -> error + Call_;
  (* s.Call(cl, meta, identity, c) *)
  Call_submit : Conn -> Meta -> Identity -> Call_ -> Chain ->
                (error + Hash) * Chain;
  (* s.checkForError(cl, meta, blockHash, account) *)
  checkForError_ : Conn -> Meta -> Hash -> AccountID -> Chain -> option error;
  (* types.NewAccountID(identity.PublicKey()) *)
  accountOf : Identity -> AccountID
}.

Section Client.
Context {B : Backend}.

(** What the client does to the chain and to the raw records, in order. *)
Inductive Event : Type :=
| EvRead (key : StorageKey)                   (* a raw storage read *)
| EvGetVersion (raw : list Z)                 (* s.getVersion(raw) *)
| EvDecode (kind : RecordKind) (raw : list Z) (* structural decode *)
| EvCall (c : Call_)                          (* s.Call *)
| EvCheckForError (h : Hash).                 (* s.checkForError *)

Record World : Type := mkWorld { chain : Chain; trace : list Event }.

(** The world after the events [evs]. *)
Definition after (w : World) (evs : list Event) : World :=
  mkWorld (chain w) (trace w ++ evs).

Definition log (ev : Event) : M World unit :=
  fun w => (inr tt, mkWorld (chain w) (trace w ++ [ev])).

(** A result that does not touch the world. *)
Definition lift {A : Type} (r : error + A) : M World A :=
  fun w => (r, w).

Definition pool_Get : M World (Conn * Meta) :=
  fun w => (pool_Get_ (chain w), w).

Definition getClient : M World (Conn * Meta) :=
  fun w => (getClient_ (chain w), w).

Definition GetStorageRawLatest (cl : Conn) (key : StorageKey)
  : M World (list Z) :=
  log (EvRead key) ;;;
  fun w => (GetStorageRawLatest_ cl key (chain w), w).

(** [cl.RPC.State.GetStorageLatest(key, &target)]: reads the raw value;
    an empty value leaves the target as it is and answers [ok = false],
    otherwise the value is decoded into the target. *)
Definition GetStorageLatest {T : Type} (cl : Conn) (key : StorageKey)
  (dec : M Decoder T) (target : T) : M World (bool * T) :=
  raw <- GetStorageRawLatest cl key ;;
  if (List.length raw =? 0)%nat then ret (false, target)
  else
    v <- lift (Scale.DecodeFromBytes raw dec) ;;
    ret (true, v).

(** [types.DecodeFromBytes(raw, &record)] for a stored record. *)
Definition DecodeRecord {T : Type} (kind : RecordKind) (raw : list Z)
  (dec : list Z -> error + T) : M World T :=
  log (EvDecode kind raw) ;;; lift (dec raw).

(** Modelled from the spec: [getVersion] is not in these files.  "First
    byte of a nonempty buffer is the schema version." *)
Definition getVersion (raw : list Z) : M World Z :=
  log (EvGetVersion raw) ;;;
  lift (Scale.DecodeFromBytes raw ReadOneByte).

Definition Call (cl : Conn) (meta : Meta) (identity : Identity) (c : Call_)
  : M World Hash :=
  log (EvCall c) ;;;
  fun w =>
    let (r, ch) := Call_submit cl meta identity c (chain w) in
    (r, mkWorld ch (trace w)).

Definition checkForError (cl : Conn) (meta : Meta) (blockHash : Hash)
  (account : AccountID) : M World unit :=
  log (EvCheckForError blockHash) ;;;
  fun w =>
    match checkForError_ cl meta blockHash account (chain w) with
    | Some e => (inl e, w)
    | None => (inr tt, w)
    end.

(** *** entity.go *)

Definition GetEntity (id : Z) : M World (Entity.t AccountID) :=
  cm <- getClient ;;
  let (cl, meta) := cm in
  bytes <- wrapErr (lift (Scale.EncodeToBytes (Scale.EncodeU32 id)))
             "substrate: encoding error building query arguments" ;;
  key <- wrapErr (lift (CreateStorageKey meta "TfgridModule" "Entities"
                          [bytes; []]))
           "failed to create substrate query key" ;;
  raw <- wrapErr (GetStorageRawLatest cl key) "failed to lookup entity" ;;
  if (List.length raw =? 0)%nat then
    fail (Wrap ErrNotFound "entity not found")
  else
    version <- getVersion raw ;;
    match version with
    | 1 => wrapErr (DecodeRecord KEntity raw DecodeEntity)
             "failed to load object"
    | _ => fail ErrUnknownVersion
    end.

(** *** farm.go *)

Definition GetFarm (id : Z) : M World Farm.t :=
  cm <- getClient ;;
  let (cl, meta) := cm in
  bytes <- wrapErr (lift (Scale.EncodeToBytes (Scale.EncodeU32 id)))
             "substrate: encoding error building query arguments" ;;
  key <- wrapErr (lift (CreateStorageKey meta "TfgridModule" "Farms"
                          [bytes; []]))
           "failed to create substrate query key" ;;
  raw <- wrapErr (GetStorageRawLatest cl key) "failed to lookup entity" ;;
  if (List.length raw =? 0)%nat then
    fail (Wrap ErrNotFound "farm not found")
  else
    version <- getVersion raw ;;
    match version with
    | 3 | 2 | 1 =>
        wrapErr (DecodeRecord KFarm raw DecodeFarm) "failed to load object"
    | _ => fail ErrUnknownVersion
    end.

(** *** node file *)

Definition GetNodeByTwinID (twin : Z) : M World Z :=
  cm <- pool_Get ;;
  let (cl, meta) := cm in
  bytes <- lift (Scale.EncodeToBytes (Scale.EncodeU32 twin)) ;;
  key <- wrapErr (lift (CreateStorageKey meta "TfgridModule" "NodeIdByTwinID"
                          [bytes; []]))
           "failed to create substrate query key" ;;
  r <- wrapErr (GetStorageLatest cl key Scale.DecodeU32 0)
         "failed to lookup entity" ;;
  let (ok, id) := r in
  if negb ok || (id =? 0) then fail (Wrap ErrNotFound "node not found")
  else ret id.

Definition getNode (cl : Conn) (key : StorageKey)
  : M World (Node.t CertificationType) :=
  raw <- wrapErr (GetStorageRawLatest cl key) "failed to lookup entity" ;;
  if (List.length raw =? 0)%nat then
    fail (Wrap ErrNotFound "node not found")
  else
    version <- getVersion raw ;;
    match version with
    | 0 | 1 | 2 =>
        wrapErr (DecodeRecord KNode raw DecodeNode) "failed to load object"
    | _ => fail ErrUnknownVersion
    end.

Definition GetNode (id : Z) : M World (Node.t CertificationType) :=
  cm <- pool_Get ;;
  let (cl, meta) := cm in
  bytes <- wrapErr (lift (Scale.EncodeToBytes (Scale.EncodeU32 id)))
             "substrate: encoding error building query arguments" ;;
  key <- wrapErr (lift (CreateStorageKey meta "TfgridModule" "Nodes"
                          [bytes; []]))
           "failed to create substrate query key" ;;
  getNode cl key.

(** The hash that [s.Call] returns is dropped. *)
Definition CreateNode (identity : Identity) (node : Node.t CertificationType)
  : M World Z :=
  cm <- pool_Get ;;
  let (cl, meta) := cm in
  if Node.TwinID node =? 0 then fail (Errorf "twin id is required" [])
  else
    c <- wrapErr (lift (NewCall meta "TfgridModule.create_node"
                          [ArgU32 (Node.FarmID node);
                           ArgResources (Node.Resources node);
                           ArgLocation (Node.Location node);
                           ArgString (Node.Country node);
                           ArgString (Node.City node);
                           ArgInterfaces (Node.Interfaces node)]))
           "failed to create call" ;;
    _ <- wrapErr (Call cl meta identity c) "failed to create node" ;;
    GetNodeByTwinID (Node.TwinID node).

(** The hash that [s.Call] returns is only written to the debug log. *)
Definition UpdateNode (identity : Identity) (node : Node.t CertificationType)
  : M World Z :=
  cm <- pool_Get ;;
  let (cl, meta) := cm in
  if Node.TwinID node =? 0 then fail (Errorf "twin id is required" [])
  else
    c <- wrapErr (lift (NewCall meta "TfgridModule.update_node"
                          [ArgU32 (Node.ID node);
                           ArgU32 (Node.FarmID node);
                           ArgResources (Node.Resources node);
                           ArgLocation (Node.Location node);
                           ArgString (Node.Country node);
                           ArgString (Node.City node);
                           ArgInterfaces (Node.Interfaces node)]))
           "failed to create call" ;;
    _ <- wrapErr (Call cl meta identity c) "failed to update node" ;;
    GetNodeByTwinID (Node.TwinID node).

(** *** contract file *)

Definition CreateRentContract (identity : Identity) (node : Z) : M World Z :=
  cm <- getClient ;;
  let (cl, meta) := cm in
  c <- wrapErr (lift (NewCall meta "SmartContractModule.create_rent_contract"
                        [ArgU32 node]))
         "failed to create call" ;;
  blockHash <- wrapErr (Call cl meta identity c)
                 "failed to create rent contract" ;;
  checkForError cl meta blockHash (accountOf identity) ;;;
  ret 0.

Definition getContract (cl : Conn) (key : StorageKey) : M World Contract.t :=
  raw <- wrapErr (GetStorageRawLatest cl key) "failed to lookup contract" ;;
  if (List.length raw =? 0)%nat then
    fail (Wrap ErrNotFound "contract not found")
  else
    wrapErr (DecodeRecord KContract raw
               (fun raw =>
                  Scale.DecodeFromBytes raw (Contract.Decode Contract.zero)))
      "failed to load object".

Definition GetContract (id : Z) : M World Contract.t :=
  cm <- getClient ;;
  let (cl, meta) := cm in
  bytes <- wrapErr (lift (Scale.EncodeToBytes (Scale.EncodeU64 id)))
             "substrate: encoding error building query arguments" ;;
  key <- wrapErr (lift (CreateStorageKey meta "SmartContractModule"
                          "Contracts" [bytes; []]))
           "failed to create substrate query key" ;;
  getContract cl key.

Definition GetContractWithHash (node : Z) (hash : string) : M World Z :=
  cm <- getClient ;;
  let (cl, meta) := cm in
  nodeBytes <- lift (Scale.EncodeToBytes (Scale.EncodeU32 node)) ;;
  hashBytes <- lift (Scale.EncodeToBytes (Scale.EncodeString hash)) ;;
  key <- wrapErr (lift (CreateStorageKey meta "SmartContractModule"
                          "ContractIDByNodeIDAndHash"
                          [nodeBytes; hashBytes; []]))
           "failed to create substrate query key" ;;
  r <- wrapErr (GetStorageLatest cl key Scale.DecodeU64 0)
         "failed to lookup contracts" ;;
  let contract := snd r in
  if contract =? 0 then fail (Wrap ErrNotFound "contract not found")
  else ret contract.

Definition GetContractIDByNameRegistration (name : string) : M World Z :=
  cm <- getClient ;;
  let (cl, meta) := cm in
  nameBytes <- lift (Scale.EncodeToBytes (Scale.EncodeString name)) ;;
  key <- wrapErr (lift (CreateStorageKey meta "SmartContractModule"
                          "ContractIDByNameRegistration" [nameBytes; []]))
           "failed to create substrate query key" ;;
  r <- wrapErr (GetStorageLatest cl key Scale.DecodeU64 0)
         "failed to lookup contracts" ;;
  let contract := snd r in
  if contract =? 0 then fail (Wrap ErrNotFound "contract not found")
  else ret contract.

End Client.

(** ** Well-formed values *)

(** The number of flags that are set. *)
Definition countTrue (l : list bool) : nat := List.length (filter id l).

(** Exactly one flag is set. *)
Definition exactlyOne (l : list bool) : Prop := countTrue l = 1%nat.

(** The boolean discriminants of each variant type. *)
Definition NodeCertification_flags (p : NodeCertification.t) : list bool :=
  [NodeCertification.IsDiy p; NodeCertification.IsCertified p].

Definition FarmCertification_flags (p : FarmCertification.t) : list bool :=
  [FarmCertification.isNotCertified p; FarmCertification.isGold p].

Definition Role_flags (r : Role.t) : list bool :=
  [Role.IsNode r; Role.IsGateway r].

Definition DeletedState_flags (r : DeletedState.t) : list bool :=
  [DeletedState.IsCanceledByUser r; DeletedState.IsOutOfFunds r].

Definition ContractState_flags (r : ContractState.t) : list bool :=
  [ContractState.IsCreated r; ContractState.IsDeleted r;
   ContractState.IsGracePeriod r].

Definition ContractType_flags (r : ContractType.t) : list bool :=
  [ContractType.IsNodeContract r; ContractType.IsNameContract r;
   ContractType.IsRentContract r].

(** The ranges of the Go types. *)
Definition isU32 (v : Z) : Prop := 0 <= v < 2 ^ 32.
Definition isU64 (v : Z) : Prop := 0 <= v < 2 ^ 64.

(** A sequence whose length the wire format can carry. *)
Definition isSeq {T : Type} (l : list T) : Prop :=
  Z.of_nat (List.length l) <= Scale.MaxUint32.

Definition isString (s : string) : Prop := isSeq (Scale.bytesOfString s).

Definition PublicIP_wf (p : PublicIP.t) : Prop :=
  isString (PublicIP.IP p) /\ isString (PublicIP.Gateway p) /\
  isU64 (PublicIP.ContractID p).

Definition NodeContract_wf (c : NodeContract.t) : Prop :=
  isU32 (NodeContract.Node c) /\
  isSeq (NodeContract.DeploymentData c) /\
  isString (NodeContract.DeploymentHash c) /\
  isU32 (NodeContract.PublicIPsCount c) /\
  isSeq (NodeContract.PublicIPs c) /\
  Forall PublicIP_wf (NodeContract.PublicIPs c).

Definition NameContract_wf (c : NameContract.t) : Prop :=
  isString (NameContract.Name c).

Definition RentContract_wf (c : RentContract.t) : Prop :=
  isU32 (RentContract.Node c).

(** A valid alternative of [ContractState]: exactly one discriminant is
    set, the payload of the active alternative is itself valid, and every
    field is in the range of its type. *)
Definition ContractState_valid (r : ContractState.t) : Prop :=
  exactlyOne (ContractState_flags r) /\
  (ContractState.IsDeleted r = true ->
   exactlyOne (DeletedState_flags (ContractState.AsDeleted r))) /\
  isU64 (ContractState.AsGracePeriodBlockNumber r).

(** A valid alternative of [ContractType]. *)
Definition ContractType_valid (r : ContractType.t) : Prop :=
  exactlyOne (ContractType_flags r) /\
  NodeContract_wf (ContractType.NodeContract r) /\
  NameContract_wf (ContractType.NameContract r) /\
  RentContract_wf (ContractType.RentContract r).

(** The payload fields of the alternatives that are not active hold their
    zero values. *)
Definition ContractState_idle_zero (r : ContractState.t) : Prop :=
  (ContractState.IsDeleted r = false ->
   ContractState.AsDeleted r = DeletedState.zero) /\
  (ContractState.IsGracePeriod r = false ->
   ContractState.AsGracePeriodBlockNumber r = 0).

Definition ContractType_idle_zero (r : ContractType.t) : Prop :=
  (ContractType.IsNodeContract r = false ->
   ContractType.NodeContract r = NodeContract.zero) /\
  (ContractType.IsNameContract r = false ->
   ContractType.NameContract r = NameContract.zero) /\
  (ContractType.IsRentContract r = false ->
   ContractType.RentContract r = RentContract.zero).

(** [decode(encode(v)) == v]: encoding [v] into an empty buffer succeeds,
    and decoding the bytes written into a zero value gives [v] back and
    uses all of them. *)
Definition roundTrip {T : Type} (enc : T -> M Encoder unit)
  (dec : T -> M Decoder T) (zero v : T) : Prop :=
  exists bs, enc v [] = (inr tt, bs) /\ dec zero bs = (inr v, []).

(** The same for an encoder and a decoder in the middle of a stream. *)
Definition inverse {T : Type} (enc : M Encoder unit) (dec : M Decoder T)
  (v : T) : Prop :=
  exists bs,
    (forall out, enc out = (inr tt, out ++ bs)) /\
    (forall rest, dec (bs ++ rest) = (inr v, rest)).

(** Every error that [c] can return satisfies [P]. *)
Definition fails_with {S A : Type} (P : error -> Prop) (c : M S A) : Prop :=
  forall s e s', c s = (inl e, s') -> P e.

(** An error of the decoding itself: at its root neither of the package's
    sentinels. *)
Definition decodeError (e : error) : Prop :=
  Cause e <> ErrUnknownVersion /\ Cause e <> ErrNotFound.

(** ** A simulated chain

    A small instance of [Backend] on which the client runs: the storage is
    a list of keys and raw values, a key is the module, the item and the
    encoded arguments, and submitting [create_node] or [update_node] as the
    twin [identity] files node 7 under that twin in [NodeIdByTwinID].  The
    reflective decoders accept every buffer. *)

Module Sim.

Definition Key : Type := (string * string * list (list Z))%type.

Definition Store : Type := list (Key * list Z).

Fixpoint list_eqb {A : Type} (eqb : A -> A -> bool) (a b : list A) : bool :=
  match a, b with
  | [], [] => true
  | x :: a', y :: b' => eqb x y && list_eqb eqb a' b'
  | _, _ => false
  end.

Definition key_eqb (a b : Key) : bool :=
  let '(m1, i1, args1) := a in
  let '(m2, i2, args2) := b in
  String.eqb m1 m2 && String.eqb i1 i2 && list_eqb (list_eqb Z.eqb) args1 args2.

(** The raw value under a key; empty when the key is absent. *)
Definition lookup (k : Key) (st : Store) : list Z :=
  match find (fun kv => key_eqb k (fst kv)) st with
  | Some kv => snd kv
  | None => []
  end.

Definition nodeIndexKey (twin : Z) : Key :=
  ("TfgridModule", "NodeIdByTwinID", [Scale.le_bytes 4 twin; []]).

Definition submit (identity : Z) (c : string * list Arg) (st : Store)
  : (error + Z) * Store :=
  if String.eqb (fst c) "TfgridModule.create_node"
     || String.eqb (fst c) "TfgridModule.update_node"
  then (inr 99, (nodeIndexKey identity, Scale.le_bytes 4 7) :: st)
  else (inr 99, st).

Definition backend : Backend := {|
  Chain := Store;
  Conn := unit;
  Meta := unit;
  StorageKey := Key;
  Call_ := string * list Arg;
  Hash := Z;
  Identity := Z;
  AccountID := Z;
  CertificationType := unit;
  pool_Get_ := fun _ => inr (tt, tt);
  getClient_ := fun _ => inr (tt, tt);
  CreateStorageKey := fun _ m i args => inr (m, i, args);
  GetStorageRawLatest_ := fun _ k st => inr (lookup k st);
  DecodeEntity := fun raw =>
    inr (Entity.mk (Versioned.mk (hd 0 raw)) 0 "" 0 "" "");
  DecodeNode := fun raw =>
    inr (Node.mk (Versioned.mk (hd 0 raw)) 0 0 0 (Resources.mk 0 0 0 0)
           (Location.mk "" "") "" ""
           (OptionPublicConfig.mk false (PublicConfig.mk "" "" "" "" ""))
           0 0 [] tt);
  DecodeFarm := fun raw =>
    inr (Farm.mk (Versioned.mk (hd 0 raw)) 0 "" 0 0 FarmCertification.zero []
           false
           (OptionFarmingPolicyLimit.mk false
              (FarmingPolicyLimit.mk 0 None None None None false)));
  NewCall := fun _ name args => inr (name, args);
  Call_submit := fun _ _ identity c st => submit identity c st;
  checkForError_ := fun _ _ _ _ _ => None;
  accountOf := fun identity => identity
|}.

(** Sample data. *)

Definition entityKey : Key := ("TfgridModule", "Entities", [Scale.le_bytes 4 5; []]).
Definition nodeKey : Key := ("TfgridModule", "Nodes", [Scale.le_bytes 4 5; []]).
Definition farmKey : Key := ("TfgridModule", "Farms", [Scale.le_bytes 4 5; []]).
Definition contractKey : Key :=
  ("SmartContractModule", "Contracts", [Scale.le_bytes 8 5; []]).
Definition hashKey : Key :=
  ("SmartContractModule", "ContractIDByNodeIDAndHash",
   [Scale.le_bytes 4 5; [4; 104]; []]).
Definition nameKey : Key :=
  ("SmartContractModule", "ContractIDByNameRegistration", [[4; 110]; []]).

(** A rent contract on node 5 for twin 1, in state "created", stored
    under version 9. *)
Definition contractBytes : list Z :=
  [9; 0; 3; 0; 0; 0; 0; 0; 0; 0; 1; 0; 0; 0; 2; 5; 0; 0; 0].

Definition contractValue : Contract.t :=
  Contract.mk (Versioned.mk 9)
    (ContractState.mk true false DeletedState.zero false 0) 3 1
    (ContractType.mk false NodeContract.zero false NameContract.zero true
       (RentContract.mk 5)).

(** Records 5 stored under version 9; the node index of twin 42 holds 0. *)
Definition store : Store :=
  [(entityKey, [9; 1; 2]); (nodeKey, [9; 1; 2]); (farmKey, [9; 1; 2]);
   (contractKey, contractBytes); (nodeIndexKey 42, [0; 0; 0; 0])].

Definition node : Node.t unit :=
  Node.mk (Versioned.mk 1) 0 3 42 (Resources.mk 1 2 3 4)
    (Location.mk "3.7" "51.0") "BE" "Ghent"
    (OptionPublicConfig.mk false (PublicConfig.mk "" "" "" "" ""))
    0 0 [] tt.

Definition world (st : Store) : @World backend := @mkWorld backend st [].

End Sim.

(** * The rest of the package *)

(** ** The codec library: booleans and optional integers

    [FarmingPolicyLimit] has fields of the library types [types.OptionU64]
    and [types.OptionU32] and a [bool]; on the wire an optional integer is
    the byte 0, or the byte 1 and the integer, and a [bool] is the byte 0
    or 1. *)

Module ScaleOption.

Definition EncodeBool (b : bool) : M Encoder unit :=
  if b then PushByte 1 else PushByte 0.

Definition DecodeBool : M Decoder bool :=
  b <- ReadOneByte ;;
  match b with
  | 0 => ret false
  | 1 => ret true
  | _ => fail (Errorf "Unknown byte prefix for encoded bool: %d" [b])
  end.

(** [encoder.EncodeOption(hasValue, value)] *)
Definition EncodeOption (enc : Z -> M Encoder unit) (o : option Z)
  : M Encoder unit :=
  match o with
  | None => PushByte 0
  | Some v => PushByte 1 ;;; enc v
  end.

(** [decoder.DecodeOption(&hasValue, &value)] *)
Definition DecodeOption (dec : M Decoder Z) : M Decoder (option Z) :=
  b <- ReadOneByte ;;
  match b with
  | 0 => ret None
  | 1 => v <- dec ;; ret (Some v)
  | _ => fail (Errorf "Unknown byte prefix for encoded OptionBool: %d" [b])
  end.

End ScaleOption.

(** ** node file: OptionPublicConfig *)

Definition PublicConfig_zero : PublicConfig.t := PublicConfig.mk "" "" "" "" "".

(** [encoder.Encode(m.AsValue)]: the struct, field by field. *)
Definition PublicConfig_Encode (c : PublicConfig.t) : M Encoder unit :=
  Scale.EncodeString (PublicConfig.IPv4 c) ;;;
  Scale.EncodeString (PublicConfig.IPv6 c) ;;;
  Scale.EncodeString (PublicConfig.GWv4 c) ;;;
  Scale.EncodeString (PublicConfig.GWv6 c) ;;;
  Scale.EncodeString (PublicConfig.Domain c).

(** [decoder.Decode(&m.AsValue)] *)
Definition PublicConfig_Decode (_ : PublicConfig.t) : M Decoder PublicConfig.t :=
  ipv4 <- Scale.DecodeString ;;
  ipv6 <- Scale.DecodeString ;;
  gwv4 <- Scale.DecodeString ;;
  gwv6 <- Scale.DecodeString ;;
  domain <- Scale.DecodeString ;;
  ret (PublicConfig.mk ipv4 ipv6 gwv4 gwv6 domain).

Definition OptionPublicConfig_zero : OptionPublicConfig.t :=
  OptionPublicConfig.mk false PublicConfig_zero.

Definition OptionPublicConfig_Encode (m : OptionPublicConfig.t)
  : M Encoder unit :=
  let i := if OptionPublicConfig.HasValue m then 1 else 0 in
  PushByte i ;;;
  if OptionPublicConfig.HasValue m then
    PublicConfig_Encode (OptionPublicConfig.AsValue m)
  else ret tt.

(** [decoder.Decode(&i)] on a [byte] reads one byte. *)
Definition OptionPublicConfig_Decode (m : OptionPublicConfig.t)
  : M Decoder OptionPublicConfig.t :=
  i <- ReadOneByte ;;
  match i with
  | 0 => ret m
  | 1 =>
      v <- PublicConfig_Decode (OptionPublicConfig.AsValue m) ;;
      ret (OptionPublicConfig.mk true v)
  | _ => fail (Errorf "unknown value for Option" [])
  end.

(** ** farm.go: OptionFarmingPolicyLimit *)

Definition FarmingPolicyLimit_zero : FarmingPolicyLimit.t :=
  FarmingPolicyLimit.mk 0 None None None None false.

Definition FarmingPolicyLimit_Encode (l : FarmingPolicyLimit.t)
  : M Encoder unit :=
  Scale.EncodeU32 (FarmingPolicyLimit.FarmingPolicyID l) ;;;
  ScaleOption.EncodeOption Scale.EncodeU64 (FarmingPolicyLimit.Cu l) ;;;
  ScaleOption.EncodeOption Scale.EncodeU64 (FarmingPolicyLimit.Su l) ;;;
  ScaleOption.EncodeOption Scale.EncodeU64 (FarmingPolicyLimit.End_ l) ;;;
  ScaleOption.EncodeOption Scale.EncodeU32 (FarmingPolicyLimit.NodeCount l) ;;;
  ScaleOption.EncodeBool (FarmingPolicyLimit.NodeCertification l).

Definition FarmingPolicyLimit_Decode (_ : FarmingPolicyLimit.t)
  : M Decoder FarmingPolicyLimit.t :=
  id <- Scale.DecodeU32 ;;
  cu <- ScaleOption.DecodeOption Scale.DecodeU64 ;;
  su <- ScaleOption.DecodeOption Scale.DecodeU64 ;;
  en <- ScaleOption.DecodeOption Scale.DecodeU64 ;;
  count <- ScaleOption.DecodeOption Scale.DecodeU32 ;;
  cert <- ScaleOption.DecodeBool ;;
  ret (FarmingPolicyLimit.mk id cu su en count cert).

Definition OptionFarmingPolicyLimit_zero : OptionFarmingPolicyLimit.t :=
  OptionFarmingPolicyLimit.mk false FarmingPolicyLimit_zero.

Definition OptionFarmingPolicyLimit_Encode (m : OptionFarmingPolicyLimit.t)
  : M Encoder unit :=
  let i := if OptionFarmingPolicyLimit.HasValue m then 1 else 0 in
  PushByte i ;;;
  if OptionFarmingPolicyLimit.HasValue m then
    FarmingPolicyLimit_Encode (OptionFarmingPolicyLimit.AsValue m)
  else ret tt.

Definition OptionFarmingPolicyLimit_Decode (m : OptionFarmingPolicyLimit.t)
  : M Decoder OptionFarmingPolicyLimit.t :=
  i <- ReadOneByte ;;
  match i with
  | 0 => ret m
  | 1 =>
      v <- FarmingPolicyLimit_Decode (OptionFarmingPolicyLimit.AsValue m) ;;
      ret (OptionFarmingPolicyLimit.mk true v)
  | _ => fail (Errorf "unknown value for Option" [])
  end.

(** ** contract file: consumption reports *)

Module NruConsumption.
Record t : Type := mk {
  ContractID : Z; Timestamp : Z; Window : Z; NRU : Z
}.

Definition IsEmpty (s : t) : bool := NRU s =? 0.
End NruConsumption.

Module Consumption.
Record t : Type := mk {
  ContractID : Z; Timestamp : Z;
  CRU : Z; SRU : Z; HRU : Z; MRU : Z; NRU : Z
}.
End Consumption.

Module ContractResources.
Record t : Type := mk { ContractID : Z; Used : Resources.t }.
End ContractResources.

(** ** The other submissions and lookups *)

(** An argument of [types.NewCall] in the contract and uptime calls. *)
Inductive ContractArg : Type :=
| CArgU32 (v : Z)
| CArgU64 (v : Z)
| CArgBytes (b : list Z)
| CArgString (s : string)
| CArgContractResources (l : list ContractResources.t)
| CArgNruConsumptions (l : list NruConsumption.t).

(** [types.NewCall(meta, name, args...)] at these arguments. *)
Class CallBuilder (B : Backend) : Type := {
  NewContractCall : Meta -> string -> list ContractArg -> error + Call_
}.

Section ClientMore.
Context {B : Backend} {CB : CallBuilder B}.

(** *** node file *)

Definition UpdateNodeUptime (identity : Identity) (uptime : Z)
  : M World unit :=
  cm <- pool_Get ;;
  let (cl, meta) := cm in
  c <- wrapErr (lift (NewContractCall meta "TfgridModule.report_uptime"
                        [CArgU64 uptime]))
         "failed to create call" ;;
  _ <- wrapErr (Call cl meta identity c) "failed to update node uptime" ;;
  ret tt.

(** *** contract file *)

Definition CreateNodeContract (identity : Identity) (node : Z)
  (body : list Z) (hash : string) (publicIPs : Z) : M World Z :=
  cm <- getClient ;;
  let (cl, meta) := cm in
  c <- wrapErr (lift (NewContractCall meta
                        "SmartContractModule.create_node_contract"
                        [CArgU32 node; CArgBytes body; CArgString hash;
                         CArgU32 publicIPs]))
         "failed to create call" ;;
  blockHash <- wrapErr (Call cl meta identity c) "failed to create contract" ;;
  checkForError cl meta blockHash (accountOf identity) ;;;
  GetContractWithHash node hash.

Definition CreateNameContract (identity : Identity) (name : string)
  : M World Z :=
  cm <- getClient ;;
  let (cl, meta) := cm in
  c <- wrapErr (lift (NewContractCall meta
                        "SmartContractModule.create_name_contract"
                        [CArgString name]))
         "failed to create call" ;;
  blockHash <- wrapErr (Call cl meta identity c) "failed to create contract" ;;
  checkForError cl meta blockHash (accountOf identity) ;;;
  GetContractIDByNameRegistration name.

Definition UpdateNodeContract (identity : Identity) (contract : Z)
  (body : list Z) (hash : string) : M World Z :=
  cm <- getClient ;;
  let (cl, meta) := cm in
  c <- wrapErr (lift (NewContractCall meta
                        "SmartContractModule.update_node_contract"
                        [CArgU64 contract; CArgBytes body; CArgString hash]))
         "failed to create call" ;;
  blockHash <- wrapErr (Call cl meta identity c) "failed to update contract" ;;
  checkForError cl meta blockHash (accountOf identity) ;;;
  ret contract.

Definition CancelContract (identity : Identity) (contract : Z)
  : M World unit :=
  cm <- getClient ;;
  let (cl, meta) := cm in
  c <- wrapErr (lift (NewContractCall meta
                        "SmartContractModule.cancel_contract"
                        [CArgU64 contract]))
         "failed to cancel call" ;;
  blockHash <- wrapErr (Call cl meta identity c) "failed to cancel contract" ;;
  checkForError cl meta blockHash (accountOf identity) ;;;
  ret tt.

Definition SetContractConsumption (identity : Identity)
  (resources : list ContractResources.t) : M World unit :=
  cm <- getClient ;;
  let (cl, meta) := cm in
  c <- wrapErr (lift (NewContractCall meta
                        "SmartContractModule.report_contract_resources"
                        [CArgContractResources resources]))
         "failed to create call" ;;
  blockHash <- wrapErr (Call cl meta identity c)
                 "failed to set contract used resources" ;;
  checkForError cl meta blockHash (accountOf identity) ;;;
  ret tt.

(** [var contracts []types.U64] starts as the empty slice. *)
Definition GetNodeContracts (node : Z) : M World (list Z) :=
  cm <- getClient ;;
  let (cl, meta) := cm in
  nodeBytes <- lift (Scale.EncodeToBytes (Scale.EncodeU32 node)) ;;
  key <- wrapErr (lift (CreateStorageKey meta "SmartContractModule"
                          "ActiveNodeContracts" [nodeBytes]))
           "failed to create substrate query key" ;;
  r <- wrapErr (GetStorageLatest cl key
                  (Scale.DecodeSlice 0 (fun _ => Scale.DecodeU64)) [])
         "failed to lookup contracts" ;;
  ret (snd r).

Definition Report (identity : Identity)
  (consumptions : list NruConsumption.t) : M World Hash :=
  cm <- getClient ;;
  let (cl, meta) := cm in
  c <- wrapErr (lift (NewContractCall meta
                        "SmartContractModule.add_nru_reports"
                        [CArgNruConsumptions consumptions]))
         "failed to create call" ;;
  hash <- wrapErr (Call cl meta identity c) "failed to create report" ;;
  ret hash.


Definition isCall (ev : Event) : bool :=
  match ev with EvCall _ => true | _ => false end.


End ClientMore.

(** ** Well-formed values of the other types *)

Definition PublicConfig_wf (c : PublicConfig.t) : Prop :=
  isString (PublicConfig.IPv4 c) /\ isString (PublicConfig.IPv6 c) /\
  isString (PublicConfig.GWv4 c) /\ isString (PublicConfig.GWv6 c) /\
  isString (PublicConfig.Domain c).

(** A present value that is well formed, or an absent one whose idle
    payload is the zero value. *)
Definition OptionPublicConfig_valid (m : OptionPublicConfig.t) : Prop :=
  if OptionPublicConfig.HasValue m
  then PublicConfig_wf (OptionPublicConfig.AsValue m)
  else OptionPublicConfig.AsValue m = PublicConfig_zero.

Definition isOptU32 (o : option Z) : Prop :=
  match o with Some v => isU32 v | None => True end.

Definition isOptU64 (o : option Z) : Prop :=
  match o with Some v => isU64 v | None => True end.

Definition FarmingPolicyLimit_wf (l : FarmingPolicyLimit.t) : Prop :=
  isU32 (FarmingPolicyLimit.FarmingPolicyID l) /\
  isOptU64 (FarmingPolicyLimit.Cu l) /\
  isOptU64 (FarmingPolicyLimit.Su l) /\
  isOptU64 (FarmingPolicyLimit.End_ l) /\
  isOptU32 (FarmingPolicyLimit.NodeCount l).

Definition OptionFarmingPolicyLimit_valid (m : OptionFarmingPolicyLimit.t)
  : Prop :=
  if OptionFarmingPolicyLimit.HasValue m
  then FarmingPolicyLimit_wf (OptionFarmingPolicyLimit.AsValue m)
  else OptionFarmingPolicyLimit.AsValue m = FarmingPolicyLimit_zero.

(** A contract record every field of which is a valid value. *)
Definition Contract_valid (c : Contract.t) : Prop :=
  ContractState_valid (Contract.State c) /\
  ContractState_idle_zero (Contract.State c) /\
  isU64 (Contract.ContractID c) /\
  isU32 (Contract.TwinID c) /\
  ContractType_valid (Contract.ContractType c) /\
  ContractType_idle_zero (Contract.ContractType c).

(** The range of a Go [byte]. *)
Definition isByte (b : Z) : Prop := 0 <= b < 256.


(** ** The simulated chain, continued *)

Module SimCalls.

Definition toArg (a : ContractArg) : Arg :=
  match a with
  | CArgU32 v => ArgU32 v
  | CArgU64 v => ArgU32 v
  | CArgBytes b => ArgString (Scale.stringOfBytes b)
  | CArgString s => ArgString s
  | CArgContractResources l => ArgU32 (Z.of_nat (List.length l))
  | CArgNruConsumptions l => ArgU32 (Z.of_nat (List.length l))
  end.

Definition builder : CallBuilder Sim.backend :=
  @Build_CallBuilder Sim.backend (fun _ name args => inr (name, map toArg args)).

(** The simulated chain with a client, a storage, a submission and a
    dispatch check of one's choice. *)
Definition variant (client : error + unit * unit)
  (read : Sim.Key -> Sim.Store -> error + list Z)
  (submit : Z -> string * list Arg -> Sim.Store -> (error + Z) * Sim.Store)
  (check : option error) : Backend := {|
  Chain := Sim.Store;
  Conn := unit;
  Meta := unit;
  StorageKey := Sim.Key;
  Call_ := string * list Arg;
  Hash := Z;
  Identity := Z;
  AccountID := Z;
  CertificationType := unit;
  pool_Get_ := fun _ => client;
  getClient_ := fun _ => client;
  CreateStorageKey := fun _ m i args => inr (m, i, args);
  GetStorageRawLatest_ := fun _ k st => read k st;
  DecodeEntity := @DecodeEntity Sim.backend;
  DecodeNode := @DecodeNode Sim.backend;
  DecodeFarm := @DecodeFarm Sim.backend;
  NewCall := fun _ name args => inr (name, args);
  Call_submit := fun _ _ identity c st => submit identity c st;
  checkForError_ := fun _ _ _ _ _ => check;
  accountOf := fun identity => identity
|}.

Definition variantBuilder (client : error + unit * unit)
  (read : Sim.Key -> Sim.Store -> error + list Z)
  (submit : Z -> string * list Arg -> Sim.Store -> (error + Z) * Sim.Store)
  (check : option error) : CallBuilder (variant client read submit check) :=
  @Build_CallBuilder (variant client read submit check)
    (fun _ name args => inr (name, map toArg args)).

Definition noConnection : error := errors_New "no connection".

(** No client can be acquired. *)
Definition offline : Backend :=
  variant (inl noConnection) (fun k st => inr (Sim.lookup k st))
    Sim.submit None.

Definition offlineBuilder : CallBuilder offline :=
  variantBuilder (inl noConnection) (fun k st => inr (Sim.lookup k st))
    Sim.submit None.

(** A client is acquired, but reads and submissions fail. *)
Definition broken : Backend :=
  variant (inr (tt, tt)) (fun _ _ => inl noConnection)
    (fun _ _ st => (inl noConnection, st)) None.

Definition brokenBuilder : CallBuilder broken :=
  variantBuilder (inr (tt, tt)) (fun _ _ => inl noConnection)
    (fun _ _ st => (inl noConnection, st)) None.

Definition dispatchError : error := Errorf "module error %d/%d" [5; 2].

(** Every submitted call fails on dispatch with the module error 5/2. *)
Definition failing : Backend :=
  variant (inr (tt, tt)) (fun k st => inr (Sim.lookup k st))
    Sim.submit (Some dispatchError).

Definition failingBuilder : CallBuilder failing :=
  variantBuilder (inr (tt, tt)) (fun k st => inr (Sim.lookup k st))
    Sim.submit (Some dispatchError).

Definition noMetadata : error := errors_New "not found in metadata".

(** A client whose metadata knows no storage item and no call. *)
Definition stale : Backend := {|
  Chain := Sim.Store;
  Conn := unit;
  Meta := unit;
  StorageKey := Sim.Key;
  Call_ := string * list Arg;
  Hash := Z;
  Identity := Z;
  AccountID := Z;
  CertificationType := unit;
  pool_Get_ := fun _ => inr (tt, tt);
  getClient_ := fun _ => inr (tt, tt);
  CreateStorageKey := fun _ _ _ _ => inl noMetadata;
  GetStorageRawLatest_ := fun _ k st => inr (Sim.lookup k st);
  DecodeEntity := @DecodeEntity Sim.backend;
  DecodeNode := @DecodeNode Sim.backend;
  DecodeFarm := @DecodeFarm Sim.backend;
  NewCall := fun _ _ _ => inl noMetadata;
  Call_submit := fun _ _ identity c st => Sim.submit identity c st;
  checkForError_ := fun _ _ _ _ _ => None;
  accountOf := fun identity => identity
|}.

Definition staleBuilder : CallBuilder stale :=
  @Build_CallBuilder stale (fun _ _ _ => inl noMetadata).

Definition activeKey : Sim.Key :=
  ("SmartContractModule", "ActiveNodeContracts", [Scale.le_bytes 4 5]).

(** Records 5 stored under version 1; the contract of [Sim.store] followed
    by two bytes that belong to nothing; the hash index of node 5 and the
    name index of "n" at contract 3; two active contracts on node 5. *)
Definition store : Sim.Store :=
  [(Sim.entityKey, [1; 7]); (Sim.nodeKey, [1; 7]); (Sim.farmKey, [1; 7]);
   (Sim.contractKey, Sim.contractBytes ++ [255; 255]);
   (Sim.hashKey, [3; 0; 0; 0; 0; 0; 0; 0]);
   (Sim.nameKey, [3; 0; 0; 0; 0; 0; 0; 0]);
   (activeKey, [8; 3; 0; 0; 0; 0; 0; 0; 0; 4; 0; 0; 0; 0; 0; 0; 0])].

(** A node without a twin. *)
Definition nodeNoTwin : Node.t unit :=
  Node.mk (Versioned.mk 1) 0 3 0 (Resources.mk 1 2 3 4)
    (Location.mk "3.7" "51.0") "BE" "Ghent"
    (OptionPublicConfig.mk false (PublicConfig.mk "" "" "" "" ""))
    0 0 [] tt.

Definition publicConfig : OptionPublicConfig.t :=
  OptionPublicConfig.mk true
    (PublicConfig.mk "185.206.122.31/24" "" "185.206.122.1" "" "example.com").

Definition policyLimit : OptionFarmingPolicyLimit.t :=
  OptionFarmingPolicyLimit.mk true
    (FarmingPolicyLimit.mk 1 (Some 5) None None (Some 2) true).

End SimCalls.

(** * Properties *)

(** ** The codec on small inputs *)

Example NodeCertification_decode_1 :
  NodeCertification.Decode NodeCertification.zero [1; 7]
  = (inr (NodeCertification.mk false true), [7]).
Proof. reflexivity. Qed.

Example DeletedState_decode_empty :
  DeletedState.Decode DeletedState.zero [] = (inl EOF, []).
Proof. reflexivity. Qed.

Example ContractState_grace_period_wire :
  ContractState.Encode
    (ContractState.mk false false DeletedState.zero true 258) []
  = (inr tt, [2; 2; 1; 0; 0; 0; 0; 0; 0]).
Proof. reflexivity. Qed.

(** Compact lengths, one per mode. *)
Example compact_1 : Scale.EncodeUintCompact 1 [] = (inr tt, [4]).
Proof. reflexivity. Qed.

Example compact_69 : Scale.EncodeUintCompact 69 [] = (inr tt, [21; 1]).
Proof. reflexivity. Qed.

Example compact_65535 :
  Scale.EncodeUintCompact 65535 [] = (inr tt, [254; 255; 3; 0]).
Proof. reflexivity. Qed.

Example compact_big :
  Scale.EncodeUintCompact 100000000000000 []
  = (inr tt, [11; 0; 64; 122; 16; 243; 90]).
Proof. vm_compute. reflexivity. Qed.

Example compact_big_decode :
  Scale.DecodeUintCompact [11; 0; 64; 122; 16; 243; 90; 7]
  = (inr 100000000000000, [7]).
Proof. vm_compute. reflexivity. Qed.

(** ** Composition of encoders and decoders *)

Lemma inverse_ret {T : Type} (v : T) : inverse (ret tt) (ret v) v.
Proof.
  exists []. split; intros; unfold ret.
  - now rewrite app_nil_r.
  - reflexivity.
Qed.

Lemma inverse_bind {A B : Type} (e1 e2 : M Encoder unit)
  (d1 : M Decoder A) (d2 : A -> M Decoder B) (a : A) (b : B) :
  inverse e1 d1 a -> inverse e2 (d2 a) b ->
  inverse (e1 ;;; e2) (x <- d1 ;; d2 x) b.
Proof.
  intros [bs1 [E1 D1]] [bs2 [E2 D2]].
  exists (bs1 ++ bs2). split; intros; unfold bind.
  - rewrite E1, E2. now rewrite app_assoc.
  - rewrite <- app_assoc, D1. apply D2.
Qed.

Lemma inverse_map {A B : Type} (e : M Encoder unit) (d : M Decoder A)
  (f : A -> B) (a : A) :
  inverse e d a -> inverse e (x <- d ;; ret (f x)) (f a).
Proof.
  intros [bs [E D]]. exists bs. split; intros; [apply E|].
  unfold bind. now rewrite D.
Qed.

Lemma inverse_roundTrip {T : Type} (enc : T -> M Encoder unit)
  (dec : T -> M Decoder T) (zero v : T) :
  inverse (enc v) (dec zero) v -> roundTrip enc dec zero v.
Proof.
  intros [bs [E D]]. exists bs. split.
  - apply (E []).
  - specialize (D []). now rewrite app_nil_r in D.
Qed.

Lemma inverse_PushByte (b : Z) : inverse (PushByte b) ReadOneByte b.
Proof. exists [b]. split; intros; reflexivity. Qed.

(** ** Fixed-width integers *)

Lemma le_bytes_length (n : nat) (v : Z) :
  List.length (Scale.le_bytes n v) = n.
Proof. revert v. induction n; intros; simpl; auto. Qed.

Lemma le_value_le_bytes (n : nat) (v : Z) :
  0 <= v < 256 ^ Z.of_nat n -> Scale.le_value (Scale.le_bytes n v) = v.
Proof.
  revert v. induction n; intros v Hv.
  - simpl in *. lia.
  - cbn [Scale.le_bytes Scale.le_value].
    rewrite IHn.
    + pose proof (Z.div_mod v 256). lia.
    + rewrite Nat2Z.inj_succ, Z.pow_succ_r in Hv by lia.
      split; [apply Z.div_pos; lia|].
      apply Z.div_lt_upper_bound; lia.
Qed.

Lemma Read_app (bs rest : list Z) :
  Scale.Read (List.length bs) (bs ++ rest) = (inr bs, rest).
Proof.
  unfold Scale.Read.
  replace (List.length (bs ++ rest) <? List.length bs)%nat with false.
  - rewrite firstn_app, skipn_app, Nat.sub_diag, firstn_all, skipn_all.
    simpl. now rewrite app_nil_r.
  - symmetry. apply Nat.ltb_ge. rewrite length_app. lia.
Qed.

Lemma inverse_Write (n : nat) (bs : list Z) :
  List.length bs = n -> inverse (Scale.Write bs) (Scale.Read n) bs.
Proof.
  intros <-. exists bs. split; intros; [reflexivity | apply Read_app].
Qed.

Lemma inverse_le (n : nat) (v : Z) :
  0 <= v < 256 ^ Z.of_nat n ->
  inverse (Scale.Write (Scale.le_bytes n v))
          (buf <- Scale.Read n ;; ret (Scale.le_value buf)) v.
Proof.
  intros Hv.
  pose proof (@inverse_map _ _ _ _ Scale.le_value _
                (@inverse_Write n _ (le_bytes_length n v))) as H.
  now rewrite (@le_value_le_bytes n v Hv) in H.
Qed.

Lemma inverse_U32 (v : Z) :
  isU32 v -> inverse (Scale.EncodeU32 v) Scale.DecodeU32 v.
Proof. intros Hv. apply (@inverse_le 4). exact Hv. Qed.

Lemma inverse_U64 (v : Z) :
  isU64 v -> inverse (Scale.EncodeU64 v) Scale.DecodeU64 v.
Proof. intros Hv. apply (@inverse_le 8). exact Hv. Qed.

(** ** Compact lengths *)

Lemma land3_mod4 (b : Z) : Z.land b 3 = b mod 4.
Proof. change 3 with (Z.ones 2). now rewrite Z.land_ones by lia. Qed.

Lemma shiftr2_div4 (b : Z) : Z.shiftr b 2 = b / 4.
Proof. now rewrite Z.shiftr_div_pow2 by lia. Qed.

Lemma shiftl2_mul4 (b : Z) : Z.shiftl b 2 = b * 4.
Proof. now rewrite Z.shiftl_mul_pow2 by lia. Qed.

Lemma shiftl6_mul64 (b : Z) : Z.shiftl b 6 = b * 64.
Proof. now rewrite Z.shiftl_mul_pow2 by lia. Qed.

(** The decoder, case by case on the two low bits of the first byte. *)
Lemma DecodeUintCompact_mode0 (b : Z) (d : Decoder) :
  b mod 4 = 0 -> Scale.DecodeUintCompact (b :: d) = (inr (b / 4), d).
Proof.
  intros H. unfold Scale.DecodeUintCompact, bind, ReadOneByte.
  rewrite land3_mod4, H, shiftr2_div4. reflexivity.
Qed.

Lemma DecodeUintCompact_mode1 (b bb : Z) (d : Decoder) :
  b mod 4 = 1 ->
  Scale.DecodeUintCompact (b :: bb :: d) = (inr (bb * 64 + b / 4), d).
Proof.
  intros H. unfold Scale.DecodeUintCompact, bind, ReadOneByte.
  rewrite land3_mod4, H, shiftr2_div4, shiftl6_mul64. reflexivity.
Qed.

Lemma DecodeUintCompact_mode2 (b b1 b2 b3 : Z) (d : Decoder) :
  b mod 4 = 2 ->
  Scale.DecodeUintCompact (b :: b1 :: b2 :: b3 :: d)
  = (inr (Scale.le_value [b; b1; b2; b3] / 4), d).
Proof.
  intros H. unfold Scale.DecodeUintCompact, bind, ReadOneByte.
  rewrite land3_mod4, H. cbn [Scale.Read List.length Nat.ltb Nat.leb firstn skipn ret].
  rewrite shiftr2_div4. reflexivity.
Qed.

Lemma DecodeUintCompact_mode3 (bs d : Decoder) :
  List.length bs = 4%nat ->
  Scale.DecodeUintCompact (3 :: bs ++ d) = (inr (Scale.le_value bs), d).
Proof.
  intros H. unfold Scale.DecodeUintCompact, bind, ReadOneByte.
  change (Z.land 3 3) with 3. change (Z.to_nat (Z.shiftr 3 2 + 4)) with 4%nat.
  cbv iota beta. rewrite <- H, Read_app. reflexivity.
Qed.

Lemma numBytes_4 (v : Z) : 2 ^ 30 <= v < 2 ^ 32 -> Scale.numBytes v = 4.
Proof.
  intros [Hlo Hhi]. unfold Scale.numBytes.
  assert (30 <= Z.log2 v) by (apply Z.log2_le_pow2; lia).
  assert (Z.log2 v < 32) by (apply Z.log2_lt_pow2; lia).
  Z.div_mod_to_equations. lia.
Qed.

Lemma inverse_compact (v : Z) :
  0 <= v <= Scale.MaxUint32 ->
  inverse (Scale.EncodeUintCompact v) Scale.DecodeUintCompact v.
Proof.
  unfold Scale.MaxUint32. intros [H0 Hmax]. unfold Scale.EncodeUintCompact.
  destruct (Z.ltb_spec v 0); [lia|].
  destruct (Z.ltb_spec v (2 ^ 6)).
  { exists [Z.shiftl v 2]. split; intros; [reflexivity|].
    cbn [app]. rewrite DecodeUintCompact_mode0; rewrite shiftl2_mul4.
    - now rewrite Z.div_mul by lia.
    - apply Z.mod_mul; lia. }
  destruct (Z.ltb_spec v (2 ^ 14)).
  { exists (Scale.le_bytes 2 (Z.shiftl v 2 + 1)). split; intros; [reflexivity|].
    cbn [Scale.le_bytes app]. rewrite shiftl2_mul4.
    rewrite DecodeUintCompact_mode1.
    - do 2 f_equal. Z.div_mod_to_equations. lia.
    - Z.div_mod_to_equations. lia. }
  destruct (Z.ltb_spec v (2 ^ 30)).
  { exists (Scale.le_bytes 4 (Z.shiftl v 2 + 2)). split; intros; [reflexivity|].
    rewrite shiftl2_mul4.
    change (Scale.le_bytes 4 (v * 4 + 2) ++ rest)
      with ((v * 4 + 2) mod 256 :: ((v * 4 + 2) / 256) mod 256
            :: ((v * 4 + 2) / 256 / 256) mod 256
            :: ((v * 4 + 2) / 256 / 256 / 256) mod 256 :: rest).
    rewrite DecodeUintCompact_mode2.
    - change [(v * 4 + 2) mod 256; ((v * 4 + 2) / 256) mod 256;
              ((v * 4 + 2) / 256 / 256) mod 256;
              ((v * 4 + 2) / 256 / 256 / 256) mod 256]
        with (Scale.le_bytes 4 (v * 4 + 2)).
      rewrite le_value_le_bytes by (simpl; lia).
      do 2 f_equal. Z.div_mod_to_equations. lia.
    - Z.div_mod_to_equations. lia. }
  rewrite numBytes_4 by lia.
  change (63 <? 4 - 4) with false. cbv iota.
  change (Z.shiftl (4 - 4) 2 + 3) with 3. change (Z.to_nat 4) with 4%nat.
  exists (3 :: Scale.le_bytes 4 v). split; intros.
  - unfold bind, PushByte, Scale.Write. now rewrite <- app_assoc.
  - cbn [app]. rewrite DecodeUintCompact_mode3 by apply le_bytes_length.
    rewrite le_value_le_bytes by (simpl; lia). reflexivity.
Qed.

(** ** Sequences and strings *)

Lemma inverse_elems {T : Type} (enc : T -> M Encoder unit) (zero : T)
  (dec : T -> M Decoder T) (l : list T) :
  Forall (fun x => inverse (enc x) (dec zero) x) l ->
  inverse (Scale.encodeElems enc l)
          (Scale.decodeElems zero dec (List.length l)) l.
Proof.
  induction 1 as [|x r Hx _ IH]; cbn [Scale.encodeElems Scale.decodeElems List.length].
  - apply inverse_ret.
  - eapply inverse_bind; [exact Hx|].
    apply (@inverse_map _ _ _ _ (cons x) _ IH).
Qed.

Lemma inverse_slice {T : Type} (enc : T -> M Encoder unit) (zero : T)
  (dec : T -> M Decoder T) (l : list T) :
  isSeq l ->
  Forall (fun x => inverse (enc x) (dec zero) x) l ->
  inverse (Scale.EncodeSlice enc l) (Scale.DecodeSlice zero dec) l.
Proof.
  intros Hlen Hl. unfold Scale.EncodeSlice, Scale.DecodeSlice.
  eapply inverse_bind.
  - apply inverse_compact. unfold isSeq in Hlen. lia.
  - cbv beta.
    destruct (Z.ltb_spec Scale.MaxUint32 (Z.of_nat (List.length l)));
      [unfold isSeq in Hlen; lia|].
    rewrite Nat2Z.id. now apply inverse_elems.
Qed.

Lemma inverse_bytes (bs : list Z) :
  isSeq bs -> inverse (Scale.EncodeBytes bs) Scale.DecodeBytes bs.
Proof.
  intros H. apply inverse_slice; [exact H|].
  apply Forall_forall. intros b _. apply inverse_PushByte.
Qed.

Lemma stringOfBytes_bytesOfString (s : string) :
  Scale.stringOfBytes (Scale.bytesOfString s) = s.
Proof.
  unfold Scale.stringOfBytes, Scale.bytesOfString.
  rewrite map_map.
  rewrite (map_ext _ (fun a => a)), map_id.
  - apply string_of_list_ascii_of_string.
  - intros a. now rewrite N2Z.id, ascii_N_embedding.
Qed.

Lemma inverse_string (s : string) :
  isString s -> inverse (Scale.EncodeString s) Scale.DecodeString s.
Proof.
  intros H. unfold Scale.EncodeString, Scale.DecodeString.
  pose proof (@inverse_map _ _ _ _ Scale.stringOfBytes _
                (inverse_bytes H)) as Hm.
  now rewrite stringOfBytes_bytesOfString in Hm.
Qed.

(** ** The payload structs *)

Lemma inverse_PublicIP (p z : PublicIP.t) :
  PublicIP_wf p -> inverse (PublicIP.Encode p) (PublicIP.Decode z) p.
Proof.
  destruct p as [ip gw id]. intros (Hip & Hgw & Hid).
  unfold PublicIP.Encode, PublicIP.Decode. cbn [PublicIP.IP PublicIP.Gateway PublicIP.ContractID] in *.
  eapply inverse_bind; [apply inverse_string, Hip|].
  eapply inverse_bind; [apply inverse_string, Hgw|].
  apply (@inverse_map _ _ _ _ (PublicIP.mk ip gw) _ (inverse_U64 Hid)).
Qed.

Lemma inverse_NodeContract (c z : NodeContract.t) :
  NodeContract_wf c ->
  inverse (NodeContract.Encode c) (NodeContract.Decode z) c.
Proof.
  destruct c as [node data hash count ips].
  intros (Hn & Hd & Hh & Hc & Hl & Hips).
  unfold NodeContract.Encode, NodeContract.Decode.
  cbn [NodeContract.Node NodeContract.DeploymentData
       NodeContract.DeploymentHash NodeContract.PublicIPsCount
       NodeContract.PublicIPs] in *.
  eapply inverse_bind; [apply inverse_U32, Hn|].
  eapply inverse_bind; [apply inverse_bytes, Hd|].
  eapply inverse_bind; [apply inverse_string, Hh|].
  eapply inverse_bind; [apply inverse_U32, Hc|].
  apply (@inverse_map _ _ _ _ (NodeContract.mk node data hash count)).
  apply inverse_slice; [exact Hl|].
  eapply Forall_impl; [|exact Hips].
  intros p Hp. now apply inverse_PublicIP.
Qed.

Lemma inverse_NameContract (c z : NameContract.t) :
  NameContract_wf c ->
  inverse (NameContract.Encode c) (NameContract.Decode z) c.
Proof.
  destruct c as [name]. intros H.
  apply (@inverse_map _ _ _ _ NameContract.mk _ (inverse_string H)).
Qed.

Lemma inverse_RentContract (c z : RentContract.t) :
  RentContract_wf c ->
  inverse (RentContract.Encode c) (RentContract.Decode z) c.
Proof.
  destruct c as [node]. intros H.
  apply (@inverse_map _ _ _ _ RentContract.mk _ (inverse_U32 H)).
Qed.

(** ** Round trips of the tagged variants *)

Lemma inverse_wrapErr {T : Type} (e : M Encoder unit) (d : M Decoder T)
  (msg : string) (v : T) :
  inverse e d v -> inverse e (wrapErr d msg) v.
Proof.
  intros [bs [E D]]. exists bs. split; [exact E|].
  intros rest. unfold wrapErr. now rewrite D.
Qed.

Lemma exactlyOne_2 (a b : bool) :
  exactlyOne [a; b] -> (a = true /\ b = false) \/ (a = false /\ b = true).
Proof. destruct a, b; cbv; intros H; try discriminate H; auto. Qed.

Lemma exactlyOne_3 (a b c : bool) :
  exactlyOne [a; b; c] ->
  (a = true /\ b = false /\ c = false) \/
  (a = false /\ b = true /\ c = false) \/
  (a = false /\ b = false /\ c = true).
Proof. destruct a, b, c; cbv; intros H; try discriminate H; auto. Qed.

Ltac one_byte b := exists [b]; split; intros; reflexivity.

Lemma inverse_NodeCertification (v : NodeCertification.t) :
  exactlyOne (NodeCertification_flags v) ->
  inverse (NodeCertification.Encode v)
          (NodeCertification.Decode NodeCertification.zero) v.
Proof.
  destruct v as [a b]. intros H. change (exactlyOne [a; b]) in H.
  destruct (exactlyOne_2 H) as [[-> ->]|[-> ->]]; [one_byte 0 | one_byte 1].
Qed.

Lemma inverse_FarmCertification (v : FarmCertification.t) :
  exactlyOne (FarmCertification_flags v) ->
  inverse (FarmCertification.Encode v)
          (FarmCertification.Decode FarmCertification.zero) v.
Proof.
  destruct v as [a b]. intros H. change (exactlyOne [a; b]) in H.
  destruct (exactlyOne_2 H) as [[-> ->]|[-> ->]]; [one_byte 0 | one_byte 1].
Qed.

Lemma inverse_Role (v : Role.t) :
  exactlyOne (Role_flags v) ->
  inverse (Role.Encode v) (Role.Decode Role.zero) v.
Proof.
  destruct v as [a b]. intros H. change (exactlyOne [a; b]) in H.
  destruct (exactlyOne_2 H) as [[-> ->]|[-> ->]]; [one_byte 0 | one_byte 1].
Qed.

Lemma inverse_DeletedState (v : DeletedState.t) :
  exactlyOne (DeletedState_flags v) ->
  inverse (DeletedState.Encode v) (DeletedState.Decode DeletedState.zero) v.
Proof.
  destruct v as [a b]. intros H. change (exactlyOne [a; b]) in H.
  destruct (exactlyOne_2 H) as [[-> ->]|[-> ->]]; [one_byte 0 | one_byte 1].
Qed.

Lemma inverse_ContractState (v : ContractState.t) :
  ContractState_valid v -> ContractState_idle_zero v ->
  inverse (ContractState.Encode v)
          (ContractState.Decode ContractState.zero) v.
Proof.
  destruct v as [c d ad g n].
  unfold ContractState_valid, ContractState_idle_zero, ContractState_flags.
  cbn [ContractState.IsCreated ContractState.IsDeleted ContractState.AsDeleted
       ContractState.IsGracePeriod ContractState.AsGracePeriodBlockNumber].
  intros (H1 & Hd & Hn) (Zd & Zn).
  destruct (exactlyOne_3 H1) as [(-> & -> & ->)|[(-> & -> & ->)|(-> & -> & ->)]].
  - rewrite Zd, Zn by reflexivity. one_byte 0.
  - rewrite Zn by reflexivity.
    unfold ContractState.Encode, ContractState.Decode.
    cbn [ContractState.IsCreated ContractState.IsDeleted
         ContractState.AsDeleted ContractState.IsGracePeriod
         ContractState.AsGracePeriodBlockNumber ContractState.zero].
    eapply inverse_bind; [apply inverse_PushByte|]. cbv beta iota.
    apply (@inverse_map _ _ _ _
             (fun x => ContractState.mk false true x false 0)).
    apply inverse_wrapErr, inverse_DeletedState, Hd. reflexivity.
  - rewrite Zd by reflexivity.
    unfold ContractState.Encode, ContractState.Decode.
    cbn [ContractState.IsCreated ContractState.IsDeleted
         ContractState.AsDeleted ContractState.IsGracePeriod
         ContractState.AsGracePeriodBlockNumber ContractState.zero].
    eapply inverse_bind; [apply inverse_PushByte|]. cbv beta iota.
    apply (@inverse_map _ _ _ _
             (fun x => ContractState.mk false false DeletedState.zero true x)).
    apply inverse_wrapErr, inverse_U64, Hn.
Qed.

Lemma inverse_ContractType (v : ContractType.t) :
  ContractType_valid v -> ContractType_idle_zero v ->
  inverse (ContractType.Encode v) (ContractType.Decode ContractType.zero) v.
Proof.
  destruct v as [a nc b mc c rc].
  unfold ContractType_valid, ContractType_idle_zero, ContractType_flags.
  cbn [ContractType.IsNodeContract ContractType.NodeContract
       ContractType.IsNameContract ContractType.NameContract
       ContractType.IsRentContract ContractType.RentContract].
  intros (H1 & Hnc & Hmc & Hrc) (Znc & Zmc & Zrc).
  destruct (exactlyOne_3 H1) as [(-> & -> & ->)|[(-> & -> & ->)|(-> & -> & ->)]];
    unfold ContractType.Encode, ContractType.Decode;
    cbn [ContractType.IsNodeContract ContractType.NodeContract
         ContractType.IsNameContract ContractType.NameContract
         ContractType.IsRentContract ContractType.RentContract
         ContractType.zero];
    (eapply inverse_bind; [apply inverse_PushByte|]); cbv beta iota.
  - rewrite Zmc, Zrc by reflexivity.
    apply (@inverse_map _ _ _ _
             (fun x => ContractType.mk true x false NameContract.zero
                         false RentContract.zero)).
    now apply inverse_NodeContract.
  - rewrite Znc, Zrc by reflexivity.
    apply (@inverse_map _ _ _ _
             (fun x => ContractType.mk false NodeContract.zero true x
                         false RentContract.zero)).
    now apply inverse_NameContract.
  - rewrite Znc, Zmc by reflexivity.
    apply (@inverse_map _ _ _ _
             (fun x => ContractType.mk false NodeContract.zero false
                         NameContract.zero true x)).
    now apply inverse_RentContract.
Qed.

(** ** Claims about the variant codec *)

(** C1, as stated, fails: a [ContractState] with exactly one discriminant
    set ([IsCreated]) whose idle field [AsGracePeriodBlockNumber] holds 5
    is encoded as the single byte 0, and decoding that byte gives the
    created state with the field at 0, not the value encoded. *)
Lemma roundtrip_drops_idle_payload :
  let v := ContractState.mk true false DeletedState.zero false 5 in
  ContractState_valid v /\
  ContractState.Encode v [] = (inr tt, [0]) /\
  ContractState.Decode ContractState.zero [0]
  = (inr (ContractState.mk true false DeletedState.zero false 0), []) /\
  ~ roundTrip ContractState.Encode ContractState.Decode ContractState.zero v.
Proof.
  cbv zeta. split; [|split; [reflexivity|split; [reflexivity|]]].
  - split; [reflexivity|]. split; [intros H; discriminate H|].
    unfold isU64. cbn. lia.
  - intros [bs [E D]]. cbv in E. injection E as <-. cbv in D.
    discriminate D.
Qed.

(** C1, amended: for every tagged-variant type and every value of it that
    has exactly one discriminant set, whose active payload is valid (a
    deleted contract state carries a deleted-state with exactly one
    discriminant set; integers are in the range of their type; strings and
    sequences have lengths the wire format carries) and whose idle payload
    fields hold their zero values, encoding succeeds and decoding the
    bytes written into a zero value gives the value back, discriminants
    and payloads, and uses all the bytes. *)
Theorem variant_roundtrip :
  (forall v, exactlyOne (NodeCertification_flags v) ->
     roundTrip NodeCertification.Encode NodeCertification.Decode
       NodeCertification.zero v) /\
  (forall v, exactlyOne (FarmCertification_flags v) ->
     roundTrip FarmCertification.Encode FarmCertification.Decode
       FarmCertification.zero v) /\
  (forall v, exactlyOne (Role_flags v) ->
     roundTrip Role.Encode Role.Decode Role.zero v) /\
  (forall v, exactlyOne (DeletedState_flags v) ->
     roundTrip DeletedState.Encode DeletedState.Decode DeletedState.zero v) /\
  (forall v, ContractState_valid v -> ContractState_idle_zero v ->
     roundTrip ContractState.Encode ContractState.Decode
       ContractState.zero v) /\
  (forall v, ContractType_valid v -> ContractType_idle_zero v ->
     roundTrip ContractType.Encode ContractType.Decode ContractType.zero v).
Proof.
  repeat split; intros; apply inverse_roundTrip.
  - now apply inverse_NodeCertification.
  - now apply inverse_FarmCertification.
  - now apply inverse_Role.
  - now apply inverse_DeletedState.
  - now apply inverse_ContractState.
  - now apply inverse_ContractType.
Qed.

(** The contract state "deleted, out of funds" and its wire form. *)
Example deleted_out_of_funds_wire :
  let v := ContractState.mk false true (DeletedState.mk false true) false 0 in
  ContractState.Encode v [] = (inr tt, [1; 1]) /\
  ContractState.Decode ContractState.zero [1; 1] = (inr v, []).
Proof. split; reflexivity. Qed.

(** A node contract and its wire form. *)
Example node_contract_wire :
  let v := ContractType.mk true
             (NodeContract.mk 7 [1; 2] "ab" 1 [PublicIP.mk "ip" "gw" 9])
             false NameContract.zero false RentContract.zero in
  ContractType.Encode v []
  = (inr tt, [0; 7; 0; 0; 0; 8; 1; 2; 8; 97; 98; 1; 0; 0; 0; 4;
              8; 105; 112; 8; 103; 119; 9; 0; 0; 0; 0; 0; 0; 0]) /\
  ContractType.Decode ContractType.zero
    [0; 7; 0; 0; 0; 8; 1; 2; 8; 97; 98; 1; 0; 0; 0; 4;
     8; 105; 112; 8; 103; 119; 9; 0; 0; 0; 0; 0; 0; 0]
  = (inr v, []).
Proof. split; vm_compute; reflexivity. Qed.

(** The round trips of one value of each type, among them the contract
    state "deleted, out of funds". *)
Lemma variant_roundtrip_witness :
  roundTrip NodeCertification.Encode NodeCertification.Decode
    NodeCertification.zero (NodeCertification.mk false true) /\
  roundTrip FarmCertification.Encode FarmCertification.Decode
    FarmCertification.zero (FarmCertification.mk true false) /\
  roundTrip Role.Encode Role.Decode Role.zero (Role.mk false true) /\
  roundTrip DeletedState.Encode DeletedState.Decode DeletedState.zero
    (DeletedState.mk true false) /\
  roundTrip ContractState.Encode ContractState.Decode ContractState.zero
    (ContractState.mk false true (DeletedState.mk false true) false 0) /\
  roundTrip ContractType.Encode ContractType.Decode ContractType.zero
    (ContractType.mk false NodeContract.zero true (NameContract.mk "site")
       false RentContract.zero).
Proof.
  destruct variant_roundtrip as (H1 & H2 & H3 & H4 & H5 & H6).
  split; [apply H1; reflexivity|].
  split; [apply H2; reflexivity|].
  split; [apply H3; reflexivity|].
  split; [apply H4; reflexivity|].
  split.
  - apply H5.
    + split; [reflexivity|]. split; [intros _; reflexivity|].
      unfold isU64; cbn; lia.
    + split; [intros H; discriminate H | intros _; reflexivity].
  - apply H6.
    + split; [reflexivity|]. split.
      * unfold NodeContract_wf, isU32, isSeq, isString, isSeq,
          Scale.MaxUint32; cbn. repeat split; try lia. constructor.
      * split.
        -- unfold NameContract_wf, isString, isSeq, Scale.MaxUint32; cbn. lia.
        -- unfold RentContract_wf, isU32; cbn. lia.
    + repeat split; intros H; try reflexivity; discriminate H.
Defined.

(** C3, as stated, fails: [DeletedState.Decode] accepts the byte 2 and sets
    no discriminant. *)
Lemma deleted_state_2_sets_no_flag :
  DeletedState.Decode DeletedState.zero [2] = (inr DeletedState.zero, []) /\
  DeletedState_flags DeletedState.zero = [false; false] /\
  ~ exactlyOne (DeletedState_flags DeletedState.zero).
Proof.
  split; [reflexivity|]. split; [reflexivity|].
  intros H. discriminate H.
Qed.

Ltac byte_cases b := destruct b as [|[?|[?|?|]|]|?].

Ltac run_decode H :=
  match type of H with
  | context [match ?c ?d with _ => _ end] =>
      let e := fresh "e" in let x := fresh "x" in let s := fresh "s" in
      destruct (c d) as [[e|x] s]
  end.

(** C3, amended: for every tagged-variant type other than [DeletedState],
    a decode into a zero value that succeeds leaves exactly one boolean
    discriminant set.  For [DeletedState] it leaves at most one set: none
    when the discriminant byte is 2, exactly one otherwise. *)
Theorem decode_sets_one_discriminant :
  (forall d v d', NodeCertification.Decode NodeCertification.zero d
                  = (inr v, d') ->
     exactlyOne (NodeCertification_flags v)) /\
  (forall d v d', FarmCertification.Decode FarmCertification.zero d
                  = (inr v, d') ->
     exactlyOne (FarmCertification_flags v)) /\
  (forall d v d', Role.Decode Role.zero d = (inr v, d') ->
     exactlyOne (Role_flags v)) /\
  (forall d v d', ContractState.Decode ContractState.zero d = (inr v, d') ->
     exactlyOne (ContractState_flags v)) /\
  (forall d v d', ContractType.Decode ContractType.zero d = (inr v, d') ->
     exactlyOne (ContractType_flags v)) /\
  (forall d v d', DeletedState.Decode DeletedState.zero d = (inr v, d') ->
     exists b, d = b :: d' /\
       ((b = 2 /\ DeletedState_flags v = [false; false]) \/
        (b <> 2 /\ exactlyOne (DeletedState_flags v)))).
Proof.
  repeat split; intros d v d' H; destruct d as [|b d]; try discriminate H.
  - byte_cases b; cbv in H; try discriminate H;
      injection H as <- _; reflexivity.
  - byte_cases b; cbv in H; try discriminate H;
      injection H as <- _; reflexivity.
  - byte_cases b; cbv in H; try discriminate H;
      injection H as <- _; reflexivity.
  - unfold ContractState.Decode, bind, ReadOneByte in H.
    byte_cases b; try discriminate H.
    + injection H as <- _. reflexivity.
    + unfold ret in H. run_decode H; [discriminate H|].
      injection H as <- _. reflexivity.
    + unfold ret in H. run_decode H; [discriminate H|].
      injection H as <- _. reflexivity.
  - unfold ContractType.Decode, bind, ReadOneByte in H.
    byte_cases b; try discriminate H;
      unfold ret in H; (run_decode H; [discriminate H|]);
      injection H as <- _; reflexivity.
  - exists b. byte_cases b; cbv in H; try discriminate H;
      injection H as <- <-; (split; [reflexivity|]).
    + right. split; [discriminate | reflexivity].
    + left. split; reflexivity.
    + right. split; [discriminate | reflexivity].
Qed.

(** Decoding [1; 9] as a node certification, [1; 2; 9] as a contract
    state, [2; 5; 0; 0; 0] as a contract type, and so on. *)
Lemma decode_sets_one_discriminant_witness :
  exactlyOne (NodeCertification_flags (NodeCertification.mk false true)) /\
  exactlyOne (FarmCertification_flags (FarmCertification.mk true false)) /\
  exactlyOne (Role_flags (Role.mk true false)) /\
  exactlyOne (ContractState_flags
                (ContractState.mk false true DeletedState.zero false 0)) /\
  exactlyOne (ContractType_flags
                (ContractType.mk false NodeContract.zero false
                   NameContract.zero true (RentContract.mk 5))) /\
  (exists b, [1; 9] = b :: [9] /\
     ((b = 2 /\ DeletedState_flags (DeletedState.mk false true)
                = [false; false]) \/
      (b <> 2 /\ exactlyOne (DeletedState_flags (DeletedState.mk false true))))).
Proof.
  destruct decode_sets_one_discriminant as (H1 & H2 & H3 & H4 & H5 & H6).
  split; [apply (H1 [1; 9] _ [9]); reflexivity|].
  split; [apply (H2 [0] _ []); reflexivity|].
  split; [apply (H3 [0] _ []); reflexivity|].
  split; [apply (H4 [1; 2; 9] _ [9]); reflexivity|].
  split; [apply (H5 [2; 5; 0; 0; 0] _ []); reflexivity|].
  apply (H6 [1; 9] _ [9]); reflexivity.
Defined.

(** C4: a discriminant byte outside the known set of a variant ({0, 1} for
    [NodeCertification], [FarmCertification] and [Role]; {0, 1, 2} for
    [DeletedState], [ContractState] and [ContractType]) makes [Decode]
    fail with the decode error of that variant, whatever the receiver and
    the rest of the input; no alternative is chosen. *)
Theorem unknown_discriminant_rejected (b : Z) (rest : Decoder) :
  b <> 0 -> b <> 1 ->
  (forall p, NodeCertification.Decode p (b :: rest)
             = (inl (Errorf "unknown NodeCertification value %d" [b]), rest)) /\
  (forall p, FarmCertification.Decode p (b :: rest)
             = (inl (Errorf "unknown FarmCertification value" []), rest)) /\
  (forall r, Role.Decode r (b :: rest)
             = (inl (Errorf "unknown CertificateType value" []), rest)) /\
  (b <> 2 ->
   (forall r, DeletedState.Decode r (b :: rest)
              = (inl (Errorf "unknown deleted state value" []), rest)) /\
   (forall r, ContractState.Decode r (b :: rest)
              = (inl (Errorf "unknown ContractState value" []), rest)) /\
   (forall r, ContractType.Decode r (b :: rest)
              = (inl (Errorf "unknown contract type value" []), rest))).
Proof.
  intros H0 H1.
  repeat split; intros; byte_cases b; try reflexivity; congruence.
Qed.

(** The discriminant byte 7. *)
Lemma unknown_discriminant_rejected_witness :
  NodeCertification.Decode NodeCertification.zero [7; 1]
  = (inl (Errorf "unknown NodeCertification value %d" [7]), [1]) /\
  ContractType.Decode ContractType.zero [7; 1]
  = (inl (Errorf "unknown contract type value" []), [1]).
Proof.
  assert (H0 : 7 <> 0) by lia. assert (H1 : 7 <> 1) by lia.
  assert (H2 : 7 <> 2) by lia.
  destruct (@unknown_discriminant_rejected 7 [1] H0 H1) as (A & _ & _ & C).
  destruct (C H2) as (_ & _ & D).
  split; [apply A | apply D].
Defined.

(** C10: encoding a variant value with no discriminant set succeeds and
    writes nothing: the buffer is left as it was, with neither a
    discriminant byte nor a payload, whatever the payload fields hold. *)
Theorem encode_no_discriminant_writes_nothing (out : Encoder) :
  NodeCertification.Encode (NodeCertification.mk false false) out
  = (inr tt, out) /\
  FarmCertification.Encode (FarmCertification.mk false false) out
  = (inr tt, out) /\
  Role.Encode (Role.mk false false) out = (inr tt, out) /\
  DeletedState.Encode (DeletedState.mk false false) out = (inr tt, out) /\
  (forall d n, ContractState.Encode (ContractState.mk false false d false n) out
               = (inr tt, out)) /\
  (forall nc mc rc,
     ContractType.Encode (ContractType.mk false nc false mc false rc) out
     = (inr tt, out)).
Proof. repeat split. Qed.

(** ** The errors of the decoders *)

Lemma fails_with_ret {S A : Type} (P : error -> Prop) (a : A) :
  fails_with P (@ret S A a).
Proof. intros s e s' H. discriminate H. Qed.

Lemma fails_with_fail {S A : Type} (P : error -> Prop) (e : error) :
  P e -> fails_with P (@fail S A e).
Proof. intros He s e' s' H. injection H as <- _. exact He. Qed.

Lemma fails_with_bind {S A B : Type} (P : error -> Prop) (c : M S A)
  (k : A -> M S B) :
  fails_with P c -> (forall a, fails_with P (k a)) ->
  fails_with P (x <- c ;; k x).
Proof.
  intros Hc Hk s e s' H. unfold bind in H.
  destruct (c s) as [[e1|a] s1] eqn:E.
  - injection H as <- _. exact (Hc _ _ _ E).
  - exact (Hk a _ _ _ H).
Qed.

Lemma fails_with_wrapErr {S A : Type} (c : M S A) (msg : string) :
  fails_with decodeError c -> fails_with decodeError (wrapErr c msg).
Proof.
  intros Hc s e s' H. unfold wrapErr in H.
  destruct (c s) as [[e1|a] s1] eqn:E; [|discriminate H].
  injection H as <- _. exact (Hc _ _ _ E).
Qed.

Lemma decodeError_EOF : decodeError EOF.
Proof. split; discriminate. Qed.

Lemma decodeError_Errorf (f : string) (args : list Z) :
  decodeError (Errorf f args).
Proof. split; discriminate. Qed.

Lemma decodeError_New (msg : string) : decodeError (errors_New msg).
Proof. split; discriminate. Qed.

Lemma ReadOneByte_errors : fails_with decodeError ReadOneByte.
Proof.
  intros [|b d] e s' H; [|discriminate H].
  injection H as <- _. apply decodeError_EOF.
Qed.

Lemma Read_errors (n : nat) : fails_with decodeError (Scale.Read n).
Proof.
  intros d e s' H. unfold Scale.Read in H.
  destruct (List.length d <? n)%nat; [|discriminate H].
  injection H as <- _. apply decodeError_EOF.
Qed.

Create HintDb decode_errors.

#[local] Hint Resolve fails_with_ret fails_with_fail fails_with_wrapErr
  decodeError_EOF decodeError_Errorf decodeError_New
  ReadOneByte_errors Read_errors : decode_errors.

Ltac decode_errors :=
  repeat (apply fails_with_bind; [auto with decode_errors | intros ?]);
  auto with decode_errors.

Lemma DecodeU32_errors : fails_with decodeError Scale.DecodeU32.
Proof. unfold Scale.DecodeU32. decode_errors. Qed.

Lemma DecodeU64_errors : fails_with decodeError Scale.DecodeU64.
Proof. unfold Scale.DecodeU64. decode_errors. Qed.

Lemma DecodeUintCompact_errors : fails_with decodeError Scale.DecodeUintCompact.
Proof.
  unfold Scale.DecodeUintCompact.
  apply fails_with_bind; [auto with decode_errors|]. intros b.
  destruct (Z.land b 3) as [|[?|[?|?|]|]|?]; decode_errors.
Qed.

#[local] Hint Resolve DecodeU32_errors DecodeU64_errors
  DecodeUintCompact_errors : decode_errors.

Lemma decodeElems_errors {T : Type} (zero : T) (dec : T -> M Decoder T)
  (n : nat) :
  (forall z, fails_with decodeError (dec z)) ->
  fails_with decodeError (Scale.decodeElems zero dec n).
Proof.
  intros Hdec. induction n; cbn [Scale.decodeElems]; decode_errors.
Qed.

Lemma DecodeSlice_errors {T : Type} (zero : T) (dec : T -> M Decoder T) :
  (forall z, fails_with decodeError (dec z)) ->
  fails_with decodeError (Scale.DecodeSlice zero dec).
Proof.
  intros Hdec. unfold Scale.DecodeSlice.
  apply fails_with_bind; [auto with decode_errors|]. intros n.
  destruct (Scale.MaxUint32 <? n); [decode_errors|].
  now apply decodeElems_errors.
Qed.

Lemma DecodeBytes_errors : fails_with decodeError Scale.DecodeBytes.
Proof.
  apply DecodeSlice_errors. intros _. apply ReadOneByte_errors.
Qed.

#[local] Hint Resolve DecodeBytes_errors : decode_errors.

Lemma DecodeString_errors : fails_with decodeError Scale.DecodeString.
Proof. unfold Scale.DecodeString. decode_errors. Qed.

#[local] Hint Resolve DecodeString_errors : decode_errors.

Lemma PublicIP_Decode_errors (z : PublicIP.t) :
  fails_with decodeError (PublicIP.Decode z).
Proof. unfold PublicIP.Decode. decode_errors. Qed.

Lemma NodeContract_Decode_errors (z : NodeContract.t) :
  fails_with decodeError (NodeContract.Decode z).
Proof.
  unfold NodeContract.Decode.
  do 4 (apply fails_with_bind; [auto with decode_errors | intros ?]).
  apply fails_with_bind; [|intros ?; auto with decode_errors].
  apply DecodeSlice_errors, PublicIP_Decode_errors.
Qed.

Lemma NameContract_Decode_errors (z : NameContract.t) :
  fails_with decodeError (NameContract.Decode z).
Proof. unfold NameContract.Decode. decode_errors. Qed.

Lemma RentContract_Decode_errors (z : RentContract.t) :
  fails_with decodeError (RentContract.Decode z).
Proof. unfold RentContract.Decode. decode_errors. Qed.

#[local] Hint Resolve NodeContract_Decode_errors NameContract_Decode_errors
  RentContract_Decode_errors : decode_errors.

Lemma ContractType_Decode_errors (r : ContractType.t) :
  fails_with decodeError (ContractType.Decode r).
Proof.
  unfold ContractType.Decode.
  apply fails_with_bind; [auto with decode_errors|]. intros b.
  byte_cases b; decode_errors.
Qed.

Lemma DeletedState_Decode_errors (r : DeletedState.t) :
  fails_with decodeError (DeletedState.Decode r).
Proof.
  unfold DeletedState.Decode.
  apply fails_with_bind; [auto with decode_errors|]. intros b.
  byte_cases b; decode_errors.
Qed.

#[local] Hint Resolve DeletedState_Decode_errors : decode_errors.

Lemma ContractState_Decode_errors (r : ContractState.t) :
  fails_with decodeError (ContractState.Decode r).
Proof.
  unfold ContractState.Decode.
  apply fails_with_bind; [auto with decode_errors|]. intros b.
  byte_cases b; decode_errors.
Qed.

#[local] Hint Resolve ContractType_Decode_errors ContractState_Decode_errors
  : decode_errors.

Lemma Contract_Decode_errors (c : Contract.t) :
  fails_with decodeError (Contract.Decode c).
Proof. unfold Contract.Decode, Versioned.Decode. decode_errors. Qed.

Lemma DecodeFromBytes_errors {T : Type} (P : error -> Prop) (raw : list Z)
  (dec : M Decoder T) (e : error) :
  fails_with P dec -> Scale.DecodeFromBytes raw dec = inl e -> P e.
Proof.
  intros Hd H. unfold Scale.DecodeFromBytes in H.
  destruct (dec raw) as [[e1|v] s] eqn:E; [|discriminate H].
  injection H as <-. exact (Hd _ _ _ E).
Qed.

(** The version byte of a contract buffer is stored, not examined: the
    decoding of the rest does not depend on it. *)
Lemma Contract_Decode_any_version (v v' : Z) (rest : list Z) (c : Contract.t) :
  Scale.DecodeFromBytes (v :: rest) (Contract.Decode Contract.zero) = inr c ->
  Scale.DecodeFromBytes (v' :: rest) (Contract.Decode Contract.zero)
  = inr (Contract.mk (Versioned.mk v') (Contract.State c)
           (Contract.ContractID c) (Contract.TwinID c)
           (Contract.ContractType c)).
Proof.
  unfold Scale.DecodeFromBytes, Contract.Decode, Versioned.Decode.
  unfold bind, ReadOneByte, ret.
  cbn [Contract.State Contract.ContractType Contract.zero].
  destruct (ContractState.Decode ContractState.zero rest) as [[e|st] s1];
    [discriminate|].
  destruct (Scale.DecodeU64 s1) as [[e|id] s2]; [discriminate|].
  destruct (Scale.DecodeU32 s2) as [[e|twin] s3]; [discriminate|].
  destruct (ContractType.Decode ContractType.zero s3) as [[e|ty] s4];
    [discriminate|].
  intros H. injection H as <-. reflexivity.
Qed.

(** ** Claims about the storage accessors and the submissions *)

Section ClientProperties.
Context {B : Backend}.

Lemma EncodeToBytes_U32 (v : Z) :
  Scale.EncodeToBytes (Scale.EncodeU32 v) = inr (Scale.le_bytes 4 v).
Proof. reflexivity. Qed.

Lemma EncodeToBytes_U64 (v : Z) :
  Scale.EncodeToBytes (Scale.EncodeU64 v) = inr (Scale.le_bytes 8 v).
Proof. reflexivity. Qed.

Lemma GetStorageRawLatest_run (cl : Conn) (key : StorageKey) (w : World) :
  GetStorageRawLatest cl key w
  = (GetStorageRawLatest_ cl key (chain w), after w [EvRead key]).
Proof. reflexivity. Qed.

Lemma getVersion_run (v : Z) (rest : list Z) (w : World) :
  getVersion (v :: rest) w = (inr v, after w [EvGetVersion (v :: rest)]).
Proof. reflexivity. Qed.

Lemma after_after (w : World) (a b : list Event) :
  after (after w a) b = after w (a ++ b).
Proof. unfold after. cbn. now rewrite app_assoc. Qed.

(** C5: when the raw storage read returns a zero-length buffer, every
    record accessor returns the package's [ErrNotFound] (wrapped with the
    name of the record), having done nothing but the read: no version is
    taken, nothing is decoded, no record is returned. *)
Theorem empty_buffer_is_not_found (cl : Conn) (meta : Meta)
  (key : StorageKey) (w : World) :
  GetStorageRawLatest_ cl key (chain w) = inr [] ->
  (forall id,
     getClient_ (chain w) = inr (cl, meta) ->
     CreateStorageKey meta "TfgridModule" "Entities"
       [Scale.le_bytes 4 id; []] = inr key ->
     GetEntity id w
     = (inl (Wrap ErrNotFound "entity not found"), after w [EvRead key])) /\
  (forall id,
     getClient_ (chain w) = inr (cl, meta) ->
     CreateStorageKey meta "TfgridModule" "Farms"
       [Scale.le_bytes 4 id; []] = inr key ->
     GetFarm id w
     = (inl (Wrap ErrNotFound "farm not found"), after w [EvRead key])) /\
  getNode cl key w
  = (inl (Wrap ErrNotFound "node not found"), after w [EvRead key]) /\
  (forall id,
     pool_Get_ (chain w) = inr (cl, meta) ->
     CreateStorageKey meta "TfgridModule" "Nodes"
       [Scale.le_bytes 4 id; []] = inr key ->
     GetNode id w
     = (inl (Wrap ErrNotFound "node not found"), after w [EvRead key])) /\
  getContract cl key w
  = (inl (Wrap ErrNotFound "contract not found"), after w [EvRead key]) /\
  (forall id,
     getClient_ (chain w) = inr (cl, meta) ->
     CreateStorageKey meta "SmartContractModule" "Contracts"
       [Scale.le_bytes 8 id; []] = inr key ->
     GetContract id w
     = (inl (Wrap ErrNotFound "contract not found"), after w [EvRead key])).
Proof.
  intros Hraw.
  assert (Hn : getNode cl key w
    = (inl (Wrap ErrNotFound "node not found"), after w [EvRead key])).
  { unfold getNode, bind, wrapErr. rewrite GetStorageRawLatest_run, Hraw.
    reflexivity. }
  assert (Hc : getContract cl key w
    = (inl (Wrap ErrNotFound "contract not found"), after w [EvRead key])).
  { unfold getContract, bind, wrapErr. rewrite GetStorageRawLatest_run, Hraw.
    reflexivity. }
  repeat split; try assumption.
  - intros id Hcl Hkey.
    unfold GetEntity, bind, wrapErr, getClient, lift.
    rewrite Hcl, EncodeToBytes_U32, Hkey, GetStorageRawLatest_run, Hraw.
    reflexivity.
  - intros id Hcl Hkey.
    unfold GetFarm, bind, wrapErr, getClient, lift.
    rewrite Hcl, EncodeToBytes_U32, Hkey, GetStorageRawLatest_run, Hraw.
    reflexivity.
  - intros id Hcl Hkey.
    unfold GetNode, bind at 1 2 3, wrapErr, pool_Get, lift.
    rewrite Hcl, EncodeToBytes_U32, Hkey. exact Hn.
  - intros id Hcl Hkey.
    unfold GetContract, bind at 1 2 3, wrapErr, getClient, lift.
    rewrite Hcl, EncodeToBytes_U64, Hkey. exact Hc.
Qed.

(** C2: when the first byte of a nonempty stored buffer is outside the
    supported versions of the record kind (Entity: 1; Node: 0, 1, 2; Farm:
    1, 2, 3), the accessor returns [ErrUnknownVersion], whatever the rest
    of the buffer is and whatever the structural decoder would make of it:
    after the read only the version is taken, and no structural decode is
    performed. *)
Theorem unknown_version_rejected (cl : Conn) (meta : Meta)
  (key : StorageKey) (w : World) (v : Z) (rest : list Z) :
  GetStorageRawLatest_ cl key (chain w) = inr (v :: rest) ->
  (forall id,
     getClient_ (chain w) = inr (cl, meta) ->
     CreateStorageKey meta "TfgridModule" "Entities"
       [Scale.le_bytes 4 id; []] = inr key ->
     v <> 1 ->
     GetEntity id w
     = (inl ErrUnknownVersion,
        after w [EvRead key; EvGetVersion (v :: rest)])) /\
  (v <> 0 -> v <> 1 -> v <> 2 ->
   getNode cl key w
   = (inl ErrUnknownVersion,
      after w [EvRead key; EvGetVersion (v :: rest)])) /\
  (forall id,
     pool_Get_ (chain w) = inr (cl, meta) ->
     CreateStorageKey meta "TfgridModule" "Nodes"
       [Scale.le_bytes 4 id; []] = inr key ->
     v <> 0 -> v <> 1 -> v <> 2 ->
     GetNode id w
     = (inl ErrUnknownVersion,
        after w [EvRead key; EvGetVersion (v :: rest)])) /\
  (forall id,
     getClient_ (chain w) = inr (cl, meta) ->
     CreateStorageKey meta "TfgridModule" "Farms"
       [Scale.le_bytes 4 id; []] = inr key ->
     v <> 1 -> v <> 2 -> v <> 3 ->
     GetFarm id w
     = (inl ErrUnknownVersion,
        after w [EvRead key; EvGetVersion (v :: rest)])).
Proof.
  intros Hraw.
  assert (Hn : v <> 0 -> v <> 1 -> v <> 2 ->
    getNode cl key w
    = (inl ErrUnknownVersion,
       after w [EvRead key; EvGetVersion (v :: rest)])).
  { intros V0 V1 V2.
    unfold getNode, bind, wrapErr. rewrite GetStorageRawLatest_run, Hraw.
    cbn [List.length Nat.eqb]. rewrite getVersion_run, after_after.
    byte_cases v; try congruence; reflexivity. }
  repeat split; try assumption.
  - intros id Hcl Hkey V1.
    unfold GetEntity, bind, wrapErr, getClient, lift.
    rewrite Hcl, EncodeToBytes_U32, Hkey, GetStorageRawLatest_run, Hraw.
    cbn [List.length Nat.eqb]. rewrite getVersion_run, after_after.
    byte_cases v; try congruence; reflexivity.
  - intros id Hcl Hkey V0 V1 V2.
    unfold GetNode, bind at 1 2 3, wrapErr, pool_Get, lift.
    rewrite Hcl, EncodeToBytes_U32, Hkey. now apply Hn.
  - intros id Hcl Hkey V1 V2 V3.
    unfold GetFarm, bind, wrapErr, getClient, lift.
    rewrite Hcl, EncodeToBytes_U32, Hkey, GetStorageRawLatest_run, Hraw.
    cbn [List.length Nat.eqb]. rewrite getVersion_run, after_after.
    destruct v as [|[[?|?|]|[?|?|]|]|?]; try congruence; reflexivity.
Qed.

(** C7: on a nonempty stored buffer [getContract] goes from the read
    straight to the structural decode of the whole buffer: no version is
    taken, the result is the decoded contract or the decode error wrapped,
    never [ErrUnknownVersion] (not even as the cause), and the version
    byte is stored without being compared with anything: a buffer that
    decodes under one version byte decodes under every other. *)
Theorem getContract_no_version_dispatch (cl : Conn) (key : StorageKey)
  (w : World) (raw : list Z) :
  GetStorageRawLatest_ cl key (chain w) = inr raw ->
  raw <> [] ->
  getContract cl key w
  = (match Scale.DecodeFromBytes raw (Contract.Decode Contract.zero) with
     | inl e => inl (Wrap e "failed to load object")
     | inr c => inr c
     end,
     after w [EvRead key; EvDecode KContract raw]) /\
  (forall e, fst (getContract cl key w) = inl e ->
     e <> ErrUnknownVersion /\ Cause e <> ErrUnknownVersion) /\
  (forall v rest c v',
     raw = v :: rest ->
     fst (getContract cl key w) = inr c ->
     Scale.DecodeFromBytes (v' :: rest) (Contract.Decode Contract.zero)
     = inr (Contract.mk (Versioned.mk v') (Contract.State c)
              (Contract.ContractID c) (Contract.TwinID c)
              (Contract.ContractType c))).
Proof.
  intros Hraw Hne.
  assert (Hrun : getContract cl key w
    = (match Scale.DecodeFromBytes raw (Contract.Decode Contract.zero) with
       | inl e => inl (Wrap e "failed to load object")
       | inr c => inr c
       end,
       after w [EvRead key; EvDecode KContract raw])).
  { unfold getContract, bind, wrapErr. rewrite GetStorageRawLatest_run, Hraw.
    destruct raw as [|b raw]; [congruence|].
    cbn [List.length Nat.eqb]. unfold DecodeRecord, bind, log, lift.
    fold (after (after w [EvRead key]) [EvDecode KContract (b :: raw)]).
    rewrite after_after.
    destruct (Scale.DecodeFromBytes (b :: raw) _); reflexivity. }
  split; [exact Hrun|]. rewrite Hrun. cbn [fst]. split.
  - intros e He.
    destruct (Scale.DecodeFromBytes raw (Contract.Decode Contract.zero))
      as [e1|c] eqn:E; [|discriminate He].
    injection He as <-. split; [discriminate|].
    cbn [Cause].
    apply (@DecodeFromBytes_errors _ decodeError raw _ e1
             (Contract_Decode_errors Contract.zero) E).
  - intros v rest c v' -> Hc.
    apply Contract_Decode_any_version with (v := v).
    destruct (Scale.DecodeFromBytes (v :: rest) _); [discriminate Hc|].
    now injection Hc as <-.
Qed.

(** C6: when the value stored under the index key is absent (the read
    returns no bytes) or decodes to the identifier 0, each derived-index
    lookup returns [ErrNotFound] (wrapped), not the identifier 0. *)
Theorem index_zero_is_not_found (cl : Conn) (meta : Meta)
  (key : StorageKey) (w : World) (raw : list Z) :
  GetStorageRawLatest_ cl key (chain w) = inr raw ->
  (forall twin,
     pool_Get_ (chain w) = inr (cl, meta) ->
     CreateStorageKey meta "TfgridModule" "NodeIdByTwinID"
       [Scale.le_bytes 4 twin; []] = inr key ->
     raw = [] \/ Scale.DecodeFromBytes raw Scale.DecodeU32 = inr 0 ->
     GetNodeByTwinID twin w
     = (inl (Wrap ErrNotFound "node not found"), after w [EvRead key])) /\
  (forall node hash hashBytes,
     getClient_ (chain w) = inr (cl, meta) ->
     Scale.EncodeToBytes (Scale.EncodeString hash) = inr hashBytes ->
     CreateStorageKey meta "SmartContractModule" "ContractIDByNodeIDAndHash"
       [Scale.le_bytes 4 node; hashBytes; []] = inr key ->
     raw = [] \/ Scale.DecodeFromBytes raw Scale.DecodeU64 = inr 0 ->
     GetContractWithHash node hash w
     = (inl (Wrap ErrNotFound "contract not found"), after w [EvRead key])) /\
  (forall name nameBytes,
     getClient_ (chain w) = inr (cl, meta) ->
     Scale.EncodeToBytes (Scale.EncodeString name) = inr nameBytes ->
     CreateStorageKey meta "SmartContractModule"
       "ContractIDByNameRegistration" [nameBytes; []] = inr key ->
     raw = [] \/ Scale.DecodeFromBytes raw Scale.DecodeU64 = inr 0 ->
     GetContractIDByNameRegistration name w
     = (inl (Wrap ErrNotFound "contract not found"), after w [EvRead key])).
Proof.
  intros Hraw. repeat split.
  - intros twin Hcl Hkey Hz.
    unfold GetNodeByTwinID, bind, wrapErr, pool_Get, lift, GetStorageLatest,
      bind.
    rewrite Hcl, EncodeToBytes_U32, Hkey, GetStorageRawLatest_run, Hraw.
    destruct Hz as [-> | Hz]; [reflexivity|].
    destruct raw; [reflexivity|].
    cbn [List.length Nat.eqb]. unfold lift. rewrite Hz. reflexivity.
  - intros node hash hashBytes Hcl Hhash Hkey Hz.
    unfold GetContractWithHash, bind, wrapErr, getClient, lift,
      GetStorageLatest, bind.
    rewrite Hcl, EncodeToBytes_U32, Hhash, Hkey, GetStorageRawLatest_run, Hraw.
    destruct Hz as [-> | Hz]; [reflexivity|].
    destruct raw; [reflexivity|].
    cbn [List.length Nat.eqb]. unfold lift. rewrite Hz. reflexivity.
  - intros name nameBytes Hcl Hname Hkey Hz.
    unfold GetContractIDByNameRegistration, bind, wrapErr, getClient, lift,
      GetStorageLatest, bind.
    rewrite Hcl, Hname, Hkey, GetStorageRawLatest_run, Hraw.
    destruct Hz as [-> | Hz]; [reflexivity|].
    destruct raw; [reflexivity|].
    cbn [List.length Nat.eqb]. unfold lift. rewrite Hz. reflexivity.
Qed.

(** C8: a rent-contract creation whose call is built, submitted and
    verified without error returns the identifier 0 with no error; after
    the submission and its verification nothing is read back from the
    chain. *)
Theorem CreateRentContract_returns_zero (identity : Identity) (node : Z)
  (w : World) (cl : Conn) (meta : Meta) (c : Call_) (h : Hash) (ch : Chain) :
  getClient_ (chain w) = inr (cl, meta) ->
  NewCall meta "SmartContractModule.create_rent_contract" [ArgU32 node]
  = inr c ->
  Call_submit cl meta identity c (chain w) = (inr h, ch) ->
  checkForError_ cl meta h (accountOf identity) ch = None ->
  CreateRentContract identity node w
  = (inr 0, mkWorld ch (trace w ++ [EvCall c; EvCheckForError h])).
Proof.
  intros Hcl Hcall Hsub Hchk.
  unfold CreateRentContract, bind, wrapErr, getClient, lift, Call,
    checkForError, bind, log.
  rewrite Hcl, Hcall. cbn [chain trace]. rewrite Hsub.
  cbn [chain trace]. rewrite Hchk. cbn. now rewrite <- app_assoc.
Qed.

(** What the follow-up read returns when the index holds an identifier. *)
Lemma GetNodeByTwinID_found (twin id : Z) (w : World) (cl : Conn)
  (meta : Meta) (key : StorageKey) (raw : list Z) :
  pool_Get_ (chain w) = inr (cl, meta) ->
  CreateStorageKey meta "TfgridModule" "NodeIdByTwinID"
    [Scale.le_bytes 4 twin; []] = inr key ->
  GetStorageRawLatest_ cl key (chain w) = inr raw ->
  raw <> [] ->
  Scale.DecodeFromBytes raw Scale.DecodeU32 = inr id ->
  id <> 0 ->
  GetNodeByTwinID twin w = (inr id, after w [EvRead key]).
Proof.
  intros Hcl Hkey Hraw Hne Hid Hnz. apply Z.eqb_neq in Hnz.
  unfold GetNodeByTwinID, bind, wrapErr, pool_Get, lift, GetStorageLatest,
    bind.
  rewrite Hcl, EncodeToBytes_U32, Hkey, GetStorageRawLatest_run, Hraw.
  destruct raw; [congruence|].
  cbn [List.length Nat.eqb]. unfold lift. rewrite Hid. cbn. now rewrite Hnz.
Qed.

(** C9: when the call of a node creation or a node update is submitted
    without error, whatever block hash the submission returns, the
    operation returns what [GetNodeByTwinID] returns for the twin ID of the
    node passed in, read from the chain as the submission left it; and
    that is the identifier stored under the [NodeIdByTwinID] key built
    from this twin ID, obtained by one more storage read. *)
Theorem node_id_read_back_by_twin (identity : Identity)
  (node : Node.t CertificationType) (w : World) (cl : Conn) (meta : Meta)
  (c : Call_) (h : Hash) (ch : Chain) :
  pool_Get_ (chain w) = inr (cl, meta) ->
  Node.TwinID node <> 0 ->
  Call_submit cl meta identity c (chain w) = (inr h, ch) ->
  (NewCall meta "TfgridModule.create_node"
     [ArgU32 (Node.FarmID node); ArgResources (Node.Resources node);
      ArgLocation (Node.Location node); ArgString (Node.Country node);
      ArgString (Node.City node); ArgInterfaces (Node.Interfaces node)]
   = inr c ->
   CreateNode identity node w
   = GetNodeByTwinID (Node.TwinID node)
       (mkWorld ch (trace w ++ [EvCall c]))) /\
  (NewCall meta "TfgridModule.update_node"
     [ArgU32 (Node.ID node); ArgU32 (Node.FarmID node);
      ArgResources (Node.Resources node); ArgLocation (Node.Location node);
      ArgString (Node.Country node); ArgString (Node.City node);
      ArgInterfaces (Node.Interfaces node)]
   = inr c ->
   UpdateNode identity node w
   = GetNodeByTwinID (Node.TwinID node)
       (mkWorld ch (trace w ++ [EvCall c]))) /\
  (forall cl' meta' key raw id,
     pool_Get_ ch = inr (cl', meta') ->
     CreateStorageKey meta' "TfgridModule" "NodeIdByTwinID"
       [Scale.le_bytes 4 (Node.TwinID node); []] = inr key ->
     GetStorageRawLatest_ cl' key ch = inr raw ->
     raw <> [] ->
     Scale.DecodeFromBytes raw Scale.DecodeU32 = inr id ->
     id <> 0 ->
     GetNodeByTwinID (Node.TwinID node) (mkWorld ch (trace w ++ [EvCall c]))
     = (inr id, mkWorld ch (trace w ++ [EvCall c; EvRead key]))).
Proof.
  intros Hcl Htwin Hsub.
  apply Z.eqb_neq in Htwin.
  split; [|split]; [intros Hcall | intros Hcall |].
  3: { intros cl' meta' key raw id Hcl' Hkey Hraw Hne Hid Hnz.
       rewrite (@GetNodeByTwinID_found (Node.TwinID node) id
                  (mkWorld ch (trace w ++ [EvCall c])) cl' meta' key raw)
         by assumption.
       unfold after. cbn [chain trace]. now rewrite <- app_assoc. }
  - unfold CreateNode, bind at 1, pool_Get. rewrite Hcl, Htwin.
    unfold bind at 1 2, wrapErr, lift, Call, bind, log.
    rewrite Hcall. cbn [chain trace]. rewrite Hsub. reflexivity.
  - unfold UpdateNode, bind at 1, pool_Get. rewrite Hcl, Htwin.
    unfold bind at 1 2, wrapErr, lift, Call, bind, log.
    rewrite Hcall. cbn [chain trace]. rewrite Hsub. reflexivity.
Qed.

End ClientProperties.

(** * Properties of the rest of the package *)

(** ** The option codecs *)

Lemma inverse_EncodeBool (b : bool) :
  inverse (ScaleOption.EncodeBool b) ScaleOption.DecodeBool b.
Proof. destruct b; [one_byte 1 | one_byte 0]. Qed.

Lemma inverse_EncodeOption (enc : Z -> M Encoder unit) (dec : M Decoder Z)
  (o : option Z) :
  (forall v, o = Some v -> inverse (enc v) dec v) ->
  inverse (ScaleOption.EncodeOption enc o) (ScaleOption.DecodeOption dec) o.
Proof.
  intros H. destruct o as [v|]; [|one_byte 0].
  unfold ScaleOption.EncodeOption, ScaleOption.DecodeOption.
  eapply inverse_bind; [apply inverse_PushByte|]. cbv beta iota.
  apply (@inverse_map _ _ _ _ (@Some Z) _ (H v eq_refl)).
Qed.

Lemma inverse_OptU64 (o : option Z) :
  isOptU64 o ->
  inverse (ScaleOption.EncodeOption Scale.EncodeU64 o)
          (ScaleOption.DecodeOption Scale.DecodeU64) o.
Proof.
  intros H. apply inverse_EncodeOption. intros v ->. now apply inverse_U64.
Qed.

Lemma inverse_OptU32 (o : option Z) :
  isOptU32 o ->
  inverse (ScaleOption.EncodeOption Scale.EncodeU32 o)
          (ScaleOption.DecodeOption Scale.DecodeU32) o.
Proof.
  intros H. apply inverse_EncodeOption. intros v ->. now apply inverse_U32.
Qed.

Lemma inverse_PublicConfig (c z : PublicConfig.t) :
  PublicConfig_wf c -> inverse (PublicConfig_Encode c) (PublicConfig_Decode z) c.
Proof.
  destruct c as [a b c d e]. intros (Ha & Hb & Hc & Hd & He).
  unfold PublicConfig_Encode, PublicConfig_Decode.
  cbn [PublicConfig.IPv4 PublicConfig.IPv6 PublicConfig.GWv4
       PublicConfig.GWv6 PublicConfig.Domain] in *.
  eapply inverse_bind; [apply inverse_string, Ha|].
  eapply inverse_bind; [apply inverse_string, Hb|].
  eapply inverse_bind; [apply inverse_string, Hc|].
  eapply inverse_bind; [apply inverse_string, Hd|].
  apply (@inverse_map _ _ _ _ (PublicConfig.mk a b c d) _ (inverse_string He)).
Qed.

Lemma inverse_FarmingPolicyLimit (l z : FarmingPolicyLimit.t) :
  FarmingPolicyLimit_wf l ->
  inverse (FarmingPolicyLimit_Encode l) (FarmingPolicyLimit_Decode z) l.
Proof.
  destruct l as [id cu su en count cert]. intros (Hid & Hcu & Hsu & Hen & Hc).
  unfold FarmingPolicyLimit_Encode, FarmingPolicyLimit_Decode.
  cbn [FarmingPolicyLimit.FarmingPolicyID FarmingPolicyLimit.Cu
       FarmingPolicyLimit.Su FarmingPolicyLimit.End_
       FarmingPolicyLimit.NodeCount FarmingPolicyLimit.NodeCertification] in *.
  eapply inverse_bind; [apply inverse_U32, Hid|].
  eapply inverse_bind; [apply inverse_OptU64, Hcu|].
  eapply inverse_bind; [apply inverse_OptU64, Hsu|].
  eapply inverse_bind; [apply inverse_OptU64, Hen|].
  eapply inverse_bind; [apply inverse_OptU32, Hc|].
  apply (@inverse_map _ _ _ _ (FarmingPolicyLimit.mk id cu su en count) _
           (inverse_EncodeBool cert)).
Qed.

(** X1: an optional public config that is present with strings the wire
    format carries, or absent with a zero payload, is encoded and decoded
    back into a zero value unchanged, also in the middle of a stream: the
    encoder only appends, and the decoder leaves what follows untouched. *)
Theorem OptionPublicConfig_roundtrip (m : OptionPublicConfig.t) :
  OptionPublicConfig_valid m ->
  exists bs,
    (forall out, OptionPublicConfig_Encode m out = (inr tt, out ++ bs)) /\
    (forall rest, OptionPublicConfig_Decode OptionPublicConfig_zero
                    (bs ++ rest) = (inr m, rest)).
Proof.
  destruct m as [[|] v]; unfold OptionPublicConfig_valid;
    cbn [OptionPublicConfig.HasValue OptionPublicConfig.AsValue]; intros H.
  - change (inverse (OptionPublicConfig_Encode (OptionPublicConfig.mk true v))
              (OptionPublicConfig_Decode OptionPublicConfig_zero)
              (OptionPublicConfig.mk true v)).
    unfold OptionPublicConfig_Encode, OptionPublicConfig_Decode.
    cbn [OptionPublicConfig.HasValue OptionPublicConfig.AsValue].
    eapply inverse_bind; [apply inverse_PushByte|]. cbv beta iota.
    apply (@inverse_map _ _ _ _ (OptionPublicConfig.mk true)).
    now apply inverse_PublicConfig.
  - subst v. exists [0]. split; intros; reflexivity.
Qed.

(** X2: the same for an optional farming policy limit whose integers are
    in the range of their types. *)
Theorem OptionFarmingPolicyLimit_roundtrip (m : OptionFarmingPolicyLimit.t) :
  OptionFarmingPolicyLimit_valid m ->
  exists bs,
    (forall out, OptionFarmingPolicyLimit_Encode m out = (inr tt, out ++ bs)) /\
    (forall rest, OptionFarmingPolicyLimit_Decode
                    OptionFarmingPolicyLimit_zero (bs ++ rest)
                  = (inr m, rest)).
Proof.
  destruct m as [[|] v]; unfold OptionFarmingPolicyLimit_valid;
    cbn [OptionFarmingPolicyLimit.HasValue OptionFarmingPolicyLimit.AsValue];
    intros H.
  - change (inverse
              (OptionFarmingPolicyLimit_Encode
                 (OptionFarmingPolicyLimit.mk true v))
              (OptionFarmingPolicyLimit_Decode OptionFarmingPolicyLimit_zero)
              (OptionFarmingPolicyLimit.mk true v)).
    unfold OptionFarmingPolicyLimit_Encode, OptionFarmingPolicyLimit_Decode.
    cbn [OptionFarmingPolicyLimit.HasValue OptionFarmingPolicyLimit.AsValue].
    eapply inverse_bind; [apply inverse_PushByte|]. cbv beta iota.
    apply (@inverse_map _ _ _ _ (OptionFarmingPolicyLimit.mk true)).
    now apply inverse_FarmingPolicyLimit.
  - subst v. exists [0]. split; intros; reflexivity.
Qed.

(** X3: an option byte other than 0 and 1 makes both option decoders fail
    with "unknown value for Option", whatever the receiver and the rest of
    the input. *)
Theorem option_unknown_byte_rejected (b : Z) (rest : Decoder) :
  b <> 0 -> b <> 1 ->
  (forall m, OptionPublicConfig_Decode m (b :: rest)
             = (inl (Errorf "unknown value for Option" []), rest)) /\
  (forall m, OptionFarmingPolicyLimit_Decode m (b :: rest)
             = (inl (Errorf "unknown value for Option" []), rest)).
Proof.
  intros H0 H1. split; intros m; byte_cases b; try reflexivity; congruence.
Qed.

(** ** Decoding into a receiver *)



(** X5: inside a contract state the reason of a deletion is decoded by
    [DeletedState.Decode], and its failure is returned wrapped: a buffer
    that ends after the discriminant 1 fails with the end-of-input error,
    and a reason byte other than 0, 1 and 2 with the unknown-value error,
    both under "failed to get deleted state". *)
Theorem deleted_reason_errors_are_wrapped (r : ContractState.t) :
  ContractState.Decode r [1]
  = (inl (Wrap EOF "failed to get deleted state"), []) /\
  (forall b rest, b <> 0 -> b <> 1 -> b <> 2 ->
     ContractState.Decode r (1 :: b :: rest)
     = (inl (Wrap (Errorf "unknown deleted state value" [])
               "failed to get deleted state"), rest)).
Proof.
  split; [reflexivity|].
  intros b rest H0 H1 H2. byte_cases b; try reflexivity; congruence.
Qed.

(** [Encode] looks at the first discriminant that is set, in the
    order of the declaration, and at the payload of that alternative only:
    the discriminants after it and the payloads of the other alternatives
    do not change what is written. *)
Theorem encode_reads_first_alternative_only (out : Encoder) :
  (forall b, NodeCertification.Encode (NodeCertification.mk true b) out
             = (inr tt, out ++ [0])) /\
  (forall b, FarmCertification.Encode (FarmCertification.mk true b) out
             = (inr tt, out ++ [0])) /\
  (forall b, Role.Encode (Role.mk true b) out = (inr tt, out ++ [0])) /\
  (forall b, DeletedState.Encode (DeletedState.mk true b) out
             = (inr tt, out ++ [0])) /\
  (forall d ad g n, ContractState.Encode (ContractState.mk true d ad g n) out
                    = (inr tt, out ++ [0])) /\
  (forall ad g n, ContractState.Encode (ContractState.mk false true ad g n) out
                  = ContractState.Encode
                      (ContractState.mk false true ad false 0) out) /\
  (forall ad n, ContractState.Encode (ContractState.mk false false ad true n)
                  out
                = ContractState.Encode
                    (ContractState.mk false false DeletedState.zero true n)
                    out) /\
  (forall nc b mc c rc,
     ContractType.Encode (ContractType.mk true nc b mc c rc) out
     = ContractType.Encode
         (ContractType.mk true nc false NameContract.zero false
            RentContract.zero) out) /\
  (forall nc mc c rc,
     ContractType.Encode (ContractType.mk false nc true mc c rc) out
     = ContractType.Encode
         (ContractType.mk false NodeContract.zero true mc false
            RentContract.zero) out) /\
  (forall nc mc rc,
     ContractType.Encode (ContractType.mk false nc false mc true rc) out
     = ContractType.Encode
         (ContractType.mk false NodeContract.zero false NameContract.zero
            true rc) out).
Proof. repeat split. Qed.

Lemma le_bytes_le_value (bs : list Z) :
  Forall isByte bs ->
  Scale.le_bytes (List.length bs) (Scale.le_value bs) = bs.
Proof.
  induction 1 as [|b r Hb _ IH]; [reflexivity|].
  unfold isByte in Hb.
  cbn [List.length Scale.le_bytes Scale.le_value].
  replace ((b + 256 * Scale.le_value r) mod 256) with b
    by (Z.div_mod_to_equations; lia).
  replace ((b + 256 * Scale.le_value r) / 256) with (Scale.le_value r)
    by (Z.div_mod_to_equations; lia).
  now rewrite IH.
Qed.

Lemma Read_split (n : nat) (d d' buf : list Z) :
  Scale.Read n d = (inr buf, d') -> d = buf ++ d' /\ List.length buf = n.
Proof.
  unfold Scale.Read. intros H.
  destruct (Nat.ltb_spec (List.length d) n); [discriminate H|].
  injection H as <- <-. split.
  - symmetry. apply firstn_skipn.
  - rewrite length_firstn. lia.
Qed.

(** X6: decoding and encoding again gives the bytes back.  When [Decode]
    into a zero value succeeds on a buffer, [Encode] of the result writes
    exactly the bytes the decoder consumed: for the certifications and the
    role always, for a deleted state unless the byte was the reserved 2,
    and for a contract state over a buffer of bytes unless the reason of
    a deletion was the reserved 2. *)
Theorem decode_then_encode :
  (forall d v d', NodeCertification.Decode NodeCertification.zero d
                  = (inr v, d') ->
     exists bs, NodeCertification.Encode v [] = (inr tt, bs) /\
                d = bs ++ d') /\
  (forall d v d', FarmCertification.Decode FarmCertification.zero d
                  = (inr v, d') ->
     exists bs, FarmCertification.Encode v [] = (inr tt, bs) /\
                d = bs ++ d') /\
  (forall d v d', Role.Decode Role.zero d = (inr v, d') ->
     exists bs, Role.Encode v [] = (inr tt, bs) /\ d = bs ++ d') /\
  (forall d v d', DeletedState.Decode DeletedState.zero d = (inr v, d') ->
     d <> 2 :: d' ->
     exists bs, DeletedState.Encode v [] = (inr tt, bs) /\ d = bs ++ d') /\
  (forall d v d', ContractState.Decode ContractState.zero d = (inr v, d') ->
     Forall isByte d ->
     d <> 1 :: 2 :: d' ->
     exists bs, ContractState.Encode v [] = (inr tt, bs) /\ d = bs ++ d').
Proof.
  repeat split; intros d v d' H; destruct d as [|b d]; try discriminate H.
  - byte_cases b; cbv in H; try discriminate H;
      injection H as <- <-; eexists; split; reflexivity.
  - byte_cases b; cbv in H; try discriminate H;
      injection H as <- <-; eexists; split; reflexivity.
  - byte_cases b; cbv in H; try discriminate H;
      injection H as <- <-; eexists; split; reflexivity.
  - intros Hne. byte_cases b; cbv in H; try discriminate H;
      injection H as <- <-; try congruence; eexists; split; reflexivity.
  - intros Hbytes Hne. apply Forall_inv_tail in Hbytes.
    unfold ContractState.Decode, bind, ReadOneByte, ret in H.
    byte_cases b; try discriminate H.
    + injection H as <- <-. eexists; split; reflexivity.
    + unfold wrapErr in H.
      destruct (Scale.DecodeU64 d) as [[e|n] s] eqn:E; [discriminate H|].
      injection H as <- <-.
      unfold Scale.DecodeU64, bind in E.
      destruct (Scale.Read 8 d) as [[e|buf] s'] eqn:R; [discriminate E|].
      injection E as <- <-.
      apply Read_split in R. destruct R as [-> Hlen].
      apply Forall_app in Hbytes. destruct Hbytes as [Hbuf _].
      exists (2 :: buf). split; [|reflexivity].
      unfold ContractState.Encode, bind, PushByte, Scale.EncodeU64,
        Scale.Write.
      cbn [ContractState.IsCreated ContractState.IsDeleted
           ContractState.IsGracePeriod ContractState.zero
           ContractState.AsGracePeriodBlockNumber app].
      rewrite <- Hlen, (le_bytes_le_value Hbuf). reflexivity.
    + unfold wrapErr in H.
      cbn [ContractState.AsDeleted ContractState.zero] in H.
      destruct (DeletedState.Decode DeletedState.zero d) as [[e|x] s] eqn:E;
        [discriminate H|].
      injection H as <- <-.
      destruct d as [|c d]; [discriminate E|].
      byte_cases c; cbv in E; try discriminate E;
        injection E as <- <-; try congruence; eexists; split; reflexivity.
Qed.

(** ** Contract records in storage *)

Lemma inverse_Contract (c : Contract.t) :
  Contract_valid c ->
  inverse (Contract.Encode c) (Contract.Decode Contract.zero) c.
Proof.
  destruct c as [[v] st id twin ty].
  unfold Contract_valid.
  cbn [Contract.State Contract.ContractID Contract.TwinID
       Contract.ContractType].
  intros (Hst & Zst & Hid & Htwin & Hty & Zty).
  unfold Contract.Encode, Contract.Decode, Versioned.Encode, Versioned.Decode.
  cbn [Contract.Versioned Contract.State Contract.ContractID Contract.TwinID
       Contract.ContractType Contract.zero Versioned.Version].
  eapply inverse_bind.
  { apply (@inverse_map _ _ _ _ Versioned.mk _ (inverse_PushByte v)). }
  eapply inverse_bind; [now apply inverse_ContractState|].
  eapply inverse_bind; [apply inverse_U64, Hid|].
  eapply inverse_bind; [apply inverse_U32, Htwin|].
  apply (@inverse_map _ _ _ _ (Contract.mk (Versioned.mk v) st id twin)).
  now apply inverse_ContractType.
Qed.

Section StoredContract.
Context {B : Backend}.

Lemma getContract_run (cl : Conn) (key : StorageKey) (w : World)
  (b : Z) (raw : list Z) :
  GetStorageRawLatest_ cl key (chain w) = inr (b :: raw) ->
  getContract cl key w
  = (match Scale.DecodeFromBytes (b :: raw)
             (Contract.Decode Contract.zero) with
     | inl e => inl (Wrap e "failed to load object")
     | inr c => inr c
     end,
     after w [EvRead key; EvDecode KContract (b :: raw)]).
Proof.
  intros Hraw.
  unfold getContract, bind, wrapErr. rewrite GetStorageRawLatest_run, Hraw.
  cbn [List.length Nat.eqb]. unfold DecodeRecord, bind, log, lift.
  fold (after (after w [EvRead key]) [EvDecode KContract (b :: raw)]).
  rewrite after_after.
  destruct (Scale.DecodeFromBytes (b :: raw) _); reflexivity.
Qed.

(** X7: when the value stored under the key is the encoding of a valid
    contract record, followed by any bytes, [getContract] returns that
    record, whatever its version byte is; the bytes that follow are
    ignored. *)
Theorem getContract_returns_stored (cl : Conn) (key : StorageKey)
  (w : World) (c : Contract.t) (bs extra : list Z) :
  Contract_valid c ->
  Scale.EncodeToBytes (Contract.Encode c) = inr bs ->
  GetStorageRawLatest_ cl key (chain w) = inr (bs ++ extra) ->
  getContract cl key w
  = (inr c, after w [EvRead key; EvDecode KContract (bs ++ extra)]).
Proof.
  intros Hc Henc Hraw.
  destruct (inverse_Contract Hc) as [bs0 [E D]].
  unfold Scale.EncodeToBytes in Henc. rewrite (E []) in Henc.
  cbn [app] in Henc. injection Henc as <-.
  specialize (D extra).
  destruct (bs0 ++ extra) as [|b raw] eqn:Eraw.
  - destruct c. discriminate D.
  - rewrite (getContract_run _ _ _ Hraw).
    unfold Scale.DecodeFromBytes. now rewrite D.
Qed.

End StoredContract.

(** ** The accessors, the lookups and the submissions *)

Section MoreClientProperties.
Context {B : Backend} {CB : CallBuilder B}.

Lemma DecodeRecord_run {T : Type} (kind : RecordKind) (raw : list Z)
  (dec : list Z -> error + T) (w : World) :
  DecodeRecord kind raw dec w = (dec raw, after w [EvDecode kind raw]).
Proof. reflexivity. Qed.

(** X8: when the first byte of the stored buffer is a supported version
    (Entity: 1; Node: 0, 1, 2; Farm: 1, 2, 3), the accessor hands the
    whole buffer, version byte included, to the structural decoder and
    returns its record, or its error under "failed to load object". *)
Theorem supported_version_is_decoded (cl : Conn) (meta : Meta)
  (key : StorageKey) (w : World) (v : Z) (rest : list Z) :
  GetStorageRawLatest_ cl key (chain w) = inr (v :: rest) ->
  let w' := after w [EvRead key; EvGetVersion (v :: rest)] in
  (forall id,
     getClient_ (chain w) = inr (cl, meta) ->
     CreateStorageKey meta "TfgridModule" "Entities"
       [Scale.le_bytes 4 id; []] = inr key ->
     v = 1 ->
     GetEntity id w
     = (match DecodeEntity (v :: rest) with
        | inl e => inl (Wrap e "failed to load object")
        | inr x => inr x
        end,
        after w' [EvDecode KEntity (v :: rest)])) /\
  (v = 0 \/ v = 1 \/ v = 2 ->
   getNode cl key w
   = (match DecodeNode (v :: rest) with
      | inl e => inl (Wrap e "failed to load object")
      | inr x => inr x
      end,
      after w' [EvDecode KNode (v :: rest)])) /\
  (forall id,
     getClient_ (chain w) = inr (cl, meta) ->
     CreateStorageKey meta "TfgridModule" "Farms"
       [Scale.le_bytes 4 id; []] = inr key ->
     v = 1 \/ v = 2 \/ v = 3 ->
     GetFarm id w
     = (match DecodeFarm (v :: rest) with
        | inl e => inl (Wrap e "failed to load object")
        | inr x => inr x
        end,
        after w' [EvDecode KFarm (v :: rest)])).
Proof.
  intros Hraw w'. subst w'. repeat split.
  - intros id Hcl Hkey ->.
    unfold GetEntity, bind, wrapErr, getClient, lift.
    rewrite Hcl, EncodeToBytes_U32, Hkey, GetStorageRawLatest_run, Hraw.
    cbn [List.length Nat.eqb]. rewrite getVersion_run, after_after.
    cbv iota. rewrite DecodeRecord_run, !after_after.
    destruct (DecodeEntity (1 :: rest)); reflexivity.
  - intros Hv.
    unfold getNode, bind, wrapErr. rewrite GetStorageRawLatest_run, Hraw.
    cbn [List.length Nat.eqb]. rewrite getVersion_run, after_after.
    destruct Hv as [-> | [-> | ->]]; cbv iota;
      rewrite DecodeRecord_run, !after_after;
      destruct (DecodeNode _); reflexivity.
  - intros id Hcl Hkey Hv.
    unfold GetFarm, bind, wrapErr, getClient, lift.
    rewrite Hcl, EncodeToBytes_U32, Hkey, GetStorageRawLatest_run, Hraw.
    cbn [List.length Nat.eqb]. rewrite getVersion_run, after_after.
    destruct Hv as [-> | [-> | ->]]; cbv iota;
      rewrite DecodeRecord_run, !after_after;
      destruct (DecodeFarm _); reflexivity.
Qed.

(** X9: when no client can be acquired, every operation returns the error
    of the acquisition as it is and does nothing: nothing is read, no call
    is built or submitted. *)
Theorem no_client_no_effect (w : World) (e : error) :
  (getClient_ (chain w) = inl e ->
   (forall id, GetEntity id w = (inl e, w)) /\
   (forall id, GetFarm id w = (inl e, w)) /\
   (forall id, GetContract id w = (inl e, w)) /\
   (forall node hash, GetContractWithHash node hash w = (inl e, w)) /\
   (forall name, GetContractIDByNameRegistration name w = (inl e, w)) /\
   (forall node, GetNodeContracts node w = (inl e, w)) /\
   (forall identity node body hash ips,
      CreateNodeContract identity node body hash ips w = (inl e, w)) /\
   (forall identity name, CreateNameContract identity name w = (inl e, w)) /\
   (forall identity node, CreateRentContract identity node w = (inl e, w)) /\
   (forall identity contract body hash,
      UpdateNodeContract identity contract body hash w = (inl e, w)) /\
   (forall identity contract, CancelContract identity contract w = (inl e, w)) /\
   (forall identity resources,
      SetContractConsumption identity resources w = (inl e, w)) /\
   (forall identity consumptions,
      Report identity consumptions w = (inl e, w))) /\
  (pool_Get_ (chain w) = inl e ->
   (forall twin, GetNodeByTwinID twin w = (inl e, w)) /\
   (forall id, GetNode id w = (inl e, w)) /\
   (forall identity node, CreateNode identity node w = (inl e, w)) /\
   (forall identity node, UpdateNode identity node w = (inl e, w)) /\
   (forall identity uptime, UpdateNodeUptime identity uptime w = (inl e, w))).
Proof.
  split; intros H; repeat split; intros;
    cbv beta delta [GetEntity GetFarm GetContract GetContractWithHash
                    GetContractIDByNameRegistration GetNodeContracts
                    CreateNodeContract CreateNameContract CreateRentContract
                    UpdateNodeContract CancelContract SetContractConsumption
                    Report GetNodeByTwinID GetNode CreateNode UpdateNode
                    UpdateNodeUptime getClient pool_Get bind];
    rewrite H; reflexivity.
Qed.

(** X10: when the raw storage read fails, the accessors and the lookups
    return its error wrapped ("failed to lookup entity" for entities,
    farms and nodes, "failed to lookup contract" for a contract, "failed
    to lookup contracts" for the contract indexes), not [ErrNotFound];
    nothing is decoded. *)
Theorem read_failure_is_wrapped (cl : Conn) (meta : Meta)
  (key : StorageKey) (w : World) (e : error) :
  GetStorageRawLatest_ cl key (chain w) = inl e ->
  (forall id,
     getClient_ (chain w) = inr (cl, meta) ->
     CreateStorageKey meta "TfgridModule" "Entities"
       [Scale.le_bytes 4 id; []] = inr key ->
     GetEntity id w
     = (inl (Wrap e "failed to lookup entity"), after w [EvRead key])) /\
  (forall id,
     getClient_ (chain w) = inr (cl, meta) ->
     CreateStorageKey meta "TfgridModule" "Farms"
       [Scale.le_bytes 4 id; []] = inr key ->
     GetFarm id w
     = (inl (Wrap e "failed to lookup entity"), after w [EvRead key])) /\
  getNode cl key w
  = (inl (Wrap e "failed to lookup entity"), after w [EvRead key]) /\
  getContract cl key w
  = (inl (Wrap e "failed to lookup contract"), after w [EvRead key]) /\
  (forall twin,
     pool_Get_ (chain w) = inr (cl, meta) ->
     CreateStorageKey meta "TfgridModule" "NodeIdByTwinID"
       [Scale.le_bytes 4 twin; []] = inr key ->
     GetNodeByTwinID twin w
     = (inl (Wrap e "failed to lookup entity"), after w [EvRead key])) /\
  (forall node hash hashBytes,
     getClient_ (chain w) = inr (cl, meta) ->
     Scale.EncodeToBytes (Scale.EncodeString hash) = inr hashBytes ->
     CreateStorageKey meta "SmartContractModule" "ContractIDByNodeIDAndHash"
       [Scale.le_bytes 4 node; hashBytes; []] = inr key ->
     GetContractWithHash node hash w
     = (inl (Wrap e "failed to lookup contracts"), after w [EvRead key])) /\
  (forall name nameBytes,
     getClient_ (chain w) = inr (cl, meta) ->
     Scale.EncodeToBytes (Scale.EncodeString name) = inr nameBytes ->
     CreateStorageKey meta "SmartContractModule"
       "ContractIDByNameRegistration" [nameBytes; []] = inr key ->
     GetContractIDByNameRegistration name w
     = (inl (Wrap e "failed to lookup contracts"), after w [EvRead key])) /\
  (forall node,
     getClient_ (chain w) = inr (cl, meta) ->
     CreateStorageKey meta "SmartContractModule" "ActiveNodeContracts"
       [Scale.le_bytes 4 node] = inr key ->
     GetNodeContracts node w
     = (inl (Wrap e "failed to lookup contracts"), after w [EvRead key])).
Proof.
  intros Hraw. repeat split.
  - intros id Hcl Hkey.
    unfold GetEntity, bind, wrapErr, getClient, lift.
    rewrite Hcl, EncodeToBytes_U32, Hkey, GetStorageRawLatest_run, Hraw.
    reflexivity.
  - intros id Hcl Hkey.
    unfold GetFarm, bind, wrapErr, getClient, lift.
    rewrite Hcl, EncodeToBytes_U32, Hkey, GetStorageRawLatest_run, Hraw.
    reflexivity.
  - unfold getNode, bind, wrapErr. rewrite GetStorageRawLatest_run, Hraw.
    reflexivity.
  - unfold getContract, bind, wrapErr. rewrite GetStorageRawLatest_run, Hraw.
    reflexivity.
  - intros twin Hcl Hkey.
    unfold GetNodeByTwinID, bind, wrapErr, pool_Get, lift, GetStorageLatest,
      bind.
    rewrite Hcl, EncodeToBytes_U32, Hkey, GetStorageRawLatest_run, Hraw.
    reflexivity.
  - intros node hash hashBytes Hcl Hhash Hkey.
    unfold GetContractWithHash, bind, wrapErr, getClient, lift,
      GetStorageLatest, bind.
    rewrite Hcl, EncodeToBytes_U32, Hhash, Hkey, GetStorageRawLatest_run, Hraw.
    reflexivity.
  - intros name nameBytes Hcl Hname Hkey.
    unfold GetContractIDByNameRegistration, bind, wrapErr, getClient, lift,
      GetStorageLatest, bind.
    rewrite Hcl, Hname, Hkey, GetStorageRawLatest_run, Hraw.
    reflexivity.
  - intros node Hcl Hkey.
    unfold GetNodeContracts, bind, wrapErr, getClient, lift,
      GetStorageLatest, bind.
    rewrite Hcl, EncodeToBytes_U32, Hkey, GetStorageRawLatest_run, Hraw.
    reflexivity.
Qed.

(** X11: a node whose twin ID is 0 is refused before anything is sent:
    [CreateNode] and [UpdateNode] return "twin id is required", and no
    call is built or submitted and nothing is read. *)
Theorem twin_id_is_required (identity : Identity)
  (node : Node.t CertificationType) (w : World) (cl : Conn) (meta : Meta) :
  pool_Get_ (chain w) = inr (cl, meta) ->
  Node.TwinID node = 0 ->
  CreateNode identity node w = (inl (Errorf "twin id is required" []), w) /\
  UpdateNode identity node w = (inl (Errorf "twin id is required" []), w).
Proof.
  intros Hcl Htwin. split.
  - unfold CreateNode, bind at 1, pool_Get. rewrite Hcl, Htwin. reflexivity.
  - unfold UpdateNode, bind at 1, pool_Get. rewrite Hcl, Htwin. reflexivity.
Qed.

(** X12: when the submission of a node creation or update fails, the
    operation returns the error of the submission wrapped ("failed to
    create node", "failed to update node") and does not look the node up:
    after the call nothing is read. *)
Theorem failed_node_submission_reads_nothing (identity : Identity)
  (node : Node.t CertificationType) (w : World) (cl : Conn) (meta : Meta)
  (c : Call_) (e : error) (ch : Chain) :
  pool_Get_ (chain w) = inr (cl, meta) ->
  Node.TwinID node <> 0 ->
  Call_submit cl meta identity c (chain w) = (inl e, ch) ->
  (NewCall meta "TfgridModule.create_node"
     [ArgU32 (Node.FarmID node); ArgResources (Node.Resources node);
      ArgLocation (Node.Location node); ArgString (Node.Country node);
      ArgString (Node.City node); ArgInterfaces (Node.Interfaces node)]
   = inr c ->
   CreateNode identity node w
   = (inl (Wrap e "failed to create node"),
      mkWorld ch (trace w ++ [EvCall c]))) /\
  (NewCall meta "TfgridModule.update_node"
     [ArgU32 (Node.ID node); ArgU32 (Node.FarmID node);
      ArgResources (Node.Resources node); ArgLocation (Node.Location node);
      ArgString (Node.Country node); ArgString (Node.City node);
      ArgInterfaces (Node.Interfaces node)]
   = inr c ->
   UpdateNode identity node w
   = (inl (Wrap e "failed to update node"),
      mkWorld ch (trace w ++ [EvCall c]))).
Proof.
  intros Hcl Htwin Hsub. apply Z.eqb_neq in Htwin.
  split; intros Hcall.
  - unfold CreateNode, bind at 1, pool_Get. rewrite Hcl, Htwin.
    unfold bind at 1 2, wrapErr, lift, Call, bind, log.
    rewrite Hcall. cbn [chain trace]. rewrite Hsub. reflexivity.
  - unfold UpdateNode, bind at 1, pool_Get. rewrite Hcl, Htwin.
    unfold bind at 1 2, wrapErr, lift, Call, bind, log.
    rewrite Hcall. cbn [chain trace]. rewrite Hsub. reflexivity.
Qed.

(** Case analysis on every step of a run. *)
Ltac step_in H :=
  match type of H with
  | context [match ?x with _ => _ end] =>
      match x with
      | context [match _ with _ => _ end] => fail 1
      | _ => destruct x eqn:?
      end
  end.

Ltac steps H := repeat (step_in H; cbn [fst snd chain trace] in H).

Lemma GetNodeByTwinID_nonzero (twin id : Z) (w w' : World) :
  GetNodeByTwinID twin w = (inr id, w') -> id <> 0.
Proof.
  intros H.
  unfold GetNodeByTwinID, bind, wrapErr, pool_Get, lift, GetStorageLatest,
    bind, GetStorageRawLatest, bind, log, ret, fail, lift in H.
  steps H; try discriminate H; injection H as <- _.
  all: match goal with
       | E : negb _ || (_ =? 0) = false |- _ =>
           apply orb_false_elim in E; destruct E as [_ E];
           now apply Z.eqb_neq in E
       end.
Qed.

Lemma GetContractWithHash_nonzero (node id : Z) (hash : string)
  (w w' : World) :
  GetContractWithHash node hash w = (inr id, w') -> id <> 0.
Proof.
  intros H.
  unfold GetContractWithHash, bind, wrapErr, getClient, lift,
    GetStorageLatest, bind, GetStorageRawLatest, bind, log, ret, fail,
    lift in H.
  steps H; try discriminate H; injection H as <- _.
  all: match goal with
       | E : (_ =? 0) = false |- _ => now apply Z.eqb_neq in E
       end.
Qed.

Lemma GetContractIDByNameRegistration_nonzero (id : Z) (name : string)
  (w w' : World) :
  GetContractIDByNameRegistration name w = (inr id, w') -> id <> 0.
Proof.
  intros H.
  unfold GetContractIDByNameRegistration, bind, wrapErr, getClient, lift,
    GetStorageLatest, bind, GetStorageRawLatest, bind, log, ret, fail,
    lift in H.
  steps H; try discriminate H; injection H as <- _.
  all: match goal with
       | E : (_ =? 0) = false |- _ => now apply Z.eqb_neq in E
       end.
Qed.

(** X13: an identifier that a derived-index lookup returns without error
    is never 0, on every chain and for every key. *)
Theorem lookup_success_is_nonzero (w w' : World) (id : Z) :
  (forall twin, GetNodeByTwinID twin w = (inr id, w') -> id <> 0) /\
  (forall node hash,
     GetContractWithHash node hash w = (inr id, w') -> id <> 0) /\
  (forall name,
     GetContractIDByNameRegistration name w = (inr id, w') -> id <> 0).
Proof.
  repeat split; intros.
  - eapply GetNodeByTwinID_nonzero; eassumption.
  - eapply GetContractWithHash_nonzero; eassumption.
  - eapply GetContractIDByNameRegistration_nonzero; eassumption.
Qed.

(** X14: the creations that read the identifier back never answer 0: when
    [CreateNode], [UpdateNode], [CreateNodeContract] or
    [CreateNameContract] returns without error, the identifier returned is
    not 0, whatever the chain does. *)
Theorem creation_success_is_nonzero (identity : Identity) (w w' : World)
  (id : Z) :
  (forall node, CreateNode identity node w = (inr id, w') -> id <> 0) /\
  (forall node, UpdateNode identity node w = (inr id, w') -> id <> 0) /\
  (forall node body hash ips,
     CreateNodeContract identity node body hash ips w = (inr id, w') ->
     id <> 0) /\
  (forall name, CreateNameContract identity name w = (inr id, w') -> id <> 0).
Proof.
  repeat split.
  - intros node H.
    unfold CreateNode, bind, wrapErr, pool_Get, lift, Call, bind, log,
      fail in H.
    steps H; try discriminate H.
    eapply GetNodeByTwinID_nonzero; eassumption.
  - intros node H.
    unfold UpdateNode, bind, wrapErr, pool_Get, lift, Call, bind, log,
      fail in H.
    steps H; try discriminate H.
    eapply GetNodeByTwinID_nonzero; eassumption.
  - intros node body hash ips H.
    unfold CreateNodeContract, bind, wrapErr, getClient, lift, Call,
      checkForError, bind, log, fail in H.
    steps H; try discriminate H.
    eapply GetContractWithHash_nonzero; eassumption.
  - intros name H.
    unfold CreateNameContract, bind, wrapErr, getClient, lift, Call,
      checkForError, bind, log, fail in H.
    steps H; try discriminate H.
    eapply GetContractIDByNameRegistration_nonzero; eassumption.
Qed.

(** X15: after a node-contract or name-contract creation is submitted and
    verified, the identifier returned is what the lookup by node and hash,
    or by name, returns on the chain as the submission left it, whatever
    the block hash. *)
Theorem contract_creation_reads_back (identity : Identity) (w : World)
  (cl : Conn) (meta : Meta) (c : Call_) (h : Hash) (ch : Chain) :
  getClient_ (chain w) = inr (cl, meta) ->
  Call_submit cl meta identity c (chain w) = (inr h, ch) ->
  checkForError_ cl meta h (accountOf identity) ch = None ->
  (forall node body hash ips,
     NewContractCall meta "SmartContractModule.create_node_contract"
       [CArgU32 node; CArgBytes body; CArgString hash; CArgU32 ips] = inr c ->
     CreateNodeContract identity node body hash ips w
     = GetContractWithHash node hash
         (mkWorld ch (trace w ++ [EvCall c; EvCheckForError h]))) /\
  (forall name,
     NewContractCall meta "SmartContractModule.create_name_contract"
       [CArgString name] = inr c ->
     CreateNameContract identity name w
     = GetContractIDByNameRegistration name
         (mkWorld ch (trace w ++ [EvCall c; EvCheckForError h]))).
Proof.
  intros Hcl Hsub Hchk. split.
  - intros node body hash ips Hcall.
    unfold CreateNodeContract, bind at 1, getClient. rewrite Hcl.
    unfold bind at 1 2 3, wrapErr, lift, Call, checkForError, bind, log.
    rewrite Hcall. cbn [chain trace]. rewrite Hsub. cbn [chain trace].
    rewrite Hchk. now rewrite <- app_assoc.
  - intros name Hcall.
    unfold CreateNameContract, bind at 1, getClient. rewrite Hcl.
    unfold bind at 1 2 3, wrapErr, lift, Call, checkForError, bind, log.
    rewrite Hcall. cbn [chain trace]. rewrite Hsub. cbn [chain trace].
    rewrite Hchk. now rewrite <- app_assoc.
Qed.

(** X16: when the dispatch check reports an error for a submitted call,
    each contract operation returns that error as it is and stops: after
    the submission and the check nothing is read back and no identifier
    is returned. *)
Theorem dispatch_failure_is_returned (identity : Identity) (w : World)
  (cl : Conn) (meta : Meta) (c : Call_) (h : Hash) (ch : Chain) (e : error) :
  getClient_ (chain w) = inr (cl, meta) ->
  Call_submit cl meta identity c (chain w) = (inr h, ch) ->
  checkForError_ cl meta h (accountOf identity) ch = Some e ->
  let w' := mkWorld ch (trace w ++ [EvCall c; EvCheckForError h]) in
  (forall node body hash ips,
     NewContractCall meta "SmartContractModule.create_node_contract"
       [CArgU32 node; CArgBytes body; CArgString hash; CArgU32 ips] = inr c ->
     CreateNodeContract identity node body hash ips w = (inl e, w')) /\
  (forall name,
     NewContractCall meta "SmartContractModule.create_name_contract"
       [CArgString name] = inr c ->
     CreateNameContract identity name w = (inl e, w')) /\
  (forall node,
     NewCall meta "SmartContractModule.create_rent_contract" [ArgU32 node]
     = inr c ->
     CreateRentContract identity node w = (inl e, w')) /\
  (forall contract body hash,
     NewContractCall meta "SmartContractModule.update_node_contract"
       [CArgU64 contract; CArgBytes body; CArgString hash] = inr c ->
     UpdateNodeContract identity contract body hash w = (inl e, w')) /\
  (forall contract,
     NewContractCall meta "SmartContractModule.cancel_contract"
       [CArgU64 contract] = inr c ->
     CancelContract identity contract w = (inl e, w')) /\
  (forall resources,
     NewContractCall meta "SmartContractModule.report_contract_resources"
       [CArgContractResources resources] = inr c ->
     SetContractConsumption identity resources w = (inl e, w')).
Proof.
  intros Hcl Hsub Hchk w'. subst w'.
  repeat split; intros;
    cbv beta delta [CreateNodeContract CreateNameContract CreateRentContract
                    UpdateNodeContract CancelContract SetContractConsumption
                    bind wrapErr getClient lift Call checkForError log];
    rewrite Hcl;
    match goal with Hc : _ = inr c |- _ => rewrite Hc end;
    cbn [chain trace]; rewrite Hsub; cbn [chain trace]; rewrite Hchk;
    now rewrite <- app_assoc.
Qed.

Lemma DecodeU64_le_bytes (id : Z) (rest : list Z) :
  isU64 id ->
  Scale.DecodeU64 (Scale.le_bytes 8 id ++ rest) = (inr id, rest).
Proof.
  intros Hid. unfold Scale.DecodeU64, bind.
  pose proof (Read_app (Scale.le_bytes 8 id) rest) as HR.
  rewrite le_bytes_length in HR. rewrite HR.
  unfold ret. now rewrite (@le_value_le_bytes 8 id Hid).
Qed.

Lemma DecodeU32_le_bytes (id : Z) (rest : list Z) :
  isU32 id ->
  Scale.DecodeU32 (Scale.le_bytes 4 id ++ rest) = (inr id, rest).
Proof.
  intros Hid. unfold Scale.DecodeU32, bind.
  pose proof (Read_app (Scale.le_bytes 4 id) rest) as HR.
  rewrite le_bytes_length in HR. rewrite HR.
  unfold ret. now rewrite (@le_value_le_bytes 4 id Hid).
Qed.

(** X17: when the index holds the little-endian bytes of an identifier
    that is not 0 (four bytes for a node, eight for a contract), followed
    by any bytes, the lookup returns that identifier after one read. *)
Theorem lookup_returns_stored_id (cl : Conn) (meta : Meta)
  (key : StorageKey) (w : World) (id : Z) (extra : list Z) :
  id <> 0 ->
  (forall twin,
     isU32 id ->
     pool_Get_ (chain w) = inr (cl, meta) ->
     CreateStorageKey meta "TfgridModule" "NodeIdByTwinID"
       [Scale.le_bytes 4 twin; []] = inr key ->
     GetStorageRawLatest_ cl key (chain w)
     = inr (Scale.le_bytes 4 id ++ extra) ->
     GetNodeByTwinID twin w = (inr id, after w [EvRead key])) /\
  (forall node hash hashBytes,
     isU64 id ->
     getClient_ (chain w) = inr (cl, meta) ->
     Scale.EncodeToBytes (Scale.EncodeString hash) = inr hashBytes ->
     CreateStorageKey meta "SmartContractModule" "ContractIDByNodeIDAndHash"
       [Scale.le_bytes 4 node; hashBytes; []] = inr key ->
     GetStorageRawLatest_ cl key (chain w)
     = inr (Scale.le_bytes 8 id ++ extra) ->
     GetContractWithHash node hash w = (inr id, after w [EvRead key])) /\
  (forall name nameBytes,
     isU64 id ->
     getClient_ (chain w) = inr (cl, meta) ->
     Scale.EncodeToBytes (Scale.EncodeString name) = inr nameBytes ->
     CreateStorageKey meta "SmartContractModule"
       "ContractIDByNameRegistration" [nameBytes; []] = inr key ->
     GetStorageRawLatest_ cl key (chain w)
     = inr (Scale.le_bytes 8 id ++ extra) ->
     GetContractIDByNameRegistration name w
     = (inr id, after w [EvRead key])).
Proof.
  intros Hnz. apply Z.eqb_neq in Hnz. repeat split.
  - intros twin Hid Hcl Hkey Hraw.
    unfold GetNodeByTwinID, bind, wrapErr, pool_Get, lift, GetStorageLatest,
      bind.
    rewrite Hcl, EncodeToBytes_U32, Hkey, GetStorageRawLatest_run, Hraw.
    change (List.length (Scale.le_bytes 4 id ++ extra) =? 0)%nat with false.
    cbv iota. unfold lift, Scale.DecodeFromBytes.
    rewrite (DecodeU32_le_bytes extra Hid). cbn. now rewrite Hnz.
  - intros node hash hashBytes Hid Hcl Hhash Hkey Hraw.
    unfold GetContractWithHash, bind, wrapErr, getClient, lift,
      GetStorageLatest, bind.
    rewrite Hcl, EncodeToBytes_U32, Hhash, Hkey, GetStorageRawLatest_run, Hraw.
    change (List.length (Scale.le_bytes 8 id ++ extra) =? 0)%nat with false.
    cbv iota. unfold lift, Scale.DecodeFromBytes.
    rewrite (DecodeU64_le_bytes extra Hid). cbn. now rewrite Hnz.
  - intros name nameBytes Hid Hcl Hname Hkey Hraw.
    unfold GetContractIDByNameRegistration, bind, wrapErr, getClient, lift,
      GetStorageLatest, bind.
    rewrite Hcl, Hname, Hkey, GetStorageRawLatest_run, Hraw.
    change (List.length (Scale.le_bytes 8 id ++ extra) =? 0)%nat with false.
    cbv iota. unfold lift, Scale.DecodeFromBytes.
    rewrite (DecodeU64_le_bytes extra Hid). cbn. now rewrite Hnz.
Qed.

Lemma inverse_U64_list (l : list Z) :
  isSeq l -> Forall isU64 l ->
  inverse (Scale.EncodeSlice Scale.EncodeU64 l)
          (Scale.DecodeSlice 0 (fun _ => Scale.DecodeU64)) l.
Proof.
  intros Hlen Hl. apply inverse_slice; [exact Hlen|].
  eapply Forall_impl; [|exact Hl]. intros v Hv. now apply inverse_U64.
Qed.

(** X18: the active contracts of a node.  When nothing is stored under the
    key the answer is the empty list with no error, not [ErrNotFound];
    when the encoding of a list of contract identifiers is stored,
    followed by any bytes, the answer is that list. *)
Theorem GetNodeContracts_answers (cl : Conn) (meta : Meta)
  (key : StorageKey) (w : World) (node : Z) :
  getClient_ (chain w) = inr (cl, meta) ->
  CreateStorageKey meta "SmartContractModule" "ActiveNodeContracts"
    [Scale.le_bytes 4 node] = inr key ->
  (GetStorageRawLatest_ cl key (chain w) = inr [] ->
   GetNodeContracts node w = (inr [], after w [EvRead key])) /\
  (forall l bs extra,
     isSeq l -> Forall isU64 l ->
     Scale.EncodeToBytes (Scale.EncodeSlice Scale.EncodeU64 l) = inr bs ->
     GetStorageRawLatest_ cl key (chain w) = inr (bs ++ extra) ->
     GetNodeContracts node w = (inr l, after w [EvRead key])).
Proof.
  intros Hcl Hkey. split.
  - intros Hraw.
    unfold GetNodeContracts, bind, wrapErr, getClient, lift,
      GetStorageLatest, bind.
    rewrite Hcl, EncodeToBytes_U32, Hkey, GetStorageRawLatest_run, Hraw.
    reflexivity.
  - intros l bs extra Hlen Hl Henc Hraw.
    destruct (inverse_U64_list Hlen Hl) as [bs0 [E D]].
    unfold Scale.EncodeToBytes in Henc. rewrite (E []) in Henc.
    cbn [app] in Henc. injection Henc as <-.
    specialize (D extra).
    unfold GetNodeContracts, bind, wrapErr, getClient, lift,
      GetStorageLatest, bind.
    rewrite Hcl, EncodeToBytes_U32, Hkey, GetStorageRawLatest_run, Hraw.
    destruct (bs0 ++ extra) as [|b raw] eqn:Eraw; [discriminate D|].
    cbn [List.length Nat.eqb]. unfold lift, Scale.DecodeFromBytes.
    rewrite D. reflexivity.
Qed.





(** X20: when the storage key cannot be built, the accessors and the
    lookups return the error of the key construction under "failed to
    create substrate query key" and read nothing. *)
Theorem key_failure_reads_nothing (cl : Conn) (meta : Meta) (w : World)
  (e : error) :
  let failed (A : Type) : (error + A) * World :=
    (inl (Wrap e "failed to create substrate query key"), w) in
  (getClient_ (chain w) = inr (cl, meta) ->
   (forall id,
      CreateStorageKey meta "TfgridModule" "Entities"
        [Scale.le_bytes 4 id; []] = inl e ->
      GetEntity id w = failed _) /\
   (forall id,
      CreateStorageKey meta "TfgridModule" "Farms"
        [Scale.le_bytes 4 id; []] = inl e ->
      GetFarm id w = failed _) /\
   (forall id,
      CreateStorageKey meta "SmartContractModule" "Contracts"
        [Scale.le_bytes 8 id; []] = inl e ->
      GetContract id w = failed _) /\
   (forall node hash hashBytes,
      Scale.EncodeToBytes (Scale.EncodeString hash) = inr hashBytes ->
      CreateStorageKey meta "SmartContractModule" "ContractIDByNodeIDAndHash"
        [Scale.le_bytes 4 node; hashBytes; []] = inl e ->
      GetContractWithHash node hash w = failed _) /\
   (forall name nameBytes,
      Scale.EncodeToBytes (Scale.EncodeString name) = inr nameBytes ->
      CreateStorageKey meta "SmartContractModule"
        "ContractIDByNameRegistration" [nameBytes; []] = inl e ->
      GetContractIDByNameRegistration name w = failed _) /\
   (forall node,
      CreateStorageKey meta "SmartContractModule" "ActiveNodeContracts"
        [Scale.le_bytes 4 node] = inl e ->
      GetNodeContracts node w = failed _)) /\
  (pool_Get_ (chain w) = inr (cl, meta) ->
   (forall id,
      CreateStorageKey meta "TfgridModule" "Nodes"
        [Scale.le_bytes 4 id; []] = inl e ->
      GetNode id w = failed _) /\
   (forall twin,
      CreateStorageKey meta "TfgridModule" "NodeIdByTwinID"
        [Scale.le_bytes 4 twin; []] = inl e ->
      GetNodeByTwinID twin w = failed _)).
Proof.
  intros failed. subst failed.
  split; intros Hcl; repeat split; intros;
    cbv beta delta [GetEntity GetFarm GetContract GetContractWithHash
                    GetContractIDByNameRegistration GetNodeContracts
                    GetNode GetNodeByTwinID getClient pool_Get bind wrapErr
                    lift];
    rewrite Hcl, ?EncodeToBytes_U32, ?EncodeToBytes_U64;
    repeat match goal with
           | Hx : _ = inr _ |- _ => rewrite Hx; clear Hx
           end;
    match goal with Hk : _ = inl e |- _ => rewrite Hk end;
    reflexivity.
Qed.

(** X21: when the call cannot be built, every submitting operation
    returns the error of the construction wrapped ("failed to create
    call"; "failed to cancel call" for a cancellation) and submits
    nothing. *)
Theorem call_failure_submits_nothing (identity : Identity) (cl : Conn)
  (meta : Meta) (w : World) (e : error) :
  let failed (A : Type) : (error + A) * World :=
    (inl (Wrap e "failed to create call"), w) in
  (pool_Get_ (chain w) = inr (cl, meta) ->
   (forall node,
      Node.TwinID node <> 0 ->
      NewCall meta "TfgridModule.create_node"
        [ArgU32 (Node.FarmID node); ArgResources (Node.Resources node);
         ArgLocation (Node.Location node); ArgString (Node.Country node);
         ArgString (Node.City node); ArgInterfaces (Node.Interfaces node)]
      = inl e ->
      CreateNode identity node w = failed Z) /\
   (forall node,
      Node.TwinID node <> 0 ->
      NewCall meta "TfgridModule.update_node"
        [ArgU32 (Node.ID node); ArgU32 (Node.FarmID node);
         ArgResources (Node.Resources node);
         ArgLocation (Node.Location node); ArgString (Node.Country node);
         ArgString (Node.City node); ArgInterfaces (Node.Interfaces node)]
      = inl e ->
      UpdateNode identity node w = failed Z) /\
   (forall uptime,
      NewContractCall meta "TfgridModule.report_uptime" [CArgU64 uptime]
      = inl e ->
      UpdateNodeUptime identity uptime w = failed unit)) /\
  (getClient_ (chain w) = inr (cl, meta) ->
   (forall node body hash ips,
      NewContractCall meta "SmartContractModule.create_node_contract"
        [CArgU32 node; CArgBytes body; CArgString hash; CArgU32 ips]
      = inl e ->
      CreateNodeContract identity node body hash ips w = failed Z) /\
   (forall name,
      NewContractCall meta "SmartContractModule.create_name_contract"
        [CArgString name] = inl e ->
      CreateNameContract identity name w = failed Z) /\
   (forall node,
      NewCall meta "SmartContractModule.create_rent_contract" [ArgU32 node]
      = inl e ->
      CreateRentContract identity node w = failed Z) /\
   (forall contract body hash,
      NewContractCall meta "SmartContractModule.update_node_contract"
        [CArgU64 contract; CArgBytes body; CArgString hash] = inl e ->
      UpdateNodeContract identity contract body hash w = failed Z) /\
   (forall contract,
      NewContractCall meta "SmartContractModule.cancel_contract"
        [CArgU64 contract] = inl e ->
      CancelContract identity contract w
      = (inl (Wrap e "failed to cancel call"), w)) /\
   (forall resources,
      NewContractCall meta "SmartContractModule.report_contract_resources"
        [CArgContractResources resources] = inl e ->
      SetContractConsumption identity resources w = failed unit) /\
   (forall consumptions,
      NewContractCall meta "SmartContractModule.add_nru_reports"
        [CArgNruConsumptions consumptions] = inl e ->
      Report identity consumptions w = failed Hash)).
Proof.
  intros failed. subst failed.
  split; intros Hcl; repeat split; intros;
    cbv beta delta [CreateNode UpdateNode UpdateNodeUptime CreateNodeContract
                    CreateNameContract CreateRentContract UpdateNodeContract
                    CancelContract SetContractConsumption Report
                    getClient pool_Get bind wrapErr lift];
    rewrite Hcl;
    repeat match goal with
           | Hx : _ <> 0 |- _ => apply Z.eqb_neq in Hx; rewrite Hx; clear Hx
           end;
    match goal with Hk : _ = inl e |- _ => rewrite Hk end;
    reflexivity.
Qed.

(** X22: when the submission itself fails, the contract operations, the
    uptime report and the consumption report return its error under the
    message of the operation and stop: the dispatch is not checked and
    nothing is read. *)
Theorem submission_failure_is_wrapped (identity : Identity) (cl : Conn)
  (meta : Meta) (w : World) (c : Call_) (e : error) (ch : Chain) :
  Call_submit cl meta identity c (chain w) = (inl e, ch) ->
  let failed (A : Type) (msg : string) : (error + A) * World :=
    (inl (Wrap e msg), mkWorld ch (trace w ++ [EvCall c])) in
  (pool_Get_ (chain w) = inr (cl, meta) ->
   forall uptime,
     NewContractCall meta "TfgridModule.report_uptime" [CArgU64 uptime]
     = inr c ->
     UpdateNodeUptime identity uptime w
     = failed unit "failed to update node uptime") /\
  (getClient_ (chain w) = inr (cl, meta) ->
   (forall node body hash ips,
      NewContractCall meta "SmartContractModule.create_node_contract"
        [CArgU32 node; CArgBytes body; CArgString hash; CArgU32 ips]
      = inr c ->
      CreateNodeContract identity node body hash ips w
      = failed Z "failed to create contract") /\
   (forall name,
      NewContractCall meta "SmartContractModule.create_name_contract"
        [CArgString name] = inr c ->
      CreateNameContract identity name w
      = failed Z "failed to create contract") /\
   (forall node,
      NewCall meta "SmartContractModule.create_rent_contract" [ArgU32 node]
      = inr c ->
      CreateRentContract identity node w
      = failed Z "failed to create rent contract") /\
   (forall contract body hash,
      NewContractCall meta "SmartContractModule.update_node_contract"
        [CArgU64 contract; CArgBytes body; CArgString hash] = inr c ->
      UpdateNodeContract identity contract body hash w
      = failed Z "failed to update contract") /\
   (forall contract,
      NewContractCall meta "SmartContractModule.cancel_contract"
        [CArgU64 contract] = inr c ->
      CancelContract identity contract w
      = failed unit "failed to cancel contract") /\
   (forall resources,
      NewContractCall meta "SmartContractModule.report_contract_resources"
        [CArgContractResources resources] = inr c ->
      SetContractConsumption identity resources w
      = failed unit "failed to set contract used resources") /\
   (forall consumptions,
      NewContractCall meta "SmartContractModule.add_nru_reports"
        [CArgNruConsumptions consumptions] = inr c ->
      Report identity consumptions w
      = failed Hash "failed to create report")).
Proof.
  intros Hsub failed. subst failed.
  split; intros Hcl; repeat split; intros;
    cbv beta delta [UpdateNodeUptime CreateNodeContract CreateNameContract
                    CreateRentContract UpdateNodeContract CancelContract
                    SetContractConsumption Report getClient pool_Get bind
                    wrapErr lift Call log];
    rewrite Hcl;
    match goal with Hc : _ = inr c |- _ => rewrite Hc end;
    cbn [chain trace]; rewrite Hsub; reflexivity.
Qed.

End MoreClientProperties.

(** ** The claims on the simulated chain *)

#[local] Existing Instance Sim.backend.

(** Record 5 of each kind on an empty chain. *)
Lemma empty_buffer_is_not_found_witness :
  @GetEntity Sim.backend 5 (Sim.world [])
  = (inl (Wrap ErrNotFound "entity not found"),
     after (Sim.world []) [EvRead Sim.entityKey]) /\
  @GetFarm Sim.backend 5 (Sim.world [])
  = (inl (Wrap ErrNotFound "farm not found"),
     after (Sim.world []) [EvRead Sim.farmKey]) /\
  @GetNode Sim.backend 5 (Sim.world [])
  = (inl (Wrap ErrNotFound "node not found"),
     after (Sim.world []) [EvRead Sim.nodeKey]) /\
  @GetContract Sim.backend 5 (Sim.world [])
  = (inl (Wrap ErrNotFound "contract not found"),
     after (Sim.world []) [EvRead Sim.contractKey]).
Proof.
  split; [|split; [|split]].
  - apply (@empty_buffer_is_not_found Sim.backend tt tt Sim.entityKey
             (Sim.world [])); reflexivity.
  - apply (@empty_buffer_is_not_found Sim.backend tt tt Sim.farmKey
             (Sim.world [])); reflexivity.
  - apply (@empty_buffer_is_not_found Sim.backend tt tt Sim.nodeKey
             (Sim.world [])); reflexivity.
  - apply (@empty_buffer_is_not_found Sim.backend tt tt Sim.contractKey
             (Sim.world [])); reflexivity.
Defined.

(** Records stored under version 9, with decoders that accept every
    buffer. *)
Lemma unknown_version_rejected_witness :
  @GetEntity Sim.backend 5 (Sim.world Sim.store)
  = (inl ErrUnknownVersion,
     after (Sim.world Sim.store)
       [EvRead Sim.entityKey; EvGetVersion [9; 1; 2]]) /\
  @GetNode Sim.backend 5 (Sim.world Sim.store)
  = (inl ErrUnknownVersion,
     after (Sim.world Sim.store)
       [EvRead Sim.nodeKey; EvGetVersion [9; 1; 2]]) /\
  @GetFarm Sim.backend 5 (Sim.world Sim.store)
  = (inl ErrUnknownVersion,
     after (Sim.world Sim.store)
       [EvRead Sim.farmKey; EvGetVersion [9; 1; 2]]).
Proof.
  split; [|split].
  - apply (@unknown_version_rejected Sim.backend tt tt Sim.entityKey
             (Sim.world Sim.store) 9 [1; 2]); try reflexivity; lia.
  - apply (@unknown_version_rejected Sim.backend tt tt Sim.nodeKey
             (Sim.world Sim.store) 9 [1; 2]); try reflexivity; lia.
  - apply (@unknown_version_rejected Sim.backend tt tt Sim.farmKey
             (Sim.world Sim.store) 9 [1; 2]); try reflexivity; lia.
Defined.

(** A contract stored under version 9 is decoded. *)
Lemma getContract_no_version_dispatch_witness :
  @getContract Sim.backend tt Sim.contractKey (Sim.world Sim.store)
  = (inr Sim.contractValue,
     after (Sim.world Sim.store)
       [EvRead Sim.contractKey; EvDecode KContract Sim.contractBytes]).
Proof.
  refine (proj1 (@getContract_no_version_dispatch Sim.backend tt
                   Sim.contractKey (Sim.world Sim.store) Sim.contractBytes
                   _ _)).
  - reflexivity.
  - discriminate.
Defined.

(** The node index of twin 42 holds 0; the two contract indexes are
    empty. *)
Lemma index_zero_is_not_found_witness :
  @GetNodeByTwinID Sim.backend 42 (Sim.world Sim.store)
  = (inl (Wrap ErrNotFound "node not found"),
     after (Sim.world Sim.store) [EvRead (Sim.nodeIndexKey 42)]) /\
  @GetContractWithHash Sim.backend 5 "h" (Sim.world Sim.store)
  = (inl (Wrap ErrNotFound "contract not found"),
     after (Sim.world Sim.store) [EvRead Sim.hashKey]) /\
  @GetContractIDByNameRegistration Sim.backend "n" (Sim.world Sim.store)
  = (inl (Wrap ErrNotFound "contract not found"),
     after (Sim.world Sim.store) [EvRead Sim.nameKey]).
Proof.
  split; [|split].
  - apply (@index_zero_is_not_found Sim.backend tt tt (Sim.nodeIndexKey 42)
             (Sim.world Sim.store) [0; 0; 0; 0]); try reflexivity.
    right. reflexivity.
  - apply (@index_zero_is_not_found Sim.backend tt tt Sim.hashKey
             (Sim.world Sim.store) []) with (hashBytes := [4; 104]);
      try reflexivity.
    left. reflexivity.
  - apply (@index_zero_is_not_found Sim.backend tt tt Sim.nameKey
             (Sim.world Sim.store) []) with (nameBytes := [4; 110]);
      try reflexivity.
    left. reflexivity.
Defined.

(** Twin 42 rents node 5. *)
Lemma CreateRentContract_returns_zero_witness :
  @CreateRentContract Sim.backend 42 5 (Sim.world Sim.store)
  = (inr 0,
     @mkWorld Sim.backend Sim.store
       [EvCall ("SmartContractModule.create_rent_contract", [ArgU32 5]);
        EvCheckForError 99]).
Proof.
  apply (@CreateRentContract_returns_zero Sim.backend 42 5
           (Sim.world Sim.store) tt tt); reflexivity.
Defined.

(** Twin 42 creates a node on an empty chain and is answered 7, the
    identifier the chain filed under the twin. *)
Lemma node_id_read_back_by_twin_witness :
  @CreateNode Sim.backend 42 Sim.node (Sim.world [])
  = (inr 7,
     @mkWorld Sim.backend [(Sim.nodeIndexKey 42, [7; 0; 0; 0])]
       [EvCall ("TfgridModule.create_node",
                [ArgU32 3; ArgResources (Resources.mk 1 2 3 4);
                 ArgLocation (Location.mk "3.7" "51.0"); ArgString "BE";
                 ArgString "Ghent"; ArgInterfaces []]);
        EvRead (Sim.nodeIndexKey 42)]).
Proof.
  destruct (@node_id_read_back_by_twin Sim.backend 42 Sim.node
              (Sim.world []) tt tt
              ("TfgridModule.create_node",
               [ArgU32 3; ArgResources (Resources.mk 1 2 3 4);
                ArgLocation (Location.mk "3.7" "51.0"); ArgString "BE";
                ArgString "Ghent"; ArgInterfaces []])
              99 [(Sim.nodeIndexKey 42, [7; 0; 0; 0])])
    as (Hcreate & _ & Hread).
  - reflexivity.
  - cbn. lia.
  - reflexivity.
  - rewrite Hcreate by reflexivity.
    apply (Hread tt tt (Sim.nodeIndexKey 42) [7; 0; 0; 0] 7);
      try reflexivity; [discriminate | lia].
Defined.

(** ** The rest of the package on the simulated chain *)

#[local] Existing Instance SimCalls.builder.

Ltac wf_solve :=
  repeat first
    [ match goal with |- _ /\ _ => split end
    | match goal with |- _ = _ => reflexivity end
    | match goal with |- _ = _ -> _ =>
        let H := fresh in intros H; first [discriminate H | clear H]
      end
    | match goal with |- Forall _ _ => constructor end
    | match goal with |- True => exact I end
    | match goal with |- exactlyOne _ => reflexivity end
    | (unfold isU32, isU64, isOptU32, isOptU64, isString, isSeq,
         Scale.MaxUint32; cbn; lia) ].

(** A public config with an address, a gateway and a domain. *)
Lemma OptionPublicConfig_roundtrip_witness :
  OptionPublicConfig_valid SimCalls.publicConfig /\
  exists bs,
    (forall out, OptionPublicConfig_Encode SimCalls.publicConfig out
                 = (inr tt, out ++ bs)) /\
    (forall rest, OptionPublicConfig_Decode OptionPublicConfig_zero
                    (bs ++ rest) = (inr SimCalls.publicConfig, rest)).
Proof.
  assert (H : OptionPublicConfig_valid SimCalls.publicConfig).
  { unfold OptionPublicConfig_valid, PublicConfig_wf. cbn. wf_solve. }
  split; [exact H | exact (@OptionPublicConfig_roundtrip SimCalls.publicConfig H)].
Defined.

(** A limit on policy 1 with a compute bound and a node count. *)
Lemma OptionFarmingPolicyLimit_roundtrip_witness :
  OptionFarmingPolicyLimit_valid SimCalls.policyLimit /\
  exists bs,
    (forall out, OptionFarmingPolicyLimit_Encode SimCalls.policyLimit out
                 = (inr tt, out ++ bs)) /\
    (forall rest, OptionFarmingPolicyLimit_Decode
                    OptionFarmingPolicyLimit_zero (bs ++ rest)
                  = (inr SimCalls.policyLimit, rest)).
Proof.
  assert (H : OptionFarmingPolicyLimit_valid SimCalls.policyLimit).
  { unfold OptionFarmingPolicyLimit_valid, FarmingPolicyLimit_wf. cbn.
    wf_solve. }
  split; [exact H | exact (@OptionFarmingPolicyLimit_roundtrip SimCalls.policyLimit H)].
Defined.

(** The option byte 9. *)
Lemma option_unknown_byte_rejected_witness :
  OptionPublicConfig_Decode OptionPublicConfig_zero [9; 1]
  = (inl (Errorf "unknown value for Option" []), [1]) /\
  OptionFarmingPolicyLimit_Decode OptionFarmingPolicyLimit_zero [9; 1]
  = (inl (Errorf "unknown value for Option" []), [1]).
Proof.
  assert (H0 : 9 <> 0) by lia. assert (H1 : 9 <> 1) by lia.
  destruct (@option_unknown_byte_rejected 9 [1] H0 H1) as (A & C).
  split; [apply A | apply C].
Defined.


(** The reason byte 7. *)
Lemma deleted_reason_errors_are_wrapped_witness :
  ContractState.Decode ContractState.zero [1; 7; 0]
  = (inl (Wrap (Errorf "unknown deleted state value" [])
            "failed to get deleted state"), [0]).
Proof.
  apply (proj2 (deleted_reason_errors_are_wrapped ContractState.zero));
    lia.
Defined.

(** The stored contract with two bytes after it. *)
Lemma getContract_returns_stored_witness :
  @getContract Sim.backend tt Sim.contractKey (Sim.world SimCalls.store)
  = (inr Sim.contractValue,
     after (Sim.world SimCalls.store)
       [EvRead Sim.contractKey;
        EvDecode KContract (Sim.contractBytes ++ [255; 255])]).
Proof.
  apply (@getContract_returns_stored Sim.backend tt Sim.contractKey
           (Sim.world SimCalls.store) Sim.contractValue Sim.contractBytes
           [255; 255]).
  - unfold Contract_valid, ContractState_valid, ContractState_idle_zero,
      ContractType_valid, ContractType_idle_zero, NodeContract_wf,
      NameContract_wf, RentContract_wf. cbn. wf_solve.
  - reflexivity.
  - reflexivity.
Defined.

(** Records stored under version 1. *)
Lemma supported_version_is_decoded_witness :
  @GetEntity Sim.backend 5 (Sim.world SimCalls.store)
  = (inr (Entity.mk (Versioned.mk 1) 0 "" 0 "" ""),
     after (Sim.world SimCalls.store)
       [EvRead Sim.entityKey; EvGetVersion [1; 7];
        EvDecode KEntity [1; 7]]) /\
  fst (@getNode Sim.backend tt Sim.nodeKey (Sim.world SimCalls.store))
  = @DecodeNode Sim.backend [1; 7] /\
  fst (@GetFarm Sim.backend 5 (Sim.world SimCalls.store))
  = @DecodeFarm Sim.backend [1; 7].
Proof.
  split; [|split].
  - apply (@supported_version_is_decoded Sim.backend tt tt Sim.entityKey
             (Sim.world SimCalls.store) 1 [7]); reflexivity.
  - rewrite (proj1 (proj2 (@supported_version_is_decoded Sim.backend tt tt
                             Sim.nodeKey (Sim.world SimCalls.store) 1 [7]
                             eq_refl))); [reflexivity|].
    right. left. reflexivity.
  - rewrite (proj2 (proj2 (@supported_version_is_decoded Sim.backend tt tt
                             Sim.farmKey (Sim.world SimCalls.store) 1 [7]
                             eq_refl)) 5 eq_refl eq_refl);
      [reflexivity|]. left. reflexivity.
Defined.

(** Without a connection. *)
Lemma no_client_no_effect_witness :
  @GetEntity SimCalls.offline 5 (@mkWorld SimCalls.offline SimCalls.store [])
  = (inl SimCalls.noConnection, @mkWorld SimCalls.offline SimCalls.store []) /\
  @CreateNodeContract SimCalls.offline SimCalls.offlineBuilder 42 5 [1] "h" 0
    (@mkWorld SimCalls.offline SimCalls.store [])
  = (inl SimCalls.noConnection, @mkWorld SimCalls.offline SimCalls.store []) /\
  @CreateNode SimCalls.offline 42 Sim.node
    (@mkWorld SimCalls.offline SimCalls.store [])
  = (inl SimCalls.noConnection, @mkWorld SimCalls.offline SimCalls.store []).
Proof.
  destruct (@no_client_no_effect SimCalls.offline SimCalls.offlineBuilder
              (@mkWorld SimCalls.offline SimCalls.store [])
              SimCalls.noConnection) as [Hc Hp].
  specialize (Hc eq_refl). specialize (Hp eq_refl).
  split; [apply Hc|]. split; [apply Hc | apply Hp].
Defined.

(** With reads that fail. *)
Lemma read_failure_is_wrapped_witness :
  @GetEntity SimCalls.broken 5 (@mkWorld SimCalls.broken [] [])
  = (inl (Wrap SimCalls.noConnection "failed to lookup entity"),
     @mkWorld SimCalls.broken [] [@EvRead SimCalls.broken Sim.entityKey]) /\
  @GetNodeContracts SimCalls.broken 5 (@mkWorld SimCalls.broken [] [])
  = (inl (Wrap SimCalls.noConnection "failed to lookup contracts"),
     @mkWorld SimCalls.broken [] [@EvRead SimCalls.broken SimCalls.activeKey]).
Proof.
  split.
  - apply (@read_failure_is_wrapped SimCalls.broken tt tt Sim.entityKey
             (@mkWorld SimCalls.broken [] []) SimCalls.noConnection);
      reflexivity.
  - apply (@read_failure_is_wrapped SimCalls.broken tt tt SimCalls.activeKey
             (@mkWorld SimCalls.broken [] []) SimCalls.noConnection);
      reflexivity.
Defined.

(** A node without a twin. *)
Lemma twin_id_is_required_witness :
  @CreateNode Sim.backend 42 SimCalls.nodeNoTwin (Sim.world [])
  = (inl (Errorf "twin id is required" []), Sim.world []) /\
  @UpdateNode Sim.backend 42 SimCalls.nodeNoTwin (Sim.world [])
  = (inl (Errorf "twin id is required" []), Sim.world []).
Proof.
  apply (@twin_id_is_required Sim.backend 42 SimCalls.nodeNoTwin
           (Sim.world []) tt tt); reflexivity.
Defined.

(** With submissions that fail. *)
Lemma failed_node_submission_reads_nothing_witness :
  @CreateNode SimCalls.broken 42 Sim.node (@mkWorld SimCalls.broken [] [])
  = (inl (Wrap SimCalls.noConnection "failed to create node"),
     @mkWorld SimCalls.broken []
       [@EvCall SimCalls.broken
          ("TfgridModule.create_node",
           [ArgU32 3; ArgResources (Resources.mk 1 2 3 4);
            ArgLocation (Location.mk "3.7" "51.0"); ArgString "BE";
            ArgString "Ghent"; ArgInterfaces []])]).
Proof.
  apply (@failed_node_submission_reads_nothing SimCalls.broken 42 Sim.node
           (@mkWorld SimCalls.broken [] []) tt tt
           ("TfgridModule.create_node",
            [ArgU32 3; ArgResources (Resources.mk 1 2 3 4);
             ArgLocation (Location.mk "3.7" "51.0"); ArgString "BE";
             ArgString "Ghent"; ArgInterfaces []])
           SimCalls.noConnection []); try reflexivity.
  cbn. lia.
Defined.

(** The hash index of node 5 holds contract 3. *)
Lemma lookup_success_is_nonzero_witness :
  @GetContractWithHash Sim.backend 5 "h" (Sim.world SimCalls.store)
  = (inr 3, after (Sim.world SimCalls.store) [EvRead Sim.hashKey]) /\
  3 <> 0.
Proof.
  split; [reflexivity|].
  apply (proj1 (proj2 (@lookup_success_is_nonzero Sim.backend
                         (Sim.world SimCalls.store)
                         (after (Sim.world SimCalls.store)
                            [@EvRead Sim.backend Sim.hashKey]) 3)) 5 "h").
  reflexivity.
Defined.

(** Twin 42 creates a node and is answered 7. *)
Lemma creation_success_is_nonzero_witness : 7 <> 0.
Proof.
  apply (proj1 (@creation_success_is_nonzero Sim.backend SimCalls.builder 42
                  (Sim.world [])
                  (@mkWorld Sim.backend [(Sim.nodeIndexKey 42, [7; 0; 0; 0])]
                     [@EvCall Sim.backend
                        ("TfgridModule.create_node",
                         [ArgU32 3; ArgResources (Resources.mk 1 2 3 4);
                          ArgLocation (Location.mk "3.7" "51.0");
                          ArgString "BE"; ArgString "Ghent";
                          ArgInterfaces []]);
                      @EvRead Sim.backend (Sim.nodeIndexKey 42)]) 7) Sim.node).
  reflexivity.
Defined.

(** Twin 42 creates a contract on node 5 with hash "h" and is answered
    with the contract the hash index holds. *)
Lemma contract_creation_reads_back_witness :
  @CreateNodeContract Sim.backend SimCalls.builder 42 5 [1; 2] "h" 0
    (Sim.world SimCalls.store)
  = (inr 3,
     @mkWorld Sim.backend SimCalls.store
       [EvCall ("SmartContractModule.create_node_contract",
                [ArgU32 5; ArgString (Scale.stringOfBytes [1; 2]);
                 ArgString "h"; ArgU32 0]);
        EvCheckForError 99; EvRead Sim.hashKey]).
Proof.
  rewrite (proj1 (@contract_creation_reads_back Sim.backend SimCalls.builder
                    42 (Sim.world SimCalls.store) tt tt
                    ("SmartContractModule.create_node_contract",
                     [ArgU32 5; ArgString (Scale.stringOfBytes [1; 2]);
                      ArgString "h"; ArgU32 0])
                    99 SimCalls.store eq_refl eq_refl eq_refl)
             5 [1; 2] "h" 0 eq_refl).
  reflexivity.
Defined.

(** The same creation on a chain that fails every dispatch. *)
Lemma dispatch_failure_is_returned_witness :
  @CreateNodeContract SimCalls.failing SimCalls.failingBuilder 42 5 [1; 2]
    "h" 0 (@mkWorld SimCalls.failing SimCalls.store [])
  = (inl SimCalls.dispatchError,
     @mkWorld SimCalls.failing SimCalls.store
       [@EvCall SimCalls.failing
          ("SmartContractModule.create_node_contract",
           [ArgU32 5; ArgString (Scale.stringOfBytes [1; 2]);
            ArgString "h"; ArgU32 0]);
        @EvCheckForError SimCalls.failing 99]).
Proof.
  apply (@dispatch_failure_is_returned SimCalls.failing
           SimCalls.failingBuilder 42
           (@mkWorld SimCalls.failing SimCalls.store []) tt tt
           ("SmartContractModule.create_node_contract",
            [ArgU32 5; ArgString (Scale.stringOfBytes [1; 2]);
             ArgString "h"; ArgU32 0])
           99 SimCalls.store SimCalls.dispatchError); reflexivity.
Defined.

(** The name "n" is registered to contract 3. *)
Lemma lookup_returns_stored_id_witness :
  @GetContractIDByNameRegistration Sim.backend "n" (Sim.world SimCalls.store)
  = (inr 3, after (Sim.world SimCalls.store) [EvRead Sim.nameKey]).
Proof.
  assert (H3 : 3 <> 0) by lia.
  apply (proj2 (proj2 (@lookup_returns_stored_id Sim.backend tt tt
                         Sim.nameKey (Sim.world SimCalls.store) 3 [] H3))
           "n" [4; 110]); try reflexivity.
  unfold isU64. cbn. lia.
Defined.

(** Node 5 has the active contracts 3 and 4; on an empty chain it has
    none. *)
Lemma GetNodeContracts_answers_witness :
  @GetNodeContracts Sim.backend 5 (Sim.world [])
  = (inr [], after (Sim.world []) [EvRead SimCalls.activeKey]) /\
  @GetNodeContracts Sim.backend 5 (Sim.world SimCalls.store)
  = (inr [3; 4], after (Sim.world SimCalls.store) [EvRead SimCalls.activeKey]).
Proof.
  split.
  - apply (@GetNodeContracts_answers Sim.backend tt tt SimCalls.activeKey
             (Sim.world []) 5 eq_refl eq_refl). reflexivity.
  - apply (proj2 (@GetNodeContracts_answers Sim.backend tt tt
                    SimCalls.activeKey (Sim.world SimCalls.store) 5
                    eq_refl eq_refl))
      with (bs := [8; 3; 0; 0; 0; 0; 0; 0; 0; 4; 0; 0; 0; 0; 0; 0; 0])
           (extra := []).
    + unfold isSeq, Scale.MaxUint32. cbn. lia.
    + repeat constructor; unfold isU64; cbn; lia.
    + reflexivity.
    + reflexivity.
Defined.


(** A grace period that started at block 1, followed by one more byte. *)
Lemma decode_then_encode_witness :
  ContractState.Decode ContractState.zero [2; 1; 0; 0; 0; 0; 0; 0; 0; 9]
  = (inr (ContractState.mk false false DeletedState.zero true 1), [9]) /\
  exists bs,
    ContractState.Encode
      (ContractState.mk false false DeletedState.zero true 1) []
    = (inr tt, bs) /\
    [2; 1; 0; 0; 0; 0; 0; 0; 0; 9] = bs ++ [9].
Proof.
  split; [reflexivity|].
  destruct decode_then_encode as (_ & _ & _ & _ & H).
  apply (H [2; 1; 0; 0; 0; 0; 0; 0; 0; 9]).
  - reflexivity.
  - repeat constructor; unfold isByte; lia.
  - discriminate.
Defined.

(** With metadata that knows no storage item. *)
Lemma key_failure_reads_nothing_witness :
  @GetEntity SimCalls.stale 5 (@mkWorld SimCalls.stale SimCalls.store [])
  = (inl (Wrap SimCalls.noMetadata "failed to create substrate query key"),
     @mkWorld SimCalls.stale SimCalls.store []) /\
  @GetNodeByTwinID SimCalls.stale 42
    (@mkWorld SimCalls.stale SimCalls.store [])
  = (inl (Wrap SimCalls.noMetadata "failed to create substrate query key"),
     @mkWorld SimCalls.stale SimCalls.store []).
Proof.
  destruct (@key_failure_reads_nothing SimCalls.stale
              tt tt (@mkWorld SimCalls.stale SimCalls.store [])
              SimCalls.noMetadata) as [Hc Hp].
  specialize (Hc eq_refl). specialize (Hp eq_refl).
  split.
  - apply Hc. reflexivity.
  - apply Hp. reflexivity.
Defined.

(** With metadata that knows no call. *)
Lemma call_failure_submits_nothing_witness :
  @CreateNode SimCalls.stale 42 Sim.node
    (@mkWorld SimCalls.stale SimCalls.store [])
  = (inl (Wrap SimCalls.noMetadata "failed to create call"),
     @mkWorld SimCalls.stale SimCalls.store []) /\
  @CancelContract SimCalls.stale SimCalls.staleBuilder 42 3
    (@mkWorld SimCalls.stale SimCalls.store [])
  = (inl (Wrap SimCalls.noMetadata "failed to cancel call"),
     @mkWorld SimCalls.stale SimCalls.store []).
Proof.
  destruct (@call_failure_submits_nothing SimCalls.stale
              SimCalls.staleBuilder 42 tt tt
              (@mkWorld SimCalls.stale SimCalls.store [])
              SimCalls.noMetadata) as [Hp Hc].
  specialize (Hc eq_refl). specialize (Hp eq_refl).
  split.
  - apply Hp; [cbn; lia | reflexivity].
  - apply Hc. reflexivity.
Defined.

(** With submissions that fail: a cancellation and an uptime report. *)
Lemma submission_failure_is_wrapped_witness :
  @CancelContract SimCalls.broken SimCalls.brokenBuilder 42 3
    (@mkWorld SimCalls.broken [] [])
  = (inl (Wrap SimCalls.noConnection "failed to cancel contract"),
     @mkWorld SimCalls.broken []
       [@EvCall SimCalls.broken
          ("SmartContractModule.cancel_contract", [ArgU32 3])]) /\
  @UpdateNodeUptime SimCalls.broken SimCalls.brokenBuilder 42 3600
    (@mkWorld SimCalls.broken [] [])
  = (inl (Wrap SimCalls.noConnection "failed to update node uptime"),
     @mkWorld SimCalls.broken []
       [@EvCall SimCalls.broken ("TfgridModule.report_uptime", [ArgU32 3600])]).
Proof.
  split.
  - apply (@submission_failure_is_wrapped SimCalls.broken
             SimCalls.brokenBuilder 42 tt tt (@mkWorld SimCalls.broken [] [])
             ("SmartContractModule.cancel_contract", [ArgU32 3])
             SimCalls.noConnection []); reflexivity.
  - apply (@submission_failure_is_wrapped SimCalls.broken
             SimCalls.brokenBuilder 42 tt tt (@mkWorld SimCalls.broken [] [])
             ("TfgridModule.report_uptime", [ArgU32 3600])
             SimCalls.noConnection []); reflexivity.
Defined.
